(** * Slyft command-line client: response decoding, selection and job polling

    A shallow embedding of the Go sources [duplicated.go], [assets.go] and of
    the transport and job files of the Slyft CLI.  Pure Go functions are Rocq
    functions; functions that talk to the outside world (HTTP, the console,
    the credential file, the clock) run in a small state-and-panic monad over
    an explicit [World].

    Conventions.  Go [int] is a 64-bit integer, written as a [Z] with its
    wrap-around spelled out where the program subtracts.  A slice is a list;
    the nil slice and the empty slice are both the empty list, which the
    program cannot tell apart since it only takes lengths and indexes.  A
    pointer is an [option], [None] for nil.  A Go result made of a value and
    an error is a sum, the error on the left.  A run-time panic is an outcome
    of its own, [Panic], next to [Ret].  Debug logging and the deferred
    closing of response bodies have no part in any result and are left
    out. *)

From Stdlib Require Import ZArith String Ascii List Bool Lia DecimalString.
From Stdlib Require Import DecimalPos DecimalZ.
Import ListNotations.
Local Open Scope string_scope.
Local Open Scope Z_scope.

(** ** Go preliminaries *)

Definition int_min : Z := - 2 ^ 63.
Definition int_max : Z := 2 ^ 63 - 1.

Definition is_int (z : Z) : bool := (int_min <=? z) && (z <=? int_max).

(** Two's complement wrap-around of a 64-bit [int]. *)
Definition wrapInt (z : Z) : Z := (z + 2 ^ 63) mod 2 ^ 64 - 2 ^ 63.

Definition intSub (a b : Z) : Z := wrapInt (a - b).

(** [len(s)] of a slice. *)
Definition len {A : Type} (s : list A) : Z := Z.of_nat (length s).

(** The verb [%d] of [fmt]. *)
Definition fmt_d (z : Z) : string := NilZero.string_of_int (Z.to_int z).

(** Go [error] values.  Errors made by this program carry their message;
    errors of the standard library and of collaborators are kept apart by
    their origin. *)
Inductive error : Type :=
| errors_New (msg : string)
| SyntaxError
| UnmarshalTypeError (field : string)
| TimeParseError (value : string)
| ExternalError (msg : string).

(** A Go call either returns or panics (a run-time error such as a nil
    dereference or an index out of range). *)
Inductive Outcome (A : Type) : Type :=
| Ret (a : A)
| Panic (why : string).
Arguments Ret {A} a.
Arguments Panic {A} why.

Definition nil_dereference : string :=
  "invalid memory address or nil pointer dereference".
Definition index_out_of_range : string := "index out of range".
Definition slice_out_of_range : string := "slice bounds out of range".

(** ** JSON texts and [encoding/json]

    A response body that is a JSON text is represented by its syntax tree.
    Number literals without fraction and exponent are [JInt]; every other
    number literal is [JFloat]. *)
#[warnings="-register-all"]
Inductive json : Type :=
| JNull
| JBool (b : bool)
| JInt (z : Z)
| JFloat (literal : string)
| JStr (s : string)
| JArr (items : list json)
| JObj (members : list (string * json)).

(** The bytes read from a body: a JSON text, or anything else. *)
Inductive BodyText : Type :=
| Malformed
| Parsed (j : json).

Definition toUpperAscii (c : ascii) : ascii :=
  let n := nat_of_ascii c in
  if ((97 <=? n) && (n <=? 122))%nat then ascii_of_nat (n - 32) else c.

(** Key folding of [encoding/json]: ASCII letters lose their case, and the
    two code points whose Unicode case orbit meets ASCII, the Kelvin sign
    U+212A (bytes 226 132 170) and the long s U+017F (bytes 197 191), fold to
    K and S. *)
Fixpoint foldName (s : string) : string :=
  match s with
  | EmptyString => EmptyString
  | String c rest =>
      match rest with
      | EmptyString => String (toUpperAscii c) EmptyString
      | String c1 rest1 =>
          if ((nat_of_ascii c =? 197) && (nat_of_ascii c1 =? 191))%nat
          then String "S"%char (foldName rest1)
          else
            match rest1 with
            | EmptyString => String (toUpperAscii c) (foldName rest)
            | String c2 rest2 =>
                if ((nat_of_ascii c =? 226) && (nat_of_ascii c1 =? 132)
                    && (nat_of_ascii c2 =? 170))%nat
                then String "K"%char (foldName rest2)
                else String (toUpperAscii c) (foldName rest)
            end
      end
  end.

(** A JSON member name selects the struct field whose [json] tag it equals
    up to folding. *)
Definition keyIs (key tag : string) : bool :=
  String.eqb (foldName key) (foldName tag).

Definition andThen {A B : Type} (r : error + A) (k : A -> error + B)
  : error + B :=
  match r with
  | inl err => inl err
  | inr a => k a
  end.

(** Decoding a JSON value into a Go [int]: [null] leaves the field as it is,
    an integer literal in range is stored, anything else is a type error. *)
Definition decInt (field : string) (v : json) (old : Z) : error + Z :=
  match v with
  | JNull => inr old
  | JInt z => if is_int z then inr z else inl (UnmarshalTypeError field)
  | _ => inl (UnmarshalTypeError field)
  end.

Definition decString (field : string) (v : json) (old : string)
  : error + string :=
  match v with
  | JNull => inr old
  | JStr s => inr s
  | _ => inl (UnmarshalTypeError field)
  end.

(** Elements of a JSON array are decoded one by one, in order, each into a
    fresh zero value; the first failure fails the whole array. *)
Fixpoint decElems {A : Type} (elem : json -> error + A) (items : list json)
  : error + list A :=
  match items with
  | [] => inr []
  | it :: rest =>
      andThen (elem it) (fun a =>
      andThen (decElems elem rest) (fun l => inr (a :: l)))
  end.

(** Decoding into a slice: [null] gives the nil slice (the empty list), an
    array gives its elements, anything else is a type error. *)
Definition decSlice {A : Type} (field : string) (elem : json -> error + A)
  (v : json) : error + list A :=
  match v with
  | JNull => inr []
  | JArr items => decElems elem items
  | _ => inl (UnmarshalTypeError field)
  end.

(** Members of a JSON object are stored one by one, in order, so that a
    repeated name overrides. *)
Fixpoint decMembers {A : Type} (setField : A -> string -> json -> error + A)
  (members : list (string * json)) (acc : A) : error + A :=
  match members with
  | [] => inr acc
  | (key, v) :: rest =>
      andThen (setField acc key v) (fun acc' => decMembers setField rest acc')
  end.

(** Decoding into a struct value: [null] is a no-op, an object sets the
    fields it names, anything else is a type error. *)
Definition decStruct {A : Type} (field : string)
  (setField : A -> string -> json -> error + A) (v : json) (old : A)
  : error + A :=
  match v with
  | JNull => inr old
  | JObj members => decMembers setField members old
  | _ => inl (UnmarshalTypeError field)
  end.

(** ** Domain records *)

Record JobResults : Type := mkJobResults {
  ResultMessage : string;
  ResultStatus : Z;
  ResultAssets : list string;
  ResultDetails : list string
}.

Definition zeroJobResults : JobResults := mkJobResults "" 0 [] [].

Definition setJobResultsField (r : JobResults) (key : string) (v : json)
  : error + JobResults :=
  if keyIs key "resultMessage" then
    andThen (decString "resultMessage" v (ResultMessage r)) (fun x =>
    inr (mkJobResults x (ResultStatus r) (ResultAssets r) (ResultDetails r)))
  else if keyIs key "resultStatus" then
    andThen (decInt "resultStatus" v (ResultStatus r)) (fun x =>
    inr (mkJobResults (ResultMessage r) x (ResultAssets r) (ResultDetails r)))
  else if keyIs key "resultAssets" then
    andThen (decSlice "resultAssets" (fun e => decString "resultAssets" e "") v)
      (fun x =>
    inr (mkJobResults (ResultMessage r) (ResultStatus r) x (ResultDetails r)))
  else if keyIs key "resultDetails" then
    andThen (decSlice "resultDetails" (fun e => decString "resultDetails" e "") v)
      (fun x =>
    inr (mkJobResults (ResultMessage r) (ResultStatus r) (ResultAssets r) x))
  else inr r.

(** Modelled from the spec: the [Project] type is declared in a source file
    that is not available; the spec gives it an identifier and a name and a
    job-collection endpoint [/v1/projects/{pid}/jobs]. *)
Record Project : Type := mkProject {
  Project_ID : Z;
  Project_Name : string
}.

(** Modelled from the spec: the method [JobsUrl] of a project pointer, the
    project's job-collection
    endpoint [/v1/projects/{pid}/jobs]; it reads [p.ID], so a nil receiver
    panics. *)
Definition JobsUrl (p : option Project) : Outcome string :=
  match p with
  | None => Panic nil_dereference
  | Some p => Ret ("/v1/projects/" ++ fmt_d (Project_ID p) ++ "/jobs")
  end.

(** The credentials kept in the local configuration. *)
Record SlyftAuth : Type := mkSlyftAuth {
  AccessToken : string;
  Client : string;
  Uid : string
}.

(** ** HTTP responses

    [Body] is what [ioutil.ReadAll(resp.Body)] gives: a read error or the
    bytes of the body. *)
Record Response : Type := mkResponse {
  StatusCode : Z;
  Body : error + BodyText
}.

Definition StatusOK : Z := 200.
Definition StatusCreated : Z := 201.

(** [json.Unmarshal]: the text is checked first, then decoded. *)
Definition Unmarshal {A : Type} (dec : json -> error + A) (body : BodyText)
  : error + A :=
  match body with
  | Malformed => inl SyntaxError
  | Parsed v => dec v
  end.

(** Decoding into a pointer that already points to a value: [null] sets the
    pointer to nil, any other value is decoded into the pointee. *)
Definition decPtr {A : Type} (dec : json -> A -> error + A) (pointee : A)
  (v : json) : error + option A :=
  match v with
  | JNull => inr None
  | _ => andThen (dec v pointee) (fun a => inr (Some a))
  end.

Definition newline : string := String (ascii_of_nat 10) EmptyString.

(** [duplicated.go], [respCodeToErrorMsg]. *)
Definition respCodeToErrorMsg (resp : Response) (expectedCode : Z) : string :=
  if StatusCode resp =? 401 then "Unauthorized, please log in first."
  else "Unexpected return code from API, was=" ++ fmt_d (StatusCode resp)
       ++ ", expected=" ++ fmt_d expectedCode.

Definition validInt (v : json) : bool :=
  match v with
  | JNull => true
  | JInt z => is_int z
  | _ => false
  end.

Definition validString (v : json) : bool :=
  match v with
  | JNull | JStr _ => true
  | _ => false
  end.

Definition validStrings (v : json) : bool :=
  match v with
  | JNull => true
  | JArr items => forallb validString items
  | _ => false
  end.

Definition validJobResultsMember (kv : string * json) : bool :=
  let (key, v) := kv in
  if keyIs key "resultMessage" then validString v
  else if keyIs key "resultStatus" then validInt v
  else if keyIs key "resultAssets" then validStrings v
  else if keyIs key "resultDetails" then validStrings v
  else true.

Definition validJobResults (v : json) : bool :=
  match v with
  | JNull => true
  | JObj members => forallb validJobResultsMember members
  | _ => false
  end.

(** A sample [time] package and a sample validity check, for the examples:
    instants are kept as their text, which must at least be long enough for a
    date, and credentials are good when they carry a token. *)
Definition sampleParseTime (s : string) : option string :=
  if (10 <=? String.length s)%nat then Some s else None.

Definition hasToken (auth : SlyftAuth) : bool :=
  negb (String.eqb (AccessToken auth) "").

Section Slyft.

(** The [time] package: the type of instants, its zero value, and the
    RFC 3339 parser behind [Time.UnmarshalJSON]. *)
Context {Time : Type} (zeroTime : Time) (parseTime : string -> option Time).

Definition decTime (v : json) (old : Time) : error + Time :=
  match v with
  | JNull => inr old
  | JStr s =>
      match parseTime s with
      | Some t => inr t
      | None => inl (TimeParseError s)
      end
  | _ => inl (TimeParseError "")
  end.

(** [assets.go], [type Asset]. *)
Record Asset : Type := mkAsset {
  Asset_ID : Z;
  Asset_Name : string;
  Asset_ProjectId : Z;
  Asset_ProjectName : string;
  Asset_Origin : string;
  Asset_CreatedAt : Time;
  Asset_UpdatedAt : Time
}.

Definition zeroAsset : Asset := mkAsset 0 "" 0 "" "" zeroTime zeroTime.

(** [type Job]. *)
Record Job : Type := mkJob {
  Job_ID : Z;
  Job_Kind : string;
  Job_Status : string;
  Job_Results : JobResults;
  Job_ProjectId : Z;
  Job_ProjectName : string;
  Job_CreatedAt : Time;
  Job_UpdatedAt : Time
}.

Definition zeroJob : Job := mkJob 0 "" "" zeroJobResults 0 "" zeroTime zeroTime.

(** The field of [Asset] selected by a member name, by the [json] tags. *)
Definition setAssetField (a : Asset) (key : string) (v : json)
  : error + Asset :=
  if keyIs key "id" then
    andThen (decInt "id" v (Asset_ID a)) (fun x =>
    inr (mkAsset x (Asset_Name a) (Asset_ProjectId a) (Asset_ProjectName a)
           (Asset_Origin a) (Asset_CreatedAt a) (Asset_UpdatedAt a)))
  else if keyIs key "name" then
    andThen (decString "name" v (Asset_Name a)) (fun x =>
    inr (mkAsset (Asset_ID a) x (Asset_ProjectId a) (Asset_ProjectName a)
           (Asset_Origin a) (Asset_CreatedAt a) (Asset_UpdatedAt a)))
  else if keyIs key "project_id" then
    andThen (decInt "project_id" v (Asset_ProjectId a)) (fun x =>
    inr (mkAsset (Asset_ID a) (Asset_Name a) x (Asset_ProjectName a)
           (Asset_Origin a) (Asset_CreatedAt a) (Asset_UpdatedAt a)))
  else if keyIs key "project_name" then
    andThen (decString "project_name" v (Asset_ProjectName a)) (fun x =>
    inr (mkAsset (Asset_ID a) (Asset_Name a) (Asset_ProjectId a) x
           (Asset_Origin a) (Asset_CreatedAt a) (Asset_UpdatedAt a)))
  else if keyIs key "origin" then
    andThen (decString "origin" v (Asset_Origin a)) (fun x =>
    inr (mkAsset (Asset_ID a) (Asset_Name a) (Asset_ProjectId a)
           (Asset_ProjectName a) x (Asset_CreatedAt a) (Asset_UpdatedAt a)))
  else if keyIs key "created_at" then
    andThen (decTime v (Asset_CreatedAt a)) (fun x =>
    inr (mkAsset (Asset_ID a) (Asset_Name a) (Asset_ProjectId a)
           (Asset_ProjectName a) (Asset_Origin a) x (Asset_UpdatedAt a)))
  else if keyIs key "updated_at" then
    andThen (decTime v (Asset_UpdatedAt a)) (fun x =>
    inr (mkAsset (Asset_ID a) (Asset_Name a) (Asset_ProjectId a)
           (Asset_ProjectName a) (Asset_Origin a) (Asset_CreatedAt a) x))
  else inr a.

Definition decAsset (v : json) (old : Asset) : error + Asset :=
  decStruct "Asset" setAssetField v old.

(** The field of [Job] selected by a member name, by the [json] tags. *)
Definition setJobField (j : Job) (key : string) (v : json) : error + Job :=
  if keyIs key "id" then
    andThen (decInt "id" v (Job_ID j)) (fun x =>
    inr (mkJob x (Job_Kind j) (Job_Status j) (Job_Results j) (Job_ProjectId j)
           (Job_ProjectName j) (Job_CreatedAt j) (Job_UpdatedAt j)))
  else if keyIs key "kind" then
    andThen (decString "kind" v (Job_Kind j)) (fun x =>
    inr (mkJob (Job_ID j) x (Job_Status j) (Job_Results j) (Job_ProjectId j)
           (Job_ProjectName j) (Job_CreatedAt j) (Job_UpdatedAt j)))
  else if keyIs key "status" then
    andThen (decString "status" v (Job_Status j)) (fun x =>
    inr (mkJob (Job_ID j) (Job_Kind j) x (Job_Results j) (Job_ProjectId j)
           (Job_ProjectName j) (Job_CreatedAt j) (Job_UpdatedAt j)))
  else if keyIs key "results" then
    andThen (decStruct "results" setJobResultsField v (Job_Results j)) (fun x =>
    inr (mkJob (Job_ID j) (Job_Kind j) (Job_Status j) x (Job_ProjectId j)
           (Job_ProjectName j) (Job_CreatedAt j) (Job_UpdatedAt j)))
  else if keyIs key "project_id" then
    andThen (decInt "project_id" v (Job_ProjectId j)) (fun x =>
    inr (mkJob (Job_ID j) (Job_Kind j) (Job_Status j) (Job_Results j) x
           (Job_ProjectName j) (Job_CreatedAt j) (Job_UpdatedAt j)))
  else if keyIs key "project_name" then
    andThen (decString "project_name" v (Job_ProjectName j)) (fun x =>
    inr (mkJob (Job_ID j) (Job_Kind j) (Job_Status j) (Job_Results j)
           (Job_ProjectId j) x (Job_CreatedAt j) (Job_UpdatedAt j)))
  else if keyIs key "created_at" then
    andThen (decTime v (Job_CreatedAt j)) (fun x =>
    inr (mkJob (Job_ID j) (Job_Kind j) (Job_Status j) (Job_Results j)
           (Job_ProjectId j) (Job_ProjectName j) x (Job_UpdatedAt j)))
  else if keyIs key "updated_at" then
    andThen (decTime v (Job_UpdatedAt j)) (fun x =>
    inr (mkJob (Job_ID j) (Job_Kind j) (Job_Status j) (Job_Results j)
           (Job_ProjectId j) (Job_ProjectName j) (Job_CreatedAt j) x))
  else inr j.

Definition decJob (v : json) (old : Job) : error + Job :=
  decStruct "Job" setJobField v old.

(** [assets.go], [extractAssetsFromBody]: [assets := make([]Asset, 0)], then
    [json.Unmarshal(body, &assets)]. *)
Definition extractAssetsFromBody (body : BodyText) : error + list Asset :=
  match Unmarshal (decSlice "[]Asset" (fun e => decAsset e zeroAsset)) body with
  | inl err => inl err
  | inr assets => inr assets
  end.

(** [assets.go], [extractAssetFromBody]: [a := &Asset{}], then
    [json.Unmarshal(body, &a)] decodes through the pointer [a], and
    [[]Asset{*a}] dereferences it. *)
Definition extractAssetFromBody (body : BodyText)
  : Outcome (error + list Asset) :=
  match Unmarshal (decPtr decAsset zeroAsset) body with
  | inl err => Ret (inl err)
  | inr None => Panic nil_dereference
  | inr (Some a) => Ret (inr [a])
  end.

(** [extractJobsFromBody]. *)
Definition extractJobsFromBody (body : BodyText) : error + list Job :=
  match Unmarshal (decSlice "[]Job" (fun e => decJob e zeroJob)) body with
  | inl err => inl err
  | inr jobs => inr jobs
  end.

(** [extractJobFromBody]. *)
Definition extractJobFromBody (body : BodyText) : Outcome (error + list Job) :=
  match Unmarshal (decPtr decJob zeroJob) body with
  | inl err => Ret (inl err)
  | inr None => Panic nil_dereference
  | inr (Some a) => Ret (inr [a])
  end.

(** [duplicated.go], [extractAssetFromResponse]. *)
Definition extractAssetFromResponse (resp : Response) (expectedCode : Z)
  (listExpected : bool) : Outcome (error + list Asset) :=
  if negb (StatusCode resp =? expectedCode) then
    Ret (inl (errors_New (respCodeToErrorMsg resp expectedCode)))
  else
    match Body resp with
    | inl err => Ret (inl err)
    | inr body =>
        if negb (StatusCode resp =? expectedCode) then
          Ret (inl (errors_New ("Failed with the wrong code: "
                                ++ fmt_d (StatusCode resp) ++ ". (expected "
                                ++ fmt_d expectedCode ++ ")" ++ newline)))
        else if listExpected then Ret (extractAssetsFromBody body)
        else extractAssetFromBody body
    end.

(** [duplicated.go], [extractJobFromResponse]. *)
Definition extractJobFromResponse (resp : Response) (expectedCode : Z)
  (listExpected : bool) : Outcome (error + list Job) :=
  if negb (StatusCode resp =? expectedCode) then
    Ret (inl (errors_New (respCodeToErrorMsg resp expectedCode)))
  else
    match Body resp with
    | inl err => Ret (inl err)
    | inr body =>
        if negb (StatusCode resp =? expectedCode) then
          Ret (inl (errors_New ("Failed with the wrong code: "
                                ++ fmt_d (StatusCode resp) ++ ". (expected "
                                ++ fmt_d expectedCode ++ ")" ++ newline)))
        else if listExpected then Ret (extractJobsFromBody body)
        else extractJobFromBody body
    end.

(** A valid record: a JSON object whose members, where they name a field,
    hold a value of the field's type. *)
Definition validTime (v : json) : bool :=
  match v with
  | JNull => true
  | JStr s => match parseTime s with Some _ => true | None => false end
  | _ => false
  end.

Definition validAssetMember (kv : string * json) : bool :=
  let (key, v) := kv in
  if keyIs key "id" then validInt v
  else if keyIs key "name" then validString v
  else if keyIs key "project_id" then validInt v
  else if keyIs key "project_name" then validString v
  else if keyIs key "origin" then validString v
  else if keyIs key "created_at" then validTime v
  else if keyIs key "updated_at" then validTime v
  else true.

Definition validAssetRecord (v : json) : bool :=
  match v with
  | JObj members => forallb validAssetMember members
  | _ => false
  end.

Definition validJobMember (kv : string * json) : bool :=
  let (key, v) := kv in
  if keyIs key "id" then validInt v
  else if keyIs key "kind" then validString v
  else if keyIs key "status" then validString v
  else if keyIs key "results" then validJobResults v
  else if keyIs key "project_id" then validInt v
  else if keyIs key "project_name" then validString v
  else if keyIs key "created_at" then validTime v
  else if keyIs key "updated_at" then validTime v
  else true.

Definition validJobRecord (v : json) : bool :=
  match v with
  | JObj members => forallb validJobMember members
  | _ => false
  end.

(** Modelled from the spec: the validity check [GoodForLogin] of the
    credential store is declared in a source file that is not available; it is
    a parameter. *)
Variable GoodForLogin : SlyftAuth -> bool.

(** [type JobParam]. *)
Record JobParam : Type := mkJobParam { JobParam_Job : Job }.

(** The [params] argument of [Do], an [interface{}]: [nil] or a job
    parameter. *)
Inductive Params : Type :=
| NoParams
| JobParams (p : JobParam).

(** ** The world outside the program

    What the program does to the outside is recorded, in order, as events. *)
Inductive Event : Type :=
| Printed (text : string)
| LoggedCritical (text : string) (err : error)
| LoggedError (text : string)
| Reported (label : string) (err : error)
| Slept (seconds : Z)
| Sent (method url : string) (params : Params) (auth : SlyftAuth)
| Prompted (message : string)
| ShownJob (j : Job)
| ShownJobs (jobs : list Job)
| ShownAsset (a : Asset)
| ShownAssets (assets : list Asset).

(** What the outside does to the program is read from oracles:
    [requestError] is the verdict of [http.NewRequest] on a method and a URL,
    [credentials] the outcome of [readAuthFromConfig], [network] the outcome
    of the n-th [client.Do] and [keyboard] that of the n-th
    [ReadUserIntInput]; [sent] and [asked] count the calls made so far. *)
Record World : Type := mkWorld {
  BackendBaseUrl : string;
  requestError : string -> string -> option error;
  credentials : error + SlyftAuth;
  network : nat -> error + Response;
  sent : nat;
  keyboard : nat -> error + Z;
  asked : nat;
  trace : list Event
}.

Definition M (A : Type) : Type := World -> Outcome A * World.

Definition ret {A : Type} (a : A) : M A := fun w => (Ret a, w).

Definition bind {A B : Type} (m : M A) (k : A -> M B) : M B :=
  fun w =>
    match m w with
    | (Ret a, w') => k a w'
    | (Panic why, w') => (Panic why, w')
    end.

Notation "x <- m ;; k" := (bind m (fun x => k))
  (at level 61, m at next level, right associativity).
Notation "m ;;; k" := (bind m (fun _ => k))
  (at level 61, right associativity).

Definition lift {A : Type} (o : Outcome A) : M A := fun w => (o, w).

(** The world after some more events. *)
Definition record (es : list Event) (w : World) : World :=
  mkWorld (BackendBaseUrl w) (requestError w) (credentials w) (network w)
    (sent w) (keyboard w) (asked w) (trace w ++ es).

Definition emit (e : Event) : M unit := fun w => (Ret tt, record [e] w).

(** [client.Do(req)]: the request goes out and the next reply comes in. *)
Definition roundTrip (method url : string) (params : Params)
  (auth : SlyftAuth) : M (error + Response) :=
  fun w =>
    (Ret (network w (sent w)),
     mkWorld (BackendBaseUrl w) (requestError w) (credentials w) (network w)
       (S (sent w)) (keyboard w) (asked w)
       (trace w ++ [Sent method url params auth])).

(** Modelled from the spec: [ReadUserIntInput], the user-input prompt, is
    declared in a source file that is not available; it shows the message and
    reads an integer. *)
Definition ReadUserIntInput (message : string) : M (error + Z) :=
  fun w =>
    (Ret (keyboard w (asked w)),
     mkWorld (BackendBaseUrl w) (requestError w) (credentials w) (network w)
       (sent w) (keyboard w) (S (asked w)) (trace w ++ [Prompted message])).

(** Modelled from the spec: [ReportError] reports an error to the user with a
    short contextual label. *)
Definition ReportError (label : string) (err : error) : M unit :=
  emit (Reported label err).

(** Modelled from the spec: [readAuthFromConfig] reads the locally persisted
    credentials; it fails with an error or gives the credentials (a pointer
    that is not nil). *)
Definition readAuthFromConfig : M (error + SlyftAuth) :=
  fun w => (Ret (credentials w), w).

Definition NewRequest (method url : string) : M (option error) :=
  fun w => (Ret (requestError w method url), w).

(** [s[i]]: an index outside the slice is a run-time panic. *)
Definition index {A : Type} (s : list A) (i : Z) : M A :=
  if (i <? 0) || (len s <=? i) then lift (Panic index_out_of_range)
  else
    match nth_error s (Z.to_nat i) with
    | Some a => ret a
    | None => lift (Panic index_out_of_range)
    end.

(** [s[low:]]: the bounds must satisfy [0 <= low <= len(s)]. *)
Definition sliceFrom {A : Type} (s : list A) (low : Z) : M (list A) :=
  if (low <? 0) || (len s <? low) then lift (Panic slice_out_of_range)
  else ret (skipn (Z.to_nat low) s).

(** ** Transport *)

Definition ServerURL (endpoint : string) : M string :=
  fun w => (Ret (BackendBaseUrl w ++ endpoint), w).

Definition not_logged_in : string :=
  "You do not seem to be logged in. Please do a `slyft user login`" ++ newline.

(** [Do]: build the request, read the credentials, warn when they are not
    good for login, add the headers and send. *)
Definition Do (resource method : string) (params : Params)
  : M (error + Response) :=
  url <- ServerURL resource ;;
  reqErr <- NewRequest method url ;;
  match reqErr with
  | Some err =>
      emit (LoggedCritical "Failed to create a request: " err) ;;;
      ret (inl err)
  | None =>
      a <- readAuthFromConfig ;;
      match a with
      | inl err => emit (Printed not_logged_in) ;;; ret (inl err)
      | inr auth =>
          (if negb (GoodForLogin auth) then emit (Printed not_logged_in)
           else ret tt) ;;;
          roundTrip method url params auth
      end
  end.

(** ** Jobs *)

(** [Display] of a job pointer: nothing for nil, else the detail table. *)
Definition Job_Display (j : option Job) : M unit :=
  match j with
  | None => ret tt
  | Some j => emit (ShownJob j)
  end.

Definition DisplayJobs (jobs : list Job) : M unit :=
  if len jobs =? 0 then emit (Printed ("No jobs found" ++ newline))
  else if len jobs =? 1 then (j <- index jobs 0 ;; Job_Display (Some j))
  else emit (ShownJobs jobs).

(** [chooseJob], from the emptiness test on: what is done with the jobs
    once they are fetched.  The Go result, a job pointer and an error, is an
    error or a pointer. *)
Definition pickJob (jobs : list Job) (askUser : bool) (message : string)
  : M (error + option Job) :=
  if len jobs =? 0 then ret (inl (errors_New "No job. Sorry"))
  else
    DisplayJobs jobs ;;;
    if len jobs =? 1 then (j <- index jobs 0 ;; ret (inr (Some j)))
    else if negb askUser then ret (inr None)
    else
      c <- ReadUserIntInput message ;;
      match c with
      | inl err => ret (inl err)
      | inr choice =>
          if choice >? len jobs then
            ret (inl (errors_New "Plese choose a number from the first column"))
          else (j <- index jobs (intSub choice 1) ;; ret (inr (Some j)))
      end.

(** [chooseJob]. *)
Definition chooseJob (endpoint : string) (askUser : bool) (message : string)
  : M (error + option Job) :=
  r <- Do endpoint "GET" NoParams ;;
  match r with
  | inl err => ret (inl err)
  | inr resp =>
      x <- lift (extractJobFromResponse resp StatusOK true) ;;
      match x with
      | inl err => ret (inl err)
      | inr jobs => pickJob jobs askUser message
      end
  end.

(** [creatJobParam] reads [p.ID]. *)
Definition creatJobParam (kind : string) (p : option Project)
  : Outcome JobParam :=
  match p with
  | None => Panic nil_dereference
  | Some p =>
      Ret (mkJobParam (mkJob 0 kind "" zeroJobResults (Project_ID p) ""
                         zeroTime zeroTime))
  end.

(** The method [EndPoint] of a job pointer reads [job.ProjectId] and
    [job.ID]. *)
Definition endPointText (j : Job) : string :=
  "/v1/projects/" ++ fmt_d (Job_ProjectId j) ++ "/jobs/" ++ fmt_d (Job_ID j).

Definition Job_EndPoint (job : option Job) : Outcome string :=
  match job with
  | None => Panic nil_dereference
  | Some j => Ret (endPointText j)
  end.

(** The end of [waitForJobCompletion], after the loop; it reads [job.ID]. *)
Definition reportTimeout (job : option Job) : M bool :=
  match job with
  | None => lift (Panic nil_dereference)
  | Some j =>
      emit (Printed ("Job " ++ fmt_d (Job_ID j)
                     ++ " did not complete in time. Please check manually using `slyft project status`")) ;;;
      ret false
  end.

(** The [for wait > 0] loop of [waitForJobCompletion].  [fuel] bounds the
    number of iterations; [Z.to_nat wait] is always enough. *)
Fixpoint waitLoop (fuel : nat) (job : option Job) (wait : Z) : M bool :=
  match fuel with
  | O => reportTimeout job
  | S fuel' =>
      if wait >? 0 then
        let wait := wait - 5 in
        emit (Slept 5) ;;;
        emit (Printed ".") ;;;
        endpoint <- lift (Job_EndPoint job) ;;
        r <- Do endpoint "GET" NoParams ;;
        match r with
        | inl _ => ret false
        | inr resp =>
            x <- lift (extractJobFromResponse resp StatusOK false) ;;
            match x with
            | inr jobs =>
                if len jobs =? 1 then
                  j <- index jobs 0 ;;
                  if String.eqb (Job_Status j) "processed" then
                    Job_Display (Some j) ;;; ret true
                  else waitLoop fuel' job wait
                else waitLoop fuel' job wait
            | inl _ => waitLoop fuel' job wait
            end
        end
      else reportTimeout job
  end.

Definition waitForJobCompletion (job : option Job) (wait : Z) : M bool :=
  emit (Printed ("Waiting (" ++ fmt_d wait ++ "s) for job completion..")) ;;;
  waitLoop (Z.to_nat wait) job wait.

(** Modelled from the spec: [chooseProject] (project selection by name) and
    [strings.TrimSpace] are not among the available sources; they are
    parameters, [chooseProject] with whatever effects it has. *)
Variable chooseProject : string -> string -> M (error + option Project).
Variable TrimSpace : string -> string.

(** [postNewJob]. *)
Definition postNewJob (kind name : string) : M (option Job) :=
  r <- chooseProject name (kind ++ " project: ") ;;
  match r with
  | inl err => ReportError "Choosing a project" err ;;; ret None
  | inr p =>
      url <- lift (JobsUrl p) ;;
      param <- lift (creatJobParam kind p) ;;
      r <- Do url "POST" (JobParams param) ;;
      match r with
      | inl err => ReportError "Contacting the server" err ;;; ret None
      | inr resp =>
          x <- lift (extractJobFromResponse resp StatusCreated false) ;;
          match x with
          | inl err =>
              ReportError "Reading the server response" err ;;; ret None
          | inr jobs =>
              if len jobs =? 1 then
                j <- index jobs 0 ;;
                Job_Display (Some j) ;;;
                ret (Some j)
              else
                emit (LoggedError
                        "Error, creating a new job returned wrong job") ;;;
                ret None
          end
      end
  end.

(** The action of the [build] command; [wait] is the pointer returned by
    [cmd.IntOpt]. *)
Definition buildProject (name : string) (wait : option Z) : M unit :=
  job <- postNewJob "build" (TrimSpace name) ;;
  match wait with
  | Some n => waitForJobCompletion job n ;;; ret tt
  | None => ret tt
  end.

(** The action of the [validate] command. *)
Definition validateProject (name : string) (wait : option Z) : M unit :=
  job <- postNewJob "validate" (TrimSpace name) ;;
  match wait with
  | Some n => waitForJobCompletion job n ;;; ret tt
  | None => ret tt
  end.

(** ** Assets *)

Definition Asset_Display (a : option Asset) : M unit :=
  match a with
  | None => ret tt
  | Some a => emit (ShownAsset a)
  end.

Definition DisplayAssets (assets : list Asset) : M unit :=
  if len assets =? 0 then emit (Printed ("No assets found" ++ newline))
  else if len assets =? 1 then (a <- index assets 0 ;; Asset_Display (Some a))
  else emit (ShownAssets assets).

(** [chooseAsset], from the emptiness test on: what is done with the assets
    once they are fetched. *)
Definition pickAsset (assets : list Asset) (askUser : bool) (message : string)
  (count : Z) : M (error + option Asset) :=
  if len assets =? 0 then ret (inl (errors_New "No asset. Sorry"))
  else
    assets <- (if negb (count =? 0)
               then sliceFrom assets (intSub (len assets) count)
               else ret assets) ;;
    DisplayAssets assets ;;;
    if len assets =? 1 then (a <- index assets 0 ;; ret (inr (Some a)))
    else if negb askUser then ret (inr None)
    else
      c <- ReadUserIntInput message ;;
      match c with
      | inl err => ret (inl err)
      | inr choice =>
          if choice >? len assets then
            ret (inl (errors_New "Plese choose a number from the first column"))
          else (a <- index assets (intSub choice 1) ;; ret (inr (Some a)))
      end.

(** [chooseAsset]. *)
Definition chooseAsset (endpoint : string) (askUser : bool) (message : string)
  (count : Z) : M (error + option Asset) :=
  r <- Do endpoint "GET" NoParams ;;
  match r with
  | inl err => ret (inl err)
  | inr resp =>
      x <- lift (extractAssetFromResponse resp StatusOK true) ;;
      match x with
      | inl err => ret (inl err)
      | inr assets => pickAsset assets askUser message count
      end
  end.

(** ** Further commands and methods *)

(** [assets.go], the method [EndPoint] of an asset pointer; it reads
    [ass.ProjectId] and [ass.ID]. *)
Definition Asset_EndPoint (ass : option Asset) : Outcome string :=
  match ass with
  | None => Panic nil_dereference
  | Some a =>
      Ret ("/v1/projects/" ++ fmt_d (Asset_ProjectId a) ++ "/assets/"
           ++ fmt_d (Asset_ID a))
  end.

(** Modelled from the spec: the method [AssetsUrl] of a project pointer, the
    project's asset-collection endpoint [/v1/projects/{pid}/assets]; it reads
    [p.ID], so a nil receiver panics. *)
Definition AssetsUrl (p : option Project) : Outcome string :=
  match p with
  | None => Panic nil_dereference
  | Some p => Ret ("/v1/projects/" ++ fmt_d (Project_ID p) ++ "/assets")
  end.

(** The rows that the loop of [DisplayJobs] appends, from index [i] on:
    the number [i+1], then the identifier, kind, status and project name. *)
Fixpoint jobRowsFrom (i : Z) (jobs : list Job) : list (list string) :=
  match jobs with
  | [] => []
  | j :: rest =>
      [fmt_d (i + 1); fmt_d (Job_ID j); Job_Kind j; Job_Status j;
       Job_ProjectName j] :: jobRowsFrom (i + 1) rest
  end.

Definition jobRows (jobs : list Job) : list (list string) :=
  jobRowsFrom 0 jobs.

(** The rows that the loop of [DisplayAssets] appends. *)
Fixpoint assetRowsFrom (i : Z) (assets : list Asset) : list (list string) :=
  match assets with
  | [] => []
  | a :: rest =>
      [fmt_d (i + 1); Asset_Name a; Asset_ProjectName a; Asset_Origin a]
        :: assetRowsFrom (i + 1) rest
  end.

Definition assetRows (assets : list Asset) : list (list string) :=
  assetRowsFrom 0 assets.

(** Modelled from the spec: the lock-file resolver [ReadProjectLock], the
    removal [DeleteApiModel] and the body decoders of projects are declared
    in source files that are not available; they are parameters, with
    whatever effects they have.  Every caller discards the error that
    [ReadProjectLock] returns beside the name.  [reportNoError] is
    [ReportError] called with a nil error. *)
Variable ReadProjectLock : M string.
Variable reportNoError : string -> M unit.
Variable DeleteApiModel : option Asset -> M unit.
Variable extractProjectsFromBody : BodyText -> Outcome (error + list Project).
Variable extractProjectFromBody : BodyText -> Outcome (error + list Project).

(** [duplicated.go], [extractProjectFromResponse]. *)
Definition extractProjectFromResponse (resp : Response) (expectedCode : Z)
  (listExpected : bool) : Outcome (error + list Project) :=
  if negb (StatusCode resp =? expectedCode) then
    Ret (inl (errors_New (respCodeToErrorMsg resp expectedCode)))
  else
    match Body resp with
    | inl err => Ret (inl err)
    | inr body =>
        if negb (StatusCode resp =? expectedCode) then
          Ret (inl (errors_New ("Failed with the wrong code: "
                                ++ fmt_d (StatusCode resp) ++ ". (expected "
                                ++ fmt_d expectedCode ++ ")" ++ newline)))
        else if listExpected then extractProjectsFromBody body
        else extractProjectFromBody body
    end.

(** The project name a command works with: the trimmed option, or the
    locked project when the option is empty. *)
Definition resolveName (name : string) : M string :=
  if String.eqb (TrimSpace name) "" then ReadProjectLock
  else ret (TrimSpace name).

(** The action of the asset [list] command. *)
Definition listAssets (name : string) (all : bool) : M unit :=
  if all then (_ <- chooseAsset "/v1/assets" false "" 0 ;; ret tt)
  else
    name <- resolveName name ;;
    r <- chooseProject name "Which project's assets would you like to see: " ;;
    match r with
    | inl err => ReportError "Choosing the project" err
    | inr p =>
        url <- lift (AssetsUrl p) ;;
        r <- chooseAsset url false "" 0 ;;
        match r with
        | inl err => ReportError "Choosing the asset" err
        | inr _ => ret tt
        end
    end.

(** The end of the action of the asset [delete] command: report, or
    remove the chosen asset. *)
Definition removeChosen (r : error + option Asset) : M unit :=
  match r with
  | inl err => ReportError "Choosing the asset" err
  | inr ass => DeleteApiModel ass
  end.

(** The action of the asset [delete] command.  When the project cannot be
    chosen the action reports the variable [err], which is still nil
    there, and returns. *)
Definition removeAsset (name : string) (all : bool) (count : Z) : M unit :=
  name <- resolveName name ;;
  if all then
    (r <- chooseAsset "/v1/assets" true "Which one shall be deleted: " 0 ;;
     removeChosen r)
  else if String.eqb name "" then
    (r <- chooseAsset "/v1/assets" true "Which one shall be deleted: " count ;;
     removeChosen r)
  else
    r2 <- chooseProject name "Which project's assets would you like to see: " ;;
    match r2 with
    | inl _ => reportNoError "Choosing the project"
    | inr p =>
        url <- lift (AssetsUrl p) ;;
        r <- chooseAsset url true "Which one shall be removed: " count ;;
        removeChosen r
    end.

(** The action of the job [status] command.  After the listing of all jobs
    there is no return: the action goes on with the project. *)
Definition jobStatusProject (name : string) (all : bool) : M unit :=
  name <- resolveName name ;;
  (if all || String.eqb name "" then
     r <- chooseJob "/v1/jobs" false "" ;;
     match r with
     | inl err => ReportError "Choosing the job" err
     | inr _ => reportNoError "Choosing the job"
     end
   else ret tt) ;;;
  r <- chooseProject name "Which project's jobs would you like to see: " ;;
  match r with
  | inl err => ReportError "Choosing the project" err
  | inr p =>
      url <- lift (JobsUrl p) ;;
      r <- chooseJob url true "Select a job id to show more details: " ;;
      match r with
      | inl err => ReportError "Selecting the job" err
      | inr job => Job_Display job
      end
  end.

(** ** Notions used by the statements *)

(** The warning of [Do] for credentials that are not good for login. *)
Definition warning (auth : SlyftAuth) : list Event :=
  if GoodForLogin auth then [] else [Printed not_logged_in].

(** The world after a request went out. *)
Definition afterSend (method url : string) (params : Params)
  (auth : SlyftAuth) (w : World) : World :=
  mkWorld (BackendBaseUrl w) (requestError w) (credentials w) (network w)
    (S (sent w)) (keyboard w) (asked w)
    (trace w ++ warning auth ++ [Sent method url params auth]).

(** The world after the user was asked. *)
Definition afterPrompt (message : string) (w : World) : World :=
  mkWorld (BackendBaseUrl w) (requestError w) (credentials w) (network w)
    (sent w) (keyboard w) (S (asked w)) (trace w ++ [Prompted message]).

(** The job a poll fetches from a reply, if it does. *)
Definition fetchedJob (reply : error + Response) : option Job :=
  match reply with
  | inl _ => None
  | inr resp =>
      match extractJobFromResponse resp StatusOK false with
      | Ret (inr [j]) => Some j
      | _ => None
      end
  end.

(** A poll that fetches the job with status [processed]. *)
Definition processedReply (reply : error + Response) : bool :=
  match fetchedJob reply with
  | Some j => String.eqb (Job_Status j) "processed"
  | None => false
  end.

(** The URL polled for a job. *)
Definition pollUrl (w : World) (job : Job) : string :=
  BackendBaseUrl w ++ endPointText job.

(** The world after the sleep of one iteration of the polling loop. *)
Definition slept (w : World) : World := record [Slept 5; Printed "."] w.

(** The events of one poll. *)
Definition pollEvents (w : World) (job : Job) (auth : SlyftAuth)
  : list Event :=
  [Slept 5; Printed "."] ++ warning auth
  ++ [Sent "GET" (pollUrl w job) NoParams auth].

Definition timeoutMessage (job : Job) : string :=
  "Job " ++ fmt_d (Job_ID job)
  ++ " did not complete in time. Please check manually using `slyft project status`".

(** The tail narrowing of [chooseAsset] on its own: the list that is shown
    and selected from, when the slice expression does not panic. *)
Definition narrowed (assets : list Asset) (count : Z)
  : option (list Asset) :=
  if count =? 0 then Some assets
  else
    let low := intSub (len assets) count in
    if (low <? 0) || (len assets <? low) then None
    else Some (skipn (Z.to_nat low) assets).

(** The world after one poll went out. *)
Definition polled (job : Job) (auth : SlyftAuth) (w : World) : World :=
  afterSend "GET" (pollUrl w job) NoParams auth (slept w).

(** A computation that never panics for the given reason. *)
Definition neverPanics {A : Type} (why : string) (m : M A) : Prop :=
  forall w, fst (m w) <> Panic why.

(** Two worlds that differ at most in what was written so far. *)
Definition agree (w w' : World) : Prop :=
  BackendBaseUrl w = BackendBaseUrl w'
  /\ requestError w = requestError w'
  /\ credentials w = credentials w'
  /\ network w = network w'
  /\ sent w = sent w'
  /\ keyboard w = keyboard w'
  /\ asked w = asked w'.

(** A computation that leaves the oracles alone, only appends to the
    trace, sends at most [s] requests and asks the user at most [a] times,
    however it ends. *)
Definition within (s a : nat) {A : Type} (m : M A) : Prop :=
  forall w,
    BackendBaseUrl (snd (m w)) = BackendBaseUrl w
    /\ requestError (snd (m w)) = requestError w
    /\ credentials (snd (m w)) = credentials w
    /\ network (snd (m w)) = network w
    /\ keyboard (snd (m w)) = keyboard w
    /\ (sent w <= sent (snd (m w)) <= sent w + s)%nat
    /\ (asked w <= asked (snd (m w)) <= asked w + a)%nat
    /\ exists es, trace (snd (m w)) = (trace w ++ es)%list.

(** The announcement of [waitForJobCompletion]. *)
Definition announcement (wait : Z) : string :=
  "Waiting (" ++ fmt_d wait ++ "s) for job completion..".

(** Whether a text contains the separator of URL paths. *)
Fixpoint hasSlash (s : string) : bool :=
  match s with
  | EmptyString => false
  | String c rest => Ascii.eqb c "/" || hasSlash rest
  end.

(** ** Sample data *)

Definition sampleAuth : SlyftAuth :=
  mkSlyftAuth "token" "client" "user@example.org".

Definition jobText (id : Z) (status : string) : json :=
  JObj [("id", JInt id); ("kind", JStr "build"); ("status", JStr status);
        ("project_id", JInt 3)].

Definition jobReply (status : string) : error + Response :=
  inr (mkResponse 200 (inr (Parsed (jobText 7 status)))).

Definition jobsReply (jobs : list json) : error + Response :=
  inr (mkResponse 200 (inr (Parsed (JArr jobs)))).

Definition assetText (id : Z) (name : string) : json :=
  JObj [("id", JInt id); ("name", JStr name); ("project_id", JInt 3)].

Definition assetsReply (assets : list json) : error + Response :=
  inr (mkResponse 200 (inr (Parsed (JArr assets)))).

Definition sampleJob (status : string) : Job :=
  mkJob 7 "build" status zeroJobResults 3 "" zeroTime zeroTime.

Definition sampleAsset (id : Z) (name : string) : Asset :=
  mkAsset id name 3 "" "" zeroTime zeroTime.

Definition unreachable : error := ExternalError "connection refused".
Definition noConfig : error := ExternalError "no configuration file".

Definition scripted {A : Type} (script : list A) (default : A) : nat -> A :=
  fun n => nth n script default.

(** A world with the given credentials, replies and user inputs, at its
    start. *)
Definition sampleWorld (creds : error + SlyftAuth)
  (replies : list (error + Response)) (inputs : list (error + Z)) : World :=
  mkWorld "https://api.example.org" (fun _ _ => None) creds
    (scripted replies (inl unreachable)) 0
    (scripted inputs (inl (ExternalError "EOF"))) 0 [].

(** A world in which every poll finds the job still running. *)
Definition runningWorld : World :=
  mkWorld "https://api.example.org" (fun _ _ => None) (inr sampleAuth)
    (fun _ => jobReply "running") 0 (fun _ => inl (ExternalError "EOF")) 0 [].

(** A project selection that finds the given project. *)
Definition foundProject (p : Project)
  : string -> string -> M (error + option Project) :=
  fun _ _ => ret (inr (Some p)).

(** Samples of the other collaborators: no locked project, a silent report
    of a nil error, a removal by a DELETE request to the endpoint of the
    asset, and body decoders of projects that find none. *)
Definition noLock : M string := ret "".

Definition silentReport : string -> M unit := fun _ => ret tt.

Definition deleteByRequest (ass : option Asset) : M unit :=
  endpoint <- lift (Asset_EndPoint ass) ;;
  _ <- Do endpoint "DELETE" NoParams ;;
  ret tt.

Definition noProjects : BodyText -> Outcome (error + list Project) :=
  fun _ => Ret (inr []).

Definition sampleProject : Project := mkProject 3 "shop".

(** Whitespace trimming that leaves a text as it is, for texts without
    surrounding whitespace. *)
Definition asIs (s : string) : string := s.

(** A project selection that finds nothing. *)
Definition noProject : string -> string -> M (error + option Project) :=
  fun _ _ => ret (inl (errors_New "No project. Sorry")).

(** * Properties *)

(** ** The response decoder *)

Lemma decInt_valid (field : string) (v : json) (old : Z) :
  validInt v = true -> exists z, decInt field v old = inr z.
Proof.
  destruct v; simpl; try discriminate; intros H; eauto.
  rewrite H. eauto.
Qed.

Lemma decString_valid (field : string) (v : json) (old : string) :
  validString v = true -> exists s, decString field v old = inr s.
Proof. destruct v; simpl; try discriminate; eauto. Qed.

Lemma decTime_valid (v : json) (old : Time) :
  validTime v = true -> exists t, decTime v old = inr t.
Proof.
  destruct v; simpl; try discriminate; eauto.
  destruct (parseTime s); try discriminate; eauto.
Qed.

(** An array whose elements all decode gives the list of the decoded
    elements, one per element and in the order of the array. *)
Lemma decElems_all {A : Type} (elem : json -> error + A) (items : list json) :
  (forall it, In it items -> exists a, elem it = inr a) ->
  exists l, decElems elem items = inr l
            /\ Forall2 (fun it a => elem it = inr a) items l.
Proof.
  induction items as [|it rest IH]; intros Hall; simpl.
  - exists []. split; [reflexivity | constructor].
  - destruct (Hall it (or_introl eq_refl)) as [a Ha].
    destruct IH as [l [Hl Hf]].
    { intros x Hx. apply Hall. right. exact Hx. }
    rewrite Ha, Hl. simpl. exists (a :: l). split; [reflexivity|].
    constructor; assumption.
Qed.

Lemma decStrings_valid (field : string) (v : json) :
  validStrings v = true ->
  exists l, decSlice field (fun e => decString field e "") v = inr l.
Proof.
  destruct v; simpl; try discriminate; eauto.
  intros H.
  destruct (decElems_all (fun e => decString field e "") items) as [l [Hl _]].
  - intros it Hin. apply decString_valid.
    rewrite forallb_forall in H. apply H. exact Hin.
  - eauto.
Qed.

Lemma decMembers_valid {A : Type}
  (setField : A -> string -> json -> error + A)
  (valid : string * json -> bool) (members : list (string * json)) :
  (forall a key v, valid (key, v) = true -> exists a', setField a key v = inr a') ->
  forallb valid members = true ->
  forall a, exists a', decMembers setField members a = inr a'.
Proof.
  intros Hset. induction members as [|[key v] rest IH]; simpl; intros H a.
  - eauto.
  - apply andb_true_iff in H. destruct H as [Hkv Hrest].
    destruct (Hset a key v Hkv) as [a1 Ha1]. rewrite Ha1. simpl.
    apply IH. exact Hrest.
Qed.

(** Closes a field case of a [set...Field] function: the decoder of the
    field succeeds by the given lemma. *)
Ltac field_ok lemma H :=
  let x := fresh "x" in
  let Hx := fresh "Hx" in
  destruct lemma as [x Hx]; [exact H | rewrite Hx; simpl; eauto].

Lemma setJobResultsField_valid (r : JobResults) (key : string) (v : json) :
  validJobResultsMember (key, v) = true ->
  exists r', setJobResultsField r key v = inr r'.
Proof.
  unfold validJobResultsMember, setJobResultsField. intros H.
  destruct (keyIs key "resultMessage").
  { field_ok (decString_valid "resultMessage" v (ResultMessage r)) H. }
  destruct (keyIs key "resultStatus").
  { field_ok (decInt_valid "resultStatus" v (ResultStatus r)) H. }
  destruct (keyIs key "resultAssets").
  { field_ok (decStrings_valid "resultAssets" v) H. }
  destruct (keyIs key "resultDetails").
  { field_ok (decStrings_valid "resultDetails" v) H. }
  eauto.
Qed.

Lemma decJobResults_valid (v : json) (old : JobResults) :
  validJobResults v = true ->
  exists r, decStruct "results" setJobResultsField v old = inr r.
Proof.
  destruct v; simpl; try discriminate; eauto.
  intros H.
  apply (decMembers_valid setJobResultsField validJobResultsMember); auto.
  intros. apply setJobResultsField_valid. assumption.
Qed.

Lemma setAssetField_valid (a : Asset) (key : string) (v : json) :
  validAssetMember (key, v) = true -> exists a', setAssetField a key v = inr a'.
Proof.
  unfold validAssetMember, setAssetField. intros H.
  destruct (keyIs key "id").
  { field_ok (decInt_valid "id" v (Asset_ID a)) H. }
  destruct (keyIs key "name").
  { field_ok (decString_valid "name" v (Asset_Name a)) H. }
  destruct (keyIs key "project_id").
  { field_ok (decInt_valid "project_id" v (Asset_ProjectId a)) H. }
  destruct (keyIs key "project_name").
  { field_ok (decString_valid "project_name" v (Asset_ProjectName a)) H. }
  destruct (keyIs key "origin").
  { field_ok (decString_valid "origin" v (Asset_Origin a)) H. }
  destruct (keyIs key "created_at").
  { field_ok (decTime_valid v (Asset_CreatedAt a)) H. }
  destruct (keyIs key "updated_at").
  { field_ok (decTime_valid v (Asset_UpdatedAt a)) H. }
  eauto.
Qed.

Lemma setJobField_valid (j : Job) (key : string) (v : json) :
  validJobMember (key, v) = true -> exists j', setJobField j key v = inr j'.
Proof.
  unfold validJobMember, setJobField. intros H.
  destruct (keyIs key "id").
  { field_ok (decInt_valid "id" v (Job_ID j)) H. }
  destruct (keyIs key "kind").
  { field_ok (decString_valid "kind" v (Job_Kind j)) H. }
  destruct (keyIs key "status").
  { field_ok (decString_valid "status" v (Job_Status j)) H. }
  destruct (keyIs key "results").
  { field_ok (decJobResults_valid v (Job_Results j)) H. }
  destruct (keyIs key "project_id").
  { field_ok (decInt_valid "project_id" v (Job_ProjectId j)) H. }
  destruct (keyIs key "project_name").
  { field_ok (decString_valid "project_name" v (Job_ProjectName j)) H. }
  destruct (keyIs key "created_at").
  { field_ok (decTime_valid v (Job_CreatedAt j)) H. }
  destruct (keyIs key "updated_at").
  { field_ok (decTime_valid v (Job_UpdatedAt j)) H. }
  eauto.
Qed.

Lemma decAsset_valid (v : json) (old : Asset) :
  validAssetRecord v = true ->
  exists a, decAsset v old = inr a /\ exists members, v = JObj members.
Proof.
  destruct v; simpl; try discriminate. intros H.
  destruct (decMembers_valid setAssetField validAssetMember members
              (fun a key v => setAssetField_valid a key v) H old) as [a Ha].
  exists a. split; [exact Ha | eauto].
Qed.

Lemma decJob_valid (v : json) (old : Job) :
  validJobRecord v = true ->
  exists j, decJob v old = inr j /\ exists members, v = JObj members.
Proof.
  destruct v; simpl; try discriminate. intros H.
  destruct (decMembers_valid setJobField validJobMember members
              (fun j key v => setJobField_valid j key v) H old) as [j Hj].
  exists j. split; [exact Hj | eauto].
Qed.

Lemma extract_matching_status_asset (resp : Response) (expected : Z)
  (listExpected : bool) (body : BodyText) :
  StatusCode resp = expected ->
  Body resp = inr body ->
  extractAssetFromResponse resp expected listExpected
  = if listExpected then Ret (extractAssetsFromBody body)
    else extractAssetFromBody body.
Proof.
  intros Hs Hb. unfold extractAssetFromResponse.
  rewrite Hs, Z.eqb_refl, Hb. reflexivity.
Qed.

Lemma extract_matching_status_job (resp : Response) (expected : Z)
  (listExpected : bool) (body : BodyText) :
  StatusCode resp = expected ->
  Body resp = inr body ->
  extractJobFromResponse resp expected listExpected
  = if listExpected then Ret (extractJobsFromBody body)
    else extractJobFromBody body.
Proof.
  intros Hs Hb. unfold extractJobFromResponse.
  rewrite Hs, Z.eqb_refl, Hb. reflexivity.
Qed.

(** C6.  A response whose status differs from the expected one is never
    decoded: the result is an error made from the two status codes alone,
    the Unauthorized error when the status is 401 and only then, and
    otherwise the unexpected-status error that carries the status got and the
    status expected.  The body plays no part: replacing it changes nothing.
    This holds for the asset decoder and for the job decoder. *)
Theorem status_mismatch_classified (resp : Response) (expected : Z)
  (listExpected : bool) :
  StatusCode resp <> expected ->
  let unauthorized := errors_New "Unauthorized, please log in first." in
  let unexpected :=
    errors_New ("Unexpected return code from API, was="
                ++ fmt_d (StatusCode resp) ++ ", expected=" ++ fmt_d expected) in
  (StatusCode resp = 401 ->
   extractAssetFromResponse resp expected listExpected = Ret (inl unauthorized)
   /\ extractJobFromResponse resp expected listExpected = Ret (inl unauthorized))
  /\ (StatusCode resp <> 401 ->
      extractAssetFromResponse resp expected listExpected = Ret (inl unexpected)
      /\ extractJobFromResponse resp expected listExpected
         = Ret (inl unexpected))
  /\ unexpected <> unauthorized
  /\ (forall body,
        extractAssetFromResponse (mkResponse (StatusCode resp) body) expected
          listExpected
        = extractAssetFromResponse resp expected listExpected
        /\ extractJobFromResponse (mkResponse (StatusCode resp) body) expected
             listExpected
           = extractJobFromResponse resp expected listExpected).
Proof.
  intros Hne unauthorized unexpected.
  assert (Hb : (StatusCode resp =? expected) = false)
    by (apply Z.eqb_neq; exact Hne).
  unfold extractAssetFromResponse, extractJobFromResponse, respCodeToErrorMsg.
  simpl. rewrite Hb. simpl.
  repeat split.
  - rewrite H. reflexivity.
  - rewrite H. reflexivity.
  - apply Z.eqb_neq in H. rewrite H. reflexivity.
  - apply Z.eqb_neq in H. rewrite H. reflexivity.
  - unfold unexpected, unauthorized. simpl. discriminate.
Qed.

(** C7.  For a response whose status is the expected one: when a list is
    expected and the body is a JSON array of valid records, the decoder
    returns exactly one record per element, each the decoding of the element
    at the same position; when a single item is expected and the body is one
    valid JSON object, the decoder returns the one-element list of its
    decoding.  This holds for assets and for jobs. *)
Theorem decode_valid_records (resp : Response) (expected : Z) :
  StatusCode resp = expected ->
  (forall items, Body resp = inr (Parsed (JArr items)) ->
     (forallb validAssetRecord items = true ->
      exists assets,
        extractAssetFromResponse resp expected true = Ret (inr assets)
        /\ length assets = length items
        /\ Forall2 (fun it a => decAsset it zeroAsset = inr a) items assets)
     /\ (forallb validJobRecord items = true ->
         exists jobs,
           extractJobFromResponse resp expected true = Ret (inr jobs)
           /\ length jobs = length items
           /\ Forall2 (fun it j => decJob it zeroJob = inr j) items jobs))
  /\ (forall v, Body resp = inr (Parsed v) ->
      (validAssetRecord v = true ->
       exists a,
         extractAssetFromResponse resp expected false = Ret (inr [a])
         /\ decAsset v zeroAsset = inr a)
      /\ (validJobRecord v = true ->
          exists j,
            extractJobFromResponse resp expected false = Ret (inr [j])
            /\ decJob v zeroJob = inr j)).
Proof.
  intros Hs. split.
  - intros items Hb. split; intros Hvalid.
    + rewrite (extract_matching_status_asset resp expected true _ Hs Hb).
      unfold extractAssetsFromBody, Unmarshal, decSlice.
      destruct (decElems_all (fun e => decAsset e zeroAsset) items)
        as [l [Hl Hf]].
      { intros it Hin. rewrite forallb_forall in Hvalid.
        destruct (decAsset_valid it zeroAsset (Hvalid it Hin)) as [a [Ha _]].
        eauto. }
      rewrite Hl. exists l. repeat split; auto.
      symmetry. eapply Forall2_length; eauto.
    + rewrite (extract_matching_status_job resp expected true _ Hs Hb).
      unfold extractJobsFromBody, Unmarshal, decSlice.
      destruct (decElems_all (fun e => decJob e zeroJob) items)
        as [l [Hl Hf]].
      { intros it Hin. rewrite forallb_forall in Hvalid.
        destruct (decJob_valid it zeroJob (Hvalid it Hin)) as [a [Ha _]].
        eauto. }
      rewrite Hl. exists l. repeat split; auto.
      symmetry. eapply Forall2_length; eauto.
  - intros v Hb. split; intros Hvalid.
    + rewrite (extract_matching_status_asset resp expected false _ Hs Hb).
      destruct (decAsset_valid v zeroAsset Hvalid) as [a [Ha [ms Hv]]].
      exists a. split; [|exact Ha].
      unfold extractAssetFromBody, Unmarshal, decPtr.
      rewrite Ha. subst v. reflexivity.
    + rewrite (extract_matching_status_job resp expected false _ Hs Hb).
      destruct (decJob_valid v zeroJob Hvalid) as [j [Hj [ms Hv]]].
      exists j. split; [|exact Hj].
      unfold extractJobFromBody, Unmarshal, decPtr.
      rewrite Hj. subst v. reflexivity.
Qed.

(** ** Transport *)

(** [Do] in one equation: the three ways it can go. *)
Lemma Do_spec (resource method : string) (params : Params) (w : World) :
  Do resource method params w
  = match requestError w method (BackendBaseUrl w ++ resource) with
    | Some err =>
        (Ret (inl err),
         record [LoggedCritical "Failed to create a request: " err] w)
    | None =>
        match credentials w with
        | inl err => (Ret (inl err), record [Printed not_logged_in] w)
        | inr auth =>
            (Ret (network w (sent w)),
             afterSend method (BackendBaseUrl w ++ resource) params auth w)
        end
    end.
Proof.
  unfold Do, bind, ServerURL, NewRequest, readAuthFromConfig. simpl.
  destruct (requestError w method (BackendBaseUrl w ++ resource)); simpl.
  - reflexivity.
  - destruct (credentials w) as [err|auth] eqn:Hc; simpl.
    + reflexivity.
    + unfold afterSend, warning, roundTrip.
      destruct (GoodForLogin auth); simpl.
      * reflexivity.
      * rewrite <- app_assoc. reflexivity.
Qed.

(** What [Do] never touches: the oracles and the user-input counter; and it
    sends at most one request. *)
Lemma Do_frame (resource method : string) (params : Params) (w : World) :
  let w' := snd (Do resource method params w) in
  BackendBaseUrl w' = BackendBaseUrl w
  /\ requestError w' = requestError w
  /\ credentials w' = credentials w
  /\ network w' = network w
  /\ keyboard w' = keyboard w
  /\ asked w' = asked w
  /\ (sent w' = sent w \/ sent w' = S (sent w)).
Proof.
  rewrite Do_spec.
  destruct (requestError w method (BackendBaseUrl w ++ resource)); simpl;
    [|destruct (credentials w) eqn:Hc; simpl]; rewrite ?Hc; auto 10.
Qed.

(** C4, as amended.  For a request that can be built: when the persisted
    credentials are read but are not good for login, the warning is printed
    and the HTTP call is made after it; when they are good, the call is made
    without a warning; when the credentials cannot be read at all, the
    warning is printed, no HTTP call is made, and [Do] returns the error of
    the credential store. *)
Theorem Do_credentials (resource method : string) (params : Params)
  (w : World) :
  let url := BackendBaseUrl w ++ resource in
  requestError w method url = None ->
  (forall auth, credentials w = inr auth -> GoodForLogin auth = false ->
     fst (Do resource method params w) = Ret (network w (sent w))
     /\ sent (snd (Do resource method params w)) = S (sent w)
     /\ trace (snd (Do resource method params w))
        = (trace w ++ [Printed not_logged_in; Sent method url params auth])%list)
  /\ (forall auth, credentials w = inr auth -> GoodForLogin auth = true ->
      fst (Do resource method params w) = Ret (network w (sent w))
      /\ sent (snd (Do resource method params w)) = S (sent w)
      /\ trace (snd (Do resource method params w))
         = (trace w ++ [Sent method url params auth])%list)
  /\ (forall err, credentials w = inl err ->
      fst (Do resource method params w) = Ret (inl err)
      /\ sent (snd (Do resource method params w)) = sent w
      /\ trace (snd (Do resource method params w))
         = (trace w ++ [Printed not_logged_in])%list).
Proof.
  intros url Hreq. rewrite Do_spec. fold url. rewrite Hreq.
  repeat split; rewrite H; simpl; try reflexivity;
    unfold warning; rewrite H0; reflexivity.
Qed.

(** ** Integers and slices *)

Lemma is_int_bounds (z : Z) : is_int z = true <-> int_min <= z <= int_max.
Proof. unfold is_int. rewrite andb_true_iff, !Z.leb_le. tauto. Qed.

Lemma wrapInt_small (z : Z) : int_min <= z <= int_max -> wrapInt z = z.
Proof.
  unfold wrapInt, int_min, int_max. intros H.
  rewrite Z.mod_small; lia.
Qed.

(** One below the least [int] is the greatest [int]. *)
Lemma wrapInt_below (z : Z) :
  int_min - 2 ^ 64 <= z < int_min -> wrapInt z = z + 2 ^ 64.
Proof.
  unfold wrapInt, int_min. intros H.
  replace (z + 2 ^ 63) with ((z + 2 ^ 64 + 2 ^ 63) + (-1) * 2 ^ 64) by lia.
  rewrite Z.mod_add by lia. rewrite Z.mod_small; lia.
Qed.

Lemma wrapInt_above (z : Z) :
  int_max < z <= int_max + 2 ^ 64 -> wrapInt z = z - 2 ^ 64.
Proof.
  unfold wrapInt, int_max. intros H.
  replace (z + 2 ^ 63) with ((z - 2 ^ 64 + 2 ^ 63) + 1 * 2 ^ 64) by lia.
  rewrite Z.mod_add by lia. rewrite Z.mod_small; lia.
Qed.

Lemma len_nonneg {A : Type} (s : list A) : 0 <= len s.
Proof. unfold len. lia. Qed.

Lemma len_nonempty {A : Type} (s : list A) :
  s <> [] -> (len s =? 0) = false.
Proof.
  intros H. apply Z.eqb_neq. destruct s; [congruence|].
  unfold len. simpl. lia.
Qed.

Lemma index_ok {A : Type} (s : list A) (i : Z) (a : A) (w : World) :
  0 <= i -> nth_error s (Z.to_nat i) = Some a -> index s i w = (Ret a, w).
Proof.
  intros Hi Hn. unfold index.
  assert (Hlt : (Z.to_nat i < length s)%nat)
    by (apply nth_error_Some; congruence).
  assert (Hb : ((i <? 0) || (len s <=? i)) = false).
  { apply orb_false_iff. split; [apply Z.ltb_ge; lia|].
    apply Z.leb_gt. unfold len. lia. }
  rewrite Hb, Hn. reflexivity.
Qed.

Lemma index_panics {A : Type} (s : list A) (i : Z) (w : World) :
  i < 0 \/ len s <= i -> index s i w = (Panic index_out_of_range, w).
Proof.
  intros H. unfold index.
  assert (Hb : ((i <? 0) || (len s <=? i)) = true).
  { apply orb_true_iff. destruct H; [left; apply Z.ltb_lt | right; apply Z.leb_le];
      assumption. }
  rewrite Hb. reflexivity.
Qed.

(** The slice expression of [chooseAsset] fails exactly for a count that is
    negative or exceeds the length. *)
Lemma narrowed_none (assets : list Asset) (count : Z) :
  is_int count = true -> is_int (len assets) = true ->
  (narrowed assets count = None
   <-> count <> 0 /\ (count < 0 \/ len assets < count)).
Proof.
  intros Hc Hl. apply is_int_bounds in Hc. apply is_int_bounds in Hl.
  pose proof (len_nonneg assets) as Hn.
  unfold narrowed, intSub.
  destruct (count =? 0) eqn:Hz.
  - apply Z.eqb_eq in Hz. split; [discriminate | intros [H _]; congruence].
  - apply Z.eqb_neq in Hz.
    assert (Hcases : len assets - count < int_min - 2 ^ 64 \/
                     int_min - 2 ^ 64 <= len assets - count < int_min \/
                     int_min <= len assets - count <= int_max \/
                     int_max < len assets - count <= int_max + 2 ^ 64 \/
                     int_max + 2 ^ 64 < len assets - count) by lia.
    unfold int_min, int_max in *.
    destruct Hcases as [H|[H|[H|[H|H]]]]; try lia.
    + rewrite wrapInt_small by (unfold int_min, int_max; lia).
      destruct ((len assets - count <? 0) || (len assets <? len assets - count))
        eqn:Hb.
      * apply orb_true_iff in Hb. rewrite Z.ltb_lt, Z.ltb_lt in Hb.
        split; [intros _; split; [exact Hz | lia] | reflexivity].
      * apply orb_false_iff in Hb. rewrite Z.ltb_ge, Z.ltb_ge in Hb.
        split; [discriminate | lia].
    + rewrite wrapInt_above by (unfold int_min, int_max; lia).
      assert (Hb : (len assets - count - 2 ^ 64 <? 0) = true)
        by (apply Z.ltb_lt; lia).
      rewrite Hb. simpl. split; [intros _; split; [exact Hz | lia] | reflexivity].
Qed.

(** ** Interactive selection *)

Lemma chooseJob_fetched (endpoint : string) (askUser : bool)
  (message : string) (w w1 : World) (resp : Response) (jobs : list Job) :
  Do endpoint "GET" NoParams w = (Ret (inr resp), w1) ->
  extractJobFromResponse resp StatusOK true = Ret (inr jobs) ->
  chooseJob endpoint askUser message w = pickJob jobs askUser message w1.
Proof.
  intros HDo Hx. unfold chooseJob, bind. rewrite HDo.
  unfold lift. rewrite Hx. reflexivity.
Qed.

Lemma chooseAsset_fetched (endpoint : string) (askUser : bool)
  (message : string) (count : Z) (w w1 : World) (resp : Response)
  (assets : list Asset) :
  Do endpoint "GET" NoParams w = (Ret (inr resp), w1) ->
  extractAssetFromResponse resp StatusOK true = Ret (inr assets) ->
  chooseAsset endpoint askUser message count w
  = pickAsset assets askUser message count w1.
Proof.
  intros HDo Hx. unfold chooseAsset, bind. rewrite HDo.
  unfold lift. rewrite Hx. reflexivity.
Qed.

(** The narrowing step of [pickAsset] against [narrowed]. *)
Lemma pickAsset_narrowing (assets : list Asset) (askUser : bool)
  (message : string) (count : Z) (w : World) :
  assets <> [] ->
  pickAsset assets askUser message count w
  = match narrowed assets count with
    | None => (Panic slice_out_of_range, w)
    | Some shown =>
        (DisplayAssets shown ;;;
         if len shown =? 1 then (a <- index shown 0 ;; ret (inr (Some a)))
         else if negb askUser then ret (inr None)
         else
           c <- ReadUserIntInput message ;;
           match c with
           | inl err => ret (inl err)
           | inr choice =>
               if choice >? len shown then
                 ret (inl (errors_New
                             "Plese choose a number from the first column"))
               else
                 (a <- index shown (intSub choice 1) ;; ret (inr (Some a)))
           end) w
    end.
Proof.
  intros Hne. unfold pickAsset, narrowed.
  rewrite (len_nonempty assets Hne).
  destruct (count =? 0); simpl.
  - reflexivity.
  - unfold bind at 1. unfold sliceFrom.
    destruct ((intSub (len assets) count <? 0)
              || (len assets <? intSub (len assets) count)); reflexivity.
Qed.

(** The list that is shown has more than one record and the user is asked:
    what the answer leads to. *)
Lemma pickJob_choice (jobs : list Job) (message : string) (w : World) (v : Z) :
  1 < len jobs ->
  keyboard w (asked w) = inr v ->
  pickJob jobs true message w
  = let w1 := afterPrompt message (record [ShownJobs jobs] w) in
    if v >? len jobs then
      (Ret (inl (errors_New "Plese choose a number from the first column")), w1)
    else
      match index jobs (intSub v 1) w1 with
      | (Ret j, w2) => (Ret (inr (Some j)), w2)
      | (Panic why, w2) => (Panic why, w2)
      end.
Proof.
  intros Hlen Hkey. unfold pickJob, DisplayJobs.
  assert (H0 : (len jobs =? 0) = false) by (apply Z.eqb_neq; lia).
  assert (H1 : (len jobs =? 1) = false) by (apply Z.eqb_neq; lia).
  rewrite H0, H1. unfold bind, emit, ReadUserIntInput. simpl.
  rewrite Hkey. fold (afterPrompt message (record [ShownJobs jobs] w)).
  destruct (v >? len jobs); reflexivity.
Qed.

Lemma pickAsset_choice (assets shown : list Asset) (message : string)
  (count : Z) (w : World) (v : Z) :
  assets <> [] ->
  narrowed assets count = Some shown ->
  1 < len shown ->
  keyboard w (asked w) = inr v ->
  pickAsset assets true message count w
  = let w1 := afterPrompt message (record [ShownAssets shown] w) in
    if v >? len shown then
      (Ret (inl (errors_New "Plese choose a number from the first column")), w1)
    else
      match index shown (intSub v 1) w1 with
      | (Ret a, w2) => (Ret (inr (Some a)), w2)
      | (Panic why, w2) => (Panic why, w2)
      end.
Proof.
  intros Hne Hnar Hlen Hkey.
  rewrite (pickAsset_narrowing assets true message count w Hne), Hnar.
  unfold DisplayAssets.
  assert (H0 : (len shown =? 0) = false) by (apply Z.eqb_neq; lia).
  assert (H1 : (len shown =? 1) = false) by (apply Z.eqb_neq; lia).
  rewrite H0, H1. unfold bind, emit, ReadUserIntInput. simpl.
  rewrite Hkey. fold (afterPrompt message (record [ShownAssets shown] w)).
  destruct (v >? len shown); reflexivity.
Qed.

(** The upper side of the range check: with more than one record shown and
    prompting enabled, an answer within [1, count] returns the record of
    that ordinal, and an answer above the count fails with the out-of-range
    error, for jobs and for assets alike. *)
Lemma choice_upper_part (jobs : list Job) (assets shown : list Asset)
  (message : string) (count : Z) (w : World) (v : Z) :
  is_int v = true ->
  keyboard w (asked w) = inr v ->
  (1 < len jobs ->
   (v > len jobs ->
    fst (pickJob jobs true message w)
    = Ret (inl (errors_New "Plese choose a number from the first column")))
   /\ (1 <= v <= len jobs ->
       exists j, nth_error jobs (Z.to_nat (v - 1)) = Some j
                 /\ fst (pickJob jobs true message w) = Ret (inr (Some j))))
  /\ (assets <> [] -> narrowed assets count = Some shown -> 1 < len shown ->
      (v > len shown ->
       fst (pickAsset assets true message count w)
       = Ret (inl (errors_New "Plese choose a number from the first column")))
      /\ (1 <= v <= len shown ->
          exists a, nth_error shown (Z.to_nat (v - 1)) = Some a
                    /\ fst (pickAsset assets true message count w)
                       = Ret (inr (Some a)))).
Proof.
  intros Hv Hkey. apply is_int_bounds in Hv. split.
  - intros Hlen. rewrite (pickJob_choice jobs message w v Hlen Hkey). simpl.
    split; intros Hr.
    + rewrite (proj2 (Z.gtb_lt _ _)) by lia. reflexivity.
    + assert (Hb : (v >? len jobs) = false)
        by (rewrite Z.gtb_ltb; apply Z.ltb_ge; lia).
      rewrite Hb. unfold intSub.
      rewrite wrapInt_small by (unfold int_min, int_max in *; lia).
      destruct (nth_error jobs (Z.to_nat (v - 1))) as [j|] eqn:Hn.
      * exists j. split; [reflexivity|].
        rewrite (index_ok jobs (v - 1) j _ ltac:(lia) Hn). reflexivity.
      * apply nth_error_None in Hn. unfold len in Hr. lia.
  - intros Hne Hnar Hlen.
    rewrite (pickAsset_choice assets shown message count w v Hne Hnar Hlen Hkey).
    simpl. split; intros Hr.
    + rewrite (proj2 (Z.gtb_lt _ _)) by lia. reflexivity.
    + assert (Hb : (v >? len shown) = false)
        by (rewrite Z.gtb_ltb; apply Z.ltb_ge; lia).
      rewrite Hb. unfold intSub.
      rewrite wrapInt_small by (unfold int_min, int_max in *; lia).
      destruct (nth_error shown (Z.to_nat (v - 1))) as [a|] eqn:Hn.
      * exists a. split; [reflexivity|].
        rewrite (index_ok shown (v - 1) a _ ltac:(lia) Hn). reflexivity.
      * apply nth_error_None in Hn. unfold len in Hr. lia.
Qed.

(** The lower side, which the range check misses: an answer of zero or less
    passes the only test, [choice > len], and the indexing then panics. *)
Lemma choice_lower_part (jobs : list Job) (assets shown : list Asset)
  (message : string) (count : Z) (w : World) (v : Z) :
  is_int v = true -> v <= 0 ->
  keyboard w (asked w) = inr v ->
  (1 < len jobs -> is_int (len jobs) = true ->
   fst (pickJob jobs true message w) = Panic index_out_of_range)
  /\ (assets <> [] -> narrowed assets count = Some shown -> 1 < len shown ->
      is_int (len shown) = true ->
      fst (pickAsset assets true message count w) = Panic index_out_of_range).
Proof.
  intros Hv Hle Hkey. apply is_int_bounds in Hv.
  assert (Hidx : forall (A : Type) (s : list A) (w1 : World),
             is_int (len s) = true ->
             index s (intSub v 1) w1 = (Panic index_out_of_range, w1)).
  { intros A s w1 Hs. apply is_int_bounds in Hs. apply index_panics.
    unfold intSub.
    destruct (Z.eq_dec v int_min) as [He|He].
    - right. rewrite wrapInt_below by (unfold int_min in *; lia).
      unfold int_min, int_max in *. lia.
    - left. rewrite wrapInt_small by (unfold int_min, int_max in *; lia). lia. }
  split.
  - intros Hlen Hint. rewrite (pickJob_choice jobs message w v Hlen Hkey). simpl.
    assert (Hb : (v >? len jobs) = false)
      by (rewrite Z.gtb_ltb; apply Z.ltb_ge; lia).
    rewrite Hb, Hidx by assumption. reflexivity.
  - intros Hne Hnar Hlen Hint.
    rewrite (pickAsset_choice assets shown message count w v Hne Hnar Hlen Hkey).
    simpl.
    assert (Hb : (v >? len shown) = false)
      by (rewrite Z.gtb_ltb; apply Z.ltb_ge; lia).
    rewrite Hb, Hidx by assumption. reflexivity.
Qed.

Lemma index_cases {A : Type} (s : list A) (i : Z) (w : World) :
  (exists a, index s i w = (Ret a, w))
  \/ index s i w = (Panic index_out_of_range, w).
Proof.
  unfold index. destruct ((i <? 0) || (len s <=? i)); [right; reflexivity|].
  destruct (nth_error s (Z.to_nat i));
    [left; eexists; reflexivity | right; reflexivity].
Qed.

Lemma neverPanics_ret {A : Type} (why : string) (a : A) :
  neverPanics why (ret a).
Proof. intros w. discriminate. Qed.

Lemma neverPanics_emit (why : string) (e : Event) : neverPanics why (emit e).
Proof. intros w. discriminate. Qed.

Lemma neverPanics_ask (why : string) (message : string) :
  neverPanics why (ReadUserIntInput message).
Proof. intros w. discriminate. Qed.

Lemma neverPanics_bind {A B : Type} (why : string) (m : M A) (k : A -> M B) :
  neverPanics why m -> (forall a, neverPanics why (k a)) ->
  neverPanics why (bind m k).
Proof.
  intros Hm Hk w. unfold bind.
  destruct (m w) as [[a|why'] w'] eqn:E.
  - apply Hk.
  - specialize (Hm w). rewrite E in Hm. simpl in *.
    intros H. apply Hm. inversion H. reflexivity.
Qed.

Lemma index_never_slice_panics {A : Type} (s : list A) (i : Z) :
  neverPanics slice_out_of_range (index s i).
Proof.
  intros w. destruct (index_cases s i w) as [[a Ha]|Ha]; rewrite Ha;
    discriminate.
Qed.

(** Once the slice expression is passed, nothing in [pickAsset] can raise
    its panic any more. *)
Lemma pickAsset_in_range (assets shown : list Asset) (askUser : bool)
  (message : string) (count : Z) (w : World) :
  assets <> [] ->
  narrowed assets count = Some shown ->
  fst (pickAsset assets askUser message count w) <> Panic slice_out_of_range.
Proof.
  intros Hne Hnar.
  rewrite (pickAsset_narrowing assets askUser message count w Hne), Hnar.
  revert w. change (neverPanics slice_out_of_range
    (DisplayAssets shown ;;;
     if len shown =? 1 then (a <- index shown 0 ;; ret (inr (Some a)))
     else if negb askUser then ret (inr None)
     else
       c <- ReadUserIntInput message ;;
       match c with
       | inl err => ret (inl err)
       | inr choice =>
           if choice >? len shown then
             ret (inl (errors_New
                         "Plese choose a number from the first column"))
           else (a <- index shown (intSub choice 1) ;; ret (inr (Some a)))
       end)).
  unfold DisplayAssets, Asset_Display.
  repeat first
    [ apply neverPanics_ret
    | apply neverPanics_emit
    | apply neverPanics_ask
    | apply index_never_slice_panics
    | apply neverPanics_bind; [|intros ?]
    | match goal with
      | |- neverPanics _ (if ?b then _ else _) => destruct b
      | |- neverPanics _ (match ?x with inl _ => _ | inr _ => _ end) =>
          destruct x
      | |- neverPanics _ (match ?x with Some _ => _ | None => _ end) =>
          destruct x
      end ].
Qed.

(** C8.  Once the list is fetched: an empty list makes the selection fail
    with the not-found error, whatever the prompting flag and, for assets,
    the tail count; a single job, and a single asset that the narrowing
    leaves (a fetched singleton with tail count 0 or 1 in particular), is
    returned after being displayed, and the user is not asked: the world
    gains the display event and nothing else, whatever the prompting flag. *)
Theorem selection_empty_and_singleton (endpoint message : string)
  (askUser : bool) (w w1 : World) (resp : Response) :
  Do endpoint "GET" NoParams w = (Ret (inr resp), w1) ->
  (extractJobFromResponse resp StatusOK true = Ret (inr []) ->
   chooseJob endpoint askUser message w
   = (Ret (inl (errors_New "No job. Sorry")), w1))
  /\ (forall j,
        extractJobFromResponse resp StatusOK true = Ret (inr [j]) ->
        chooseJob endpoint askUser message w
        = (Ret (inr (Some j)), record [ShownJob j] w1))
  /\ (forall count,
        extractAssetFromResponse resp StatusOK true = Ret (inr []) ->
        chooseAsset endpoint askUser message count w
        = (Ret (inl (errors_New "No asset. Sorry")), w1))
  /\ (forall a count,
        extractAssetFromResponse resp StatusOK true = Ret (inr [a]) ->
        count = 0 \/ count = 1 ->
        chooseAsset endpoint askUser message count w
        = (Ret (inr (Some a)), record [ShownAsset a] w1))
  /\ (forall assets a count,
        extractAssetFromResponse resp StatusOK true = Ret (inr assets) ->
        assets <> [] ->
        narrowed assets count = Some [a] ->
        chooseAsset endpoint askUser message count w
        = (Ret (inr (Some a)), record [ShownAsset a] w1)).
Proof.
  intros HDo.
  assert (Hlast : forall assets a count,
             extractAssetFromResponse resp StatusOK true = Ret (inr assets) ->
             assets <> [] ->
             narrowed assets count = Some [a] ->
             chooseAsset endpoint askUser message count w
             = (Ret (inr (Some a)), record [ShownAsset a] w1)).
  { intros assets a count Hx Hne Hnar.
    rewrite (chooseAsset_fetched _ _ _ _ _ _ _ _ HDo Hx).
    rewrite (pickAsset_narrowing assets askUser message count w1 Hne), Hnar.
    reflexivity. }
  repeat split.
  - intros Hx. rewrite (chooseJob_fetched _ _ _ _ _ _ _ HDo Hx). reflexivity.
  - intros j Hx. rewrite (chooseJob_fetched _ _ _ _ _ _ _ HDo Hx). reflexivity.
  - intros count Hx. rewrite (chooseAsset_fetched _ _ _ _ _ _ _ _ HDo Hx).
    reflexivity.
  - intros a count Hx Hc. apply (Hlast [a] a count Hx); [discriminate|].
    destruct Hc; subst count; reflexivity.
  - exact Hlast.
Qed.

(** C9.  For a non-empty fetched asset list and a tail count that is a Go
    [int]: when the count is nonzero and either negative or greater than the
    length of the list, the slice expression is out of range and
    [chooseAsset] panics there, before anything is displayed, instead of
    returning an error; and these are the only counts for which the slice
    expression fails: for a count from 0 to the length the narrowing goes
    through and that panic cannot occur. *)
Theorem tail_count_out_of_range_panics (endpoint message : string)
  (askUser : bool) (count : Z) (w w1 : World) (resp : Response)
  (assets : list Asset) :
  Do endpoint "GET" NoParams w = (Ret (inr resp), w1) ->
  extractAssetFromResponse resp StatusOK true = Ret (inr assets) ->
  assets <> [] ->
  is_int count = true ->
  is_int (len assets) = true ->
  (count <> 0 /\ (count < 0 \/ len assets < count) ->
   chooseAsset endpoint askUser message count w
   = (Panic slice_out_of_range, w1))
  /\ (0 <= count <= len assets ->
      fst (chooseAsset endpoint askUser message count w)
      <> Panic slice_out_of_range).
Proof.
  intros HDo Hx Hne Hc Hl.
  rewrite (chooseAsset_fetched _ _ _ _ _ _ _ _ HDo Hx).
  pose proof (narrowed_none assets count Hc Hl) as Hiff.
  split; intros H.
  - rewrite (pickAsset_narrowing assets askUser message count w1 Hne).
    rewrite (proj2 Hiff H). reflexivity.
  - destruct (narrowed assets count) as [shown|] eqn:Hnar.
    + apply (pickAsset_in_range assets shown); assumption.
    + destruct (proj1 Hiff eq_refl) as [Hz Hr]. lia.
Qed.

(** ** The polling loop *)

Lemma record_record (es1 es2 : list Event) (w : World) :
  record es2 (record es1 w) = record (es1 ++ es2) w.
Proof. unfold record. simpl. rewrite <- app_assoc. reflexivity. Qed.

(** The decision the loop takes on a decoded reply, in terms of
    [fetchedJob]. *)
Lemma poll_decision (fuel : nat) (job : Job) (wait : Z) (resp : Response)
  (x : error + list Job) (w1 : World) :
  extractJobFromResponse resp StatusOK false = Ret x ->
  match x with
  | inr jobs =>
      if len jobs =? 1 then
        j <- index jobs 0 ;;
        if String.eqb (Job_Status j) "processed" then
          Job_Display (Some j) ;;; ret true
        else waitLoop fuel (Some job) wait
      else waitLoop fuel (Some job) wait
  | inl _ => waitLoop fuel (Some job) wait
  end w1
  = match fetchedJob (inr resp) with
    | Some j =>
        if String.eqb (Job_Status j) "processed"
        then (Ret true, record [ShownJob j] w1)
        else waitLoop fuel (Some job) wait w1
    | None => waitLoop fuel (Some job) wait w1
    end.
Proof.
  intros Hx. unfold fetchedJob. rewrite Hx.
  destruct x as [err|jobs]; [reflexivity|].
  destruct jobs as [|j [|j' rest]].
  - reflexivity.
  - simpl. unfold bind. simpl.
    destruct (String.eqb (Job_Status j) "processed"); reflexivity.
  - assert (H1 : (len (j :: j' :: rest) =? 1) = false).
    { apply Z.eqb_neq. unfold len. simpl length. lia. }
    rewrite H1. reflexivity.
Qed.

(** One iteration of the loop. *)
Lemma waitLoop_step (fuel : nat) (job : Job) (wait : Z) (w : World) :
  wait > 0 ->
  waitLoop (S fuel) (Some job) wait w
  = match Do (endPointText job) "GET" NoParams (slept w) with
    | (Panic why, w1) => (Panic why, w1)
    | (Ret (inl _), w1) => (Ret false, w1)
    | (Ret (inr resp), w1) =>
        match extractJobFromResponse resp StatusOK false with
        | Panic why => (Panic why, w1)
        | Ret _ =>
            match fetchedJob (inr resp) with
            | Some j =>
                if String.eqb (Job_Status j) "processed"
                then (Ret true, record [ShownJob j] w1)
                else waitLoop fuel (Some job) (wait - 5) w1
            | None => waitLoop fuel (Some job) (wait - 5) w1
            end
        end
    end.
Proof.
  intros Hw. simpl waitLoop.
  rewrite (proj2 (Z.gtb_lt _ _)) by lia.
  unfold bind at 1. simpl. unfold bind at 1. simpl.
  unfold bind at 1. simpl. rewrite record_record. simpl app.
  fold (slept w). unfold bind at 1.
  destruct (Do (endPointText job) "GET" NoParams (slept w)) as [[r|why] w1];
    [|reflexivity].
  destruct r as [err|resp]; [reflexivity|].
  unfold bind at 1. unfold lift at 1.
  destruct (extractJobFromResponse resp StatusOK false) as [x|why] eqn:Hx;
    [|reflexivity].
  pose proof (poll_decision fuel job (wait - 5) resp x w1 Hx) as Hd.
  unfold fetchedJob in Hd. rewrite Hx in Hd. exact Hd.
Qed.

Lemma waitLoop_done (fuel : nat) (job : Job) (wait : Z) (w : World) :
  wait <= 0 ->
  waitLoop fuel (Some job) wait w
  = (Ret false, record [Printed (timeoutMessage job)] w).
Proof.
  intros Hw. destruct fuel; simpl; [reflexivity|].
  assert (Hb : (wait >? 0) = false) by (rewrite Z.gtb_ltb; apply Z.ltb_ge; lia).
  rewrite Hb. reflexivity.
Qed.

Lemma trace_polled (job : Job) (auth : SlyftAuth) (w : World) :
  trace (polled job auth w) = (trace w ++ pollEvents w job auth)%list.
Proof.
  unfold polled, afterSend, slept, record, pollEvents. simpl.
  rewrite <- app_assoc. reflexivity.
Qed.

(** One iteration of the loop when the request can be built and the
    credentials can be read: the request goes out and the reply decides. *)
Lemma waitLoop_poll (fuel : nat) (job : Job) (auth : SlyftAuth) (wait : Z)
  (w : World) :
  wait > 0 ->
  requestError w "GET" (pollUrl w job) = None ->
  credentials w = inr auth ->
  waitLoop (S fuel) (Some job) wait w
  = match network w (sent w) with
    | inl _ => (Ret false, polled job auth w)
    | inr resp =>
        match extractJobFromResponse resp StatusOK false with
        | Panic why => (Panic why, polled job auth w)
        | Ret _ =>
            match fetchedJob (inr resp) with
            | Some j =>
                if String.eqb (Job_Status j) "processed"
                then (Ret true, record [ShownJob j] (polled job auth w))
                else waitLoop fuel (Some job) (wait - 5) (polled job auth w)
            | None => waitLoop fuel (Some job) (wait - 5) (polled job auth w)
            end
        end
    end.
Proof.
  intros Hw Hreq Hcred. rewrite (waitLoop_step fuel job wait w Hw).
  rewrite Do_spec. simpl BackendBaseUrl. simpl requestError.
  simpl credentials. simpl network. simpl sent.
  unfold pollUrl in Hreq. rewrite Hreq, Hcred.
  fold (pollUrl w job). fold (polled job auth w).
  destruct (network w (sent w)); reflexivity.
Qed.

(** Projections of the worlds built by the loop, without touching the
    arithmetic. *)
Ltac project_world :=
  cbn [waitLoop];
  unfold reportTimeout, bind, emit, ret, polled, afterSend, slept, record;
  cbn [fst snd sent network BackendBaseUrl trace].

Ltac project_world_in H :=
  unfold polled, afterSend, slept, record in H;
  cbn [fst snd sent network BackendBaseUrl trace] in H.

(** A run that ends at once without success. *)
Ltac ends_unsuccessfully :=
  project_world; repeat split; auto; try lia; try discriminate;
  try (let k := fresh "k" in let Hk := fresh "Hk" in intros k Hk; lia).

(** What every run of the loop satisfies.  The replies it consumes are those
    numbered from [sent w] up to, and without, [sent] of the final world. *)
Lemma waitLoop_inv (fuel : nat) (job : Job) :
  forall (wait : Z) (w : World),
    let r := waitLoop fuel (Some job) wait w in
    (BackendBaseUrl (snd r) = BackendBaseUrl w /\ network (snd r) = network w)
    /\ (sent w <= sent (snd r))%nat
    /\ 5 * Z.of_nat (sent (snd r) - sent w) < Z.max wait 0 + 5
    /\ (forall k, (sent w <= k < sent (snd r))%nat ->
                  processedReply (network w k) = true -> fst r = Ret true)
    /\ (fst r = Ret true ->
        exists j auth pre,
          (sent w < sent (snd r))%nat
          /\ fetchedJob (network w (sent (snd r) - 1)) = Some j
          /\ Job_Status j = "processed"
          /\ trace (snd r)
             = (pre ++ [Sent "GET" (pollUrl w job) NoParams auth; ShownJob j])%list).
Proof.
  induction fuel as [|fuel IH]; intros wait w; cbv zeta.
  - ends_unsuccessfully.
  - destruct (Z_gt_le_dec wait 0) as [Hw|Hw].
    2:{ rewrite (waitLoop_done (S fuel) job wait w Hw). ends_unsuccessfully. }
    rewrite (waitLoop_step fuel job wait w Hw), Do_spec.
    cbn [slept record BackendBaseUrl requestError credentials network sent].
    destruct (requestError w "GET" (BackendBaseUrl w ++ endPointText job)).
    { ends_unsuccessfully. }
    destruct (credentials w) as [err|auth].
    { ends_unsuccessfully. }
    fold (slept w). fold (pollUrl w job). fold (polled job auth w).
    assert (Hone : forall k, (sent w <= k < S (sent w))%nat -> k = sent w)
      by (intros; lia).
    destruct (network w (sent w)) as [err|resp] eqn:Hnet.
    { project_world; repeat split; auto; try lia; try discriminate.
      intros k Hk Hp. rewrite (Hone k Hk), Hnet in Hp. discriminate. }
    destruct (extractJobFromResponse resp StatusOK false) as [x|why] eqn:Hx.
    2:{ project_world; repeat split; auto; try lia; try discriminate.
        intros k Hk Hp. rewrite (Hone k Hk), Hnet in Hp.
        unfold processedReply, fetchedJob in Hp. rewrite Hx in Hp.
        discriminate. }
    destruct (processedReply (inr resp)) eqn:Hproc.
    + unfold processedReply in Hproc.
      destruct (fetchedJob (inr resp)) as [j|] eqn:Hf; [|discriminate].
      rewrite Hproc. project_world.
      repeat split; auto; try lia.
      intros _. exists j, auth, ((trace w ++ [Slept 5; Printed "."])
                                 ++ warning auth)%list.
      repeat split.
      * lia.
      * replace (S (sent w) - 1)%nat with (sent w) by lia.
        rewrite Hnet. exact Hf.
      * apply String.eqb_eq. exact Hproc.
      * rewrite <- !app_assoc. reflexivity.
    + assert (Hcont :
        match fetchedJob (inr resp) with
        | Some j =>
            if String.eqb (Job_Status j) "processed"
            then (Ret true, record [ShownJob j] (polled job auth w))
            else waitLoop fuel (Some job) (wait - 5) (polled job auth w)
        | None => waitLoop fuel (Some job) (wait - 5) (polled job auth w)
        end = waitLoop fuel (Some job) (wait - 5) (polled job auth w)).
      { unfold processedReply in Hproc.
        destruct (fetchedJob (inr resp)); [rewrite Hproc|]; reflexivity. }
      rewrite Hcont.
      specialize (IH (wait - 5) (polled job auth w)).
      cbv zeta in IH.
      set (w1 := polled job auth w) in *.
      assert (Hs1 : sent w1 = S (sent w)) by reflexivity.
      assert (Hn1 : network w1 = network w) by reflexivity.
      assert (Hu1 : pollUrl w1 job = pollUrl w job) by reflexivity.
      set (r := waitLoop fuel (Some job) (wait - 5) w1) in *.
      destruct IH as [[Hbase Hnetw] [Hsent [Hbudget [Hk Htrue]]]].
      rewrite Hs1 in Hsent, Hbudget, Hk, Htrue.
      rewrite Hn1 in Hnetw, Hk, Htrue. rewrite Hu1 in Htrue.
      repeat split.
      * exact Hbase.
      * exact Hnetw.
      * lia.
      * lia.
      * intros k Hrange Hp.
        destruct (Nat.eq_dec k (sent w)) as [He|He].
        { subst k. rewrite Hnet, Hproc in Hp. discriminate. }
        apply (Hk k); [lia | exact Hp].
      * intros Ht. destruct (Htrue Ht) as [j [auth' [pre [H1 [H2 [H3 H4]]]]]].
        exists j, auth', pre.
        repeat split; [lia | exact H2 | exact H3 | exact H4].
Qed.

(** The fuel given by [waitForJobCompletion] is enough: more fuel changes
    nothing, so the loop of the model is the loop of the program. *)
Lemma waitLoop_fuel (job : option Job) :
  forall (fuel1 fuel2 : nat) (wait : Z) (w : World),
    wait <= Z.of_nat fuel1 -> wait <= Z.of_nat fuel2 ->
    waitLoop fuel1 job wait w = waitLoop fuel2 job wait w.
Proof.
  induction fuel1 as [|fuel1 IH]; intros fuel2 wait w H1 H2.
  - destruct fuel2; [reflexivity|]. simpl.
    assert (Hb : (wait >? 0) = false)
      by (rewrite Z.gtb_ltb; apply Z.ltb_ge; lia).
    rewrite Hb. reflexivity.
  - destruct fuel2 as [|fuel2].
    + simpl.
      assert (Hb : (wait >? 0) = false)
        by (rewrite Z.gtb_ltb; apply Z.ltb_ge; lia).
      rewrite Hb. reflexivity.
    + destruct (Z_gt_le_dec wait 0) as [Hw|Hw].
      * destruct job as [job|].
        -- rewrite !(waitLoop_step _ job wait w Hw).
           destruct (Do (endPointText job) "GET" NoParams (slept w))
             as [[[err|resp]|why] w1]; try reflexivity.
           destruct (extractJobFromResponse resp StatusOK false);
             [|reflexivity].
           rewrite (IH fuel2 (wait - 5) w1) by lia. reflexivity.
        -- simpl. rewrite (proj2 (Z.gtb_lt _ _)) by lia. reflexivity.
      * simpl.
        assert (Hb : (wait >? 0) = false)
          by (rewrite Z.gtb_ltb; apply Z.ltb_ge; lia).
        rewrite Hb. reflexivity.
Qed.

Lemma fetchedJob_some (reply : error + Response) (j : Job) :
  fetchedJob reply = Some j ->
  exists resp, reply = inr resp
               /\ extractJobFromResponse resp StatusOK false = Ret (inr [j]).
Proof.
  unfold fetchedJob. destruct reply as [err|resp]; [discriminate|].
  destruct (extractJobFromResponse resp StatusOK false) as [[err|jobs]|why]
    eqn:Hx; try discriminate.
  destruct jobs as [|j0 [|j1 rest]]; try discriminate.
  intros H. inversion H. subst. exists resp. split; [reflexivity | exact Hx].
Qed.

(** A poll that fetches the job with another status: the loop goes on. *)
Lemma poll_pending (fuel : nat) (job : Job) (auth : SlyftAuth) (wait : Z)
  (w : World) (j : Job) :
  wait > 0 ->
  requestError w "GET" (pollUrl w job) = None ->
  credentials w = inr auth ->
  fetchedJob (network w (sent w)) = Some j ->
  Job_Status j <> "processed" ->
  waitLoop (S fuel) (Some job) wait w
  = waitLoop fuel (Some job) (wait - 5) (polled job auth w).
Proof.
  intros Hw Hreq Hcred Hf Hs.
  rewrite (waitLoop_poll fuel job auth wait w Hw Hreq Hcred).
  destruct (fetchedJob_some _ _ Hf) as [resp [Hnet Hx]].
  rewrite Hnet in *. rewrite Hx, Hf.
  apply String.eqb_neq in Hs. rewrite Hs. reflexivity.
Qed.

(** A poll that fetches the job with status [processed]: the job is shown
    and the loop ends with success. *)
Lemma poll_processed (fuel : nat) (job : Job) (auth : SlyftAuth) (wait : Z)
  (w : World) (j : Job) :
  wait > 0 ->
  requestError w "GET" (pollUrl w job) = None ->
  credentials w = inr auth ->
  fetchedJob (network w (sent w)) = Some j ->
  Job_Status j = "processed" ->
  waitLoop (S fuel) (Some job) wait w
  = (Ret true, record [ShownJob j] (polled job auth w)).
Proof.
  intros Hw Hreq Hcred Hf Hs.
  rewrite (waitLoop_poll fuel job auth wait w Hw Hreq Hcred).
  destruct (fetchedJob_some _ _ Hf) as [resp [Hnet Hx]].
  rewrite Hnet in *. rewrite Hx, Hf.
  apply String.eqb_eq in Hs. rewrite Hs. reflexivity.
Qed.

(** C1, as amended.  In an iteration of the polling loop, a failure to
    decode the reply (a status other than 200, an unreadable body, a body
    that does not decode) is swallowed: the loop goes on with the next
    iteration and five seconds less to wait.  A failure of the GET itself
    ([Do] returns an error: the request cannot be built, the credentials
    cannot be read, or the transport fails) ends the loop at once with the
    result false; no error value is returned in either case. *)
Theorem poll_failures (fuel : nat) (job : Job) (wait : Z) (w : World) :
  wait > 0 ->
  (forall resp err w1,
     Do (endPointText job) "GET" NoParams (slept w) = (Ret (inr resp), w1) ->
     extractJobFromResponse resp StatusOK false = Ret (inl err) ->
     waitLoop (S fuel) (Some job) wait w
     = waitLoop fuel (Some job) (wait - 5) w1)
  /\ (forall err w1,
        Do (endPointText job) "GET" NoParams (slept w) = (Ret (inl err), w1) ->
        waitLoop (S fuel) (Some job) wait w = (Ret false, w1)).
Proof.
  intros Hw. split.
  - intros resp err w1 HDo Hx.
    rewrite (waitLoop_step fuel job wait w Hw), HDo, Hx.
    unfold fetchedJob. rewrite Hx. reflexivity.
  - intros err w1 HDo.
    rewrite (waitLoop_step fuel job wait w Hw), HDo. reflexivity.
Qed.

(** *** Runs of any length *)

Lemma polled_iter (n : nat) (job : Job) (auth : SlyftAuth) (w : World) :
  let w' := Nat.iter n (polled job auth) w in
  sent w' = (sent w + n)%nat
  /\ network w' = network w
  /\ credentials w' = credentials w
  /\ requestError w' = requestError w
  /\ BackendBaseUrl w' = BackendBaseUrl w
  /\ trace w'
     = (trace w ++ concat (repeat (pollEvents w job auth) n))%list.
Proof.
  induction n as [|n IH]; cbv zeta.
  - simpl. rewrite Nat.add_0_r, app_nil_r. auto 10.
  - cbn [Nat.iter nat_rect]. destruct IH as [Hs [Hn [Hc [Hr [Hb Ht]]]]].
    set (w' := Nat.iter n (polled job auth) w) in *.
    change (nat_rect (fun _ : nat => World) w
              (fun _ : nat => polled job auth) n) with w'.
    repeat split.
    + cbn [sent polled afterSend slept record]. rewrite Hs. lia.
    + exact Hn.
    + exact Hc.
    + exact Hr.
    + exact Hb.
    + rewrite trace_polled, Ht.
      unfold pollEvents, pollUrl. rewrite Hb.
      replace (S n) with (n + 1)%nat by lia.
      rewrite repeat_app, concat_app. simpl.
      rewrite app_nil_r, <- !app_assoc. reflexivity.
Qed.

(** A job that is fetched with another status by the first [n] polls and
    with status [processed] by the next one, within the budget: the loop
    succeeds after exactly [n + 1] polls. *)
Lemma processed_on_nth_poll (job : Job) (auth : SlyftAuth) (j : Job) :
  forall (n fuel : nat) (wait : Z) (w : World),
    (n < fuel)%nat ->
    5 * Z.of_nat n < wait ->
    requestError w "GET" (pollUrl w job) = None ->
    credentials w = inr auth ->
    (forall i, (i < n)%nat ->
       exists j', fetchedJob (network w (sent w + i)) = Some j'
                  /\ Job_Status j' <> "processed") ->
    fetchedJob (network w (sent w + n)) = Some j ->
    Job_Status j = "processed" ->
    waitLoop fuel (Some job) wait w
    = (Ret true, record [ShownJob j] (Nat.iter (S n) (polled job auth) w)).
Proof.
  induction n as [|n IH]; intros fuel wait w Hfuel Hwait Hreq Hcred Hpend Hf Hs;
    (destruct fuel as [|fuel]; [lia|]).
  - rewrite Nat.add_0_r in Hf.
    apply (poll_processed fuel job auth wait w j); auto. lia.
  - destruct (Hpend 0%nat ltac:(lia)) as [j' [Hf' Hs']].
    rewrite Nat.add_0_r in Hf'.
    rewrite (poll_pending fuel job auth wait w j' ltac:(lia) Hreq Hcred Hf' Hs').
    rewrite (IH fuel (wait - 5) (polled job auth w)); try lia; auto.
    + rewrite <- (Nat.iter_succ_r (S n)). reflexivity.
    + intros i Hi. cbn [sent network polled afterSend slept record].
      replace (S (sent w) + i)%nat with (sent w + S i)%nat by lia.
      apply Hpend. lia.
    + cbn [sent network polled afterSend slept record].
      replace (S (sent w) + n)%nat with (sent w + S n)%nat by lia.
      exact Hf.
Qed.

(** The number of started intervals of five seconds in a budget. *)
Lemma no_interval (wait : Z) : wait <= 0 -> Z.to_nat ((wait + 4) / 5) = 0%nat.
Proof.
  intros H. assert ((wait + 4) / 5 < 1); [|lia].
  apply Z.div_lt_upper_bound; lia.
Qed.

(** A job that is never fetched with status [processed]: the loop makes one
    poll per started interval of five seconds, then reports the time-out. *)
Lemma never_processed_any_budget (job : Job) (auth : SlyftAuth) :
  forall (fuel : nat) (wait : Z) (w : World),
    wait <= Z.of_nat fuel ->
    requestError w "GET" (pollUrl w job) = None ->
    credentials w = inr auth ->
    (forall k, exists j, fetchedJob (network w k) = Some j
                         /\ Job_Status j <> "processed") ->
    waitLoop fuel (Some job) wait w
    = (Ret false,
       record [Printed (timeoutMessage job)]
         (Nat.iter (Z.to_nat ((wait + 4) / 5)) (polled job auth) w)).
Proof.
  induction fuel as [|fuel IH]; intros wait w Hfuel Hreq Hcred Hnever.
  - rewrite waitLoop_done by lia.
    rewrite no_interval by lia. reflexivity.
  - destruct (Z_gt_le_dec wait 0) as [Hw|Hw].
    + destruct (Hnever (sent w)) as [j [Hf Hs]].
      rewrite (poll_pending fuel job auth wait w j Hw Hreq Hcred Hf Hs).
      rewrite (IH (wait - 5) (polled job auth w)); try lia; auto.
      replace (Z.to_nat ((wait + 4) / 5))
        with (S (Z.to_nat ((wait - 5 + 4) / 5))).
      * rewrite Nat.iter_succ_r. reflexivity.
      * replace (wait + 4) with ((wait - 5 + 4) + 1 * 5) by lia.
        rewrite Z.div_add by lia.
        assert (0 <= (wait - 5 + 4) / 5) by (apply Z.div_pos; lia).
        lia.
    + rewrite waitLoop_done by lia.
      rewrite no_interval by lia. reflexivity.
Qed.

(** C2.  [waitForJobCompletion] returns true if and only if one of the polls
    it makes fetches the job with status [processed].  The polls it makes are
    within the budget, one per started interval of five seconds.  On success
    the processed poll is the last one, and the last two events are its
    request and the display of the fetched job: the loop exits there.  With a
    budget of 30 seconds and polls that fetch another status twice and then
    [processed], the result is true after exactly three polls. *)
Theorem success_iff_processed_poll (job : Job) (wait : Z) (w : World) :
  let r := waitForJobCompletion (Some job) wait w in
  (fst r = Ret true
   <-> exists k, (sent w <= k < sent (snd r))%nat
                 /\ processedReply (network w k) = true)
  /\ 5 * Z.of_nat (sent (snd r) - sent w) < Z.max wait 0 + 5
  /\ (fst r = Ret true ->
      exists j auth pre,
        fetchedJob (network w (sent (snd r) - 1)) = Some j
        /\ Job_Status j = "processed"
        /\ trace (snd r)
           = (pre ++ [Sent "GET" (pollUrl w job) NoParams auth; ShownJob j])%list)
  /\ (forall auth j1 j2 j3,
        wait = 30 ->
        requestError w "GET" (pollUrl w job) = None ->
        credentials w = inr auth ->
        fetchedJob (network w (sent w)) = Some j1 ->
        Job_Status j1 <> "processed" ->
        fetchedJob (network w (sent w + 1)) = Some j2 ->
        Job_Status j2 <> "processed" ->
        fetchedJob (network w (sent w + 2)) = Some j3 ->
        Job_Status j3 = "processed" ->
        fst r = Ret true
        /\ sent (snd r) = (sent w + 3)%nat
        /\ trace (snd r)
           = (trace w ++ [Printed "Waiting (30s) for job completion.."]
              ++ pollEvents w job auth ++ pollEvents w job auth
              ++ pollEvents w job auth ++ [ShownJob j3])%list).
Proof.
  cbv zeta.
  change (waitForJobCompletion (Some job) wait w)
    with (waitLoop (Z.to_nat wait) (Some job) wait
            (record [Printed ("Waiting (" ++ fmt_d wait
                              ++ "s) for job completion..")] w)).
  set (w0 := record [Printed ("Waiting (" ++ fmt_d wait
                              ++ "s) for job completion..")] w).
  pose proof (waitLoop_inv (Z.to_nat wait) job wait w0) as Hinv.
  cbv zeta in Hinv.
  change (sent w0) with (sent w) in Hinv.
  change (network w0) with (network w) in Hinv.
  change (pollUrl w0 job) with (pollUrl w job) in Hinv.
  destruct Hinv as [_ [Hsent [Hbudget [Hk Htrue]]]].
  split; [|split; [|split]].
  - split.
    + intros Ht. destruct (Htrue Ht) as [j [auth [pre [H1 [H2 [H3 H4]]]]]].
      exists (sent (snd (waitLoop (Z.to_nat wait) (Some job) wait w0)) - 1)%nat.
      split; [lia|]. unfold processedReply. rewrite H2.
      apply String.eqb_eq. exact H3.
    + intros [k [Hr Hp]]. exact (Hk k Hr Hp).
  - exact Hbudget.
  - intros Ht. destruct (Htrue Ht) as [j [auth [pre [H1 [H2 [H3 H4]]]]]].
    exists j, auth, pre. auto.
  - intros auth j1 j2 j3 Hwait Hreq Hcred Hf1 Hs1 Hf2 Hs2 Hf3 Hs3.
    subst wait. change (Z.to_nat 30) with 30%nat.
    replace (sent w + 1)%nat with (S (sent w)) in Hf2 by lia.
    replace (sent w + 2)%nat with (S (S (sent w))) in Hf3 by lia.
    rewrite (poll_pending 29 job auth 30 w0 j1 ltac:(lia) Hreq Hcred Hf1 Hs1).
    rewrite (poll_pending 28 job auth (30 - 5) (polled job auth w0) j2
               ltac:(lia) Hreq Hcred Hf2 Hs2).
    rewrite (poll_processed 27 job auth (30 - 5 - 5)
               (polled job auth (polled job auth w0)) j3
               ltac:(lia) Hreq Hcred Hf3 Hs3).
    cbn [fst snd]. split; [reflexivity|]. split.
    + subst w0. cbn [sent record polled afterSend slept]. lia.
    + cbn [trace record]. rewrite !trace_polled. subst w0.
      cbn [trace record]. rewrite <- !app_assoc. reflexivity.
Qed.

(** C3.  With a budget of 10 seconds, a request that can be built,
    credentials that can be read, and polls that always fetch the job with a
    status other than [processed], [waitForJobCompletion] makes exactly two
    polls, prints that the job did not complete in time, and returns false:
    a plain result, not a panic and not an error. *)
Theorem never_processed_times_out (job : Job) (auth : SlyftAuth) (w : World) :
  requestError w "GET" (pollUrl w job) = None ->
  credentials w = inr auth ->
  (forall k, exists j, fetchedJob (network w k) = Some j
                       /\ Job_Status j <> "processed") ->
  let r := waitForJobCompletion (Some job) 10 w in
  fst r = Ret false
  /\ sent (snd r) = (sent w + 2)%nat
  /\ trace (snd r)
     = (trace w ++ [Printed "Waiting (10s) for job completion.."]
        ++ pollEvents w job auth ++ pollEvents w job auth
        ++ [Printed (timeoutMessage job)])%list.
Proof.
  intros Hreq Hcred Hnever. cbv zeta.
  change (waitForJobCompletion (Some job) 10 w)
    with (waitLoop 10 (Some job) 10
            (record [Printed "Waiting (10s) for job completion.."] w)).
  set (w0 := record [Printed "Waiting (10s) for job completion.."] w).
  destruct (Hnever (sent w)) as [j1 [Hf1 Hs1]].
  destruct (Hnever (S (sent w))) as [j2 [Hf2 Hs2]].
  rewrite (poll_pending 9 job auth 10 w0 j1 ltac:(lia) Hreq Hcred Hf1 Hs1).
  rewrite (poll_pending 8 job auth (10 - 5) (polled job auth w0) j2
             ltac:(lia) Hreq Hcred Hf2 Hs2).
  rewrite (waitLoop_done 8 job (10 - 5 - 5)) by lia.
  cbn [fst snd]. split; [reflexivity|]. split.
  - subst w0. cbn [sent record polled afterSend slept]. lia.
  - cbn [trace record]. rewrite !trace_polled. subst w0.
    cbn [trace record]. rewrite <- !app_assoc. reflexivity.
Qed.

(** A nil job and a positive budget: the loop sleeps once and panics when it
    builds the endpoint of the job. *)
Lemma waitForJobCompletion_nil (wait : Z) (w : World) :
  0 < wait ->
  waitForJobCompletion None wait w
  = (Panic nil_dereference,
     record [Printed ("Waiting (" ++ fmt_d wait ++ "s) for job completion..");
             Slept 5; Printed "."] w).
Proof.
  intros Hw. unfold waitForJobCompletion, bind, emit.
  destruct (Z.to_nat wait) as [|fuel] eqn:Hfuel; [lia|].
  simpl waitLoop. rewrite (proj2 (Z.gtb_lt _ _)) by lia.
  unfold bind, emit, lift. simpl. rewrite !record_record. reflexivity.
Qed.

(** C10.  When [postNewJob] returns nil, the actions of the build and of
    the validate command still call [waitForJobCompletion], with the nil
    job; for a positive budget the loop announces the wait, sleeps once,
    and then panics with a nil dereference when it builds the endpoint of the
    job, before any request is made. *)
Theorem failed_job_creation_panics (name : string) (wait : Z) (w w1 : World) :
  0 < wait ->
  (postNewJob "build" (TrimSpace name) w = (Ret None, w1) ->
   buildProject name (Some wait) w
   = (Panic nil_dereference,
      record [Printed ("Waiting (" ++ fmt_d wait ++ "s) for job completion..");
              Slept 5; Printed "."] w1))
  /\ (postNewJob "validate" (TrimSpace name) w = (Ret None, w1) ->
      validateProject name (Some wait) w
      = (Panic nil_dereference,
         record [Printed ("Waiting (" ++ fmt_d wait
                          ++ "s) for job completion..");
                 Slept 5; Printed "."] w1)).
Proof.
  intros Hw. split; intros Hpost.
  - unfold buildProject, bind at 1. rewrite Hpost.
    unfold bind at 1. rewrite (waitForJobCompletion_nil wait w1 Hw).
    reflexivity.
  - unfold validateProject, bind at 1. rewrite Hpost.
    unfold bind at 1. rewrite (waitForJobCompletion_nil wait w1 Hw).
    reflexivity.
Qed.

(** * Further properties *)

(** ** The polling loop, beyond the budget of the examples *)

(** X1.  With a budget of zero or less and a job at hand, the wait is over
    before it starts: the announcement and the time-out message are printed
    one after the other, no request is sent, whatever the server would have
    answered, and the result is false. *)
Theorem zero_budget_no_poll (job : Job) (wait : Z) (w : World) :
  wait <= 0 ->
  waitForJobCompletion (Some job) wait w
  = (Ret false,
     record [Printed (announcement wait); Printed (timeoutMessage job)] w).
Proof.
  intros Hw. unfold waitForJobCompletion, bind, emit.
  rewrite (waitLoop_done _ job wait _ Hw), record_record. reflexivity.
Qed.

(** X2.  With a nil job the wait panics with a nil dereference for every
    budget and never sends a request: for a positive budget after the first
    sleep, when the endpoint is built, and otherwise right after the
    announcement, when the time-out message reads the identifier. *)
Theorem nil_job_always_panics (wait : Z) (w : World) :
  waitForJobCompletion None wait w
  = (Panic nil_dereference,
     record (Printed (announcement wait)
             :: if wait >? 0 then [Slept 5; Printed "."] else []) w).
Proof.
  destruct (Z_gt_le_dec wait 0) as [Hw|Hw].
  - rewrite (proj2 (Z.gtb_lt _ _)) by lia.
    apply waitForJobCompletion_nil. lia.
  - assert (Hb : (wait >? 0) = false)
      by (rewrite Z.gtb_ltb; apply Z.ltb_ge; lia).
    rewrite Hb. unfold waitForJobCompletion, bind, emit.
    destruct (Z.to_nat wait); simpl; rewrite ?Hb; reflexivity.
Qed.

(** X3.  Whatever the budget, when the request can be built, the
    credentials can be read and no poll ever fetches the job with status
    [processed], the wait makes exactly one poll per started interval of
    five seconds, the whole budget rounded up, then prints the time-out
    message and returns false. *)
Theorem never_processed_polls_per_interval (job : Job) (auth : SlyftAuth)
  (wait : Z) (w : World) :
  requestError w "GET" (pollUrl w job) = None ->
  credentials w = inr auth ->
  (forall k, exists j, fetchedJob (network w k) = Some j
                       /\ Job_Status j <> "processed") ->
  let polls := Z.to_nat ((wait + 4) / 5) in
  let r := waitForJobCompletion (Some job) wait w in
  fst r = Ret false
  /\ sent (snd r) = (sent w + polls)%nat
  /\ trace (snd r)
     = (trace w ++ [Printed (announcement wait)]
        ++ concat (repeat (pollEvents w job auth) polls)
        ++ [Printed (timeoutMessage job)])%list.
Proof.
  intros Hreq Hcred Hnever. cbv zeta.
  change (waitForJobCompletion (Some job) wait w)
    with (waitLoop (Z.to_nat wait) (Some job) wait
            (record [Printed (announcement wait)] w)).
  rewrite (never_processed_any_budget job auth (Z.to_nat wait) wait
             (record [Printed (announcement wait)] w)
             ltac:(lia) Hreq Hcred Hnever).
  destruct (polled_iter (Z.to_nat ((wait + 4) / 5)) job auth
              (record [Printed (announcement wait)] w))
    as [Hs [_ [_ [_ [_ Ht]]]]].
  cbn [fst snd record sent trace]. rewrite Hs, Ht.
  cbn [sent trace record]. split; [reflexivity|]. split; [reflexivity|].
  rewrite <- !app_assoc. reflexivity.
Qed.

(** X4.  When the first [n] polls fetch the job with another status and
    the next one fetches it with status [processed], and that poll starts
    within the budget ([5 * n < wait]), the wait returns true after exactly
    [n + 1] polls, the display of the processed job being the last event. *)
Theorem processed_after_pending_polls (job : Job) (auth : SlyftAuth)
  (j : Job) (n : nat) (wait : Z) (w : World) :
  5 * Z.of_nat n < wait ->
  requestError w "GET" (pollUrl w job) = None ->
  credentials w = inr auth ->
  (forall i, (i < n)%nat ->
     exists j', fetchedJob (network w (sent w + i)) = Some j'
                /\ Job_Status j' <> "processed") ->
  fetchedJob (network w (sent w + n)) = Some j ->
  Job_Status j = "processed" ->
  let r := waitForJobCompletion (Some job) wait w in
  fst r = Ret true
  /\ sent (snd r) = (sent w + (n + 1))%nat
  /\ trace (snd r)
     = (trace w ++ [Printed (announcement wait)]
        ++ concat (repeat (pollEvents w job auth) (n + 1))
        ++ [ShownJob j])%list.
Proof.
  intros Hwait Hreq Hcred Hpend Hf Hs. cbv zeta.
  change (waitForJobCompletion (Some job) wait w)
    with (waitLoop (Z.to_nat wait) (Some job) wait
            (record [Printed (announcement wait)] w)).
  rewrite (processed_on_nth_poll job auth j n (Z.to_nat wait) wait
             (record [Printed (announcement wait)] w)
             ltac:(lia) Hwait Hreq Hcred Hpend Hf Hs).
  destruct (polled_iter (S n) job auth
              (record [Printed (announcement wait)] w))
    as [Hs' [_ [_ [_ [_ Ht]]]]].
  cbn [fst snd record sent trace]. rewrite Hs', Ht.
  cbn [sent trace record]. replace (n + 1)%nat with (S n) by lia.
  split; [reflexivity|]. split; [reflexivity|].
  rewrite <- !app_assoc. reflexivity.
Qed.

Lemma agree_refl (w : World) : agree w w.
Proof. unfold agree. auto 10. Qed.

Lemma agree_record (es es' : list Event) (w w' : World) :
  agree w w' -> agree (record es w) (record es' w').
Proof. unfold agree, record. simpl. auto. Qed.

(** [Do] does not look at what was written so far. *)
Lemma Do_agree (resource method : string) (params : Params) (w w' : World) :
  agree w w' ->
  fst (Do resource method params w) = fst (Do resource method params w')
  /\ agree (snd (Do resource method params w))
           (snd (Do resource method params w')).
Proof.
  intros Hag. pose proof Hag as [Hb [Hr [Hc [Hn [Hs [Hk Ha]]]]]].
  rewrite !Do_spec. rewrite <- Hb, <- Hr, <- Hc, <- Hn, <- Hs.
  destruct (requestError w method (BackendBaseUrl w ++ resource)).
  - split; [reflexivity|]. apply agree_record. exact Hag.
  - destruct (credentials w) eqn:Hcw.
    + split; [reflexivity|]. apply agree_record. exact Hag.
    + split; [reflexivity|]. unfold agree, afterSend. simpl.
      repeat split; congruence.
Qed.

(** A success of the loop survives a larger budget and more fuel, and
    does not depend on what was written before. *)
Lemma waitLoop_budget_mono (job : Job) :
  forall (fuel fuel' : nat) (wait wait' : Z) (w w' : World),
    agree w w' -> wait <= wait' -> (fuel <= fuel')%nat ->
    fst (waitLoop fuel (Some job) wait w) = Ret true ->
    fst (waitLoop fuel' (Some job) wait' w') = Ret true
    /\ agree (snd (waitLoop fuel (Some job) wait w))
             (snd (waitLoop fuel' (Some job) wait' w')).
Proof.
  induction fuel as [|fuel IH]; intros fuel' wait wait' w w' Hag Hle Hfuel Ht.
  - simpl in Ht. discriminate.
  - destruct (Z_gt_le_dec wait 0) as [Hw|Hw].
    2:{ rewrite (waitLoop_done (S fuel) job wait w Hw) in Ht. discriminate. }
    destruct fuel' as [|fuel']; [lia|].
    rewrite (waitLoop_step fuel job wait w Hw) in *.
    rewrite (waitLoop_step fuel' job wait' w' ltac:(lia)).
    destruct (Do_agree (endPointText job) "GET" NoParams (slept w) (slept w'))
      as [Hfst Hsnd].
    { apply agree_record. exact Hag. }
    destruct (Do (endPointText job) "GET" NoParams (slept w))
      as [[[err|resp]|why] w1];
      destruct (Do (endPointText job) "GET" NoParams (slept w'))
        as [[[err'|resp']|why'] w1'];
      simpl in Hfst, Hsnd; cbn [fst] in Ht; try discriminate;
      inversion Hfst; subst.
    destruct (extractJobFromResponse resp' StatusOK false) as [x|why];
      [|cbn [fst] in Ht; discriminate].
    destruct (fetchedJob (inr resp')) as [j|].
    + destruct (String.eqb (Job_Status j) "processed").
      * split; [reflexivity|]. apply agree_record. exact Hsnd.
      * apply IH; [exact Hsnd | lia | lia | exact Ht].
    + apply IH; [exact Hsnd | lia | lia | exact Ht].
Qed.

(** X5.  A success of the wait is not lost with a larger budget: if
    [waitForJobCompletion] returns true with a budget, it returns true with
    every larger one in the same world, after the same number of polls. *)
Theorem larger_budget_keeps_success (job : Job) (wait wait' : Z) (w : World) :
  wait <= wait' ->
  fst (waitForJobCompletion (Some job) wait w) = Ret true ->
  fst (waitForJobCompletion (Some job) wait' w) = Ret true
  /\ sent (snd (waitForJobCompletion (Some job) wait' w))
     = sent (snd (waitForJobCompletion (Some job) wait w)).
Proof.
  intros Hle Ht.
  change (waitForJobCompletion (Some job) wait w)
    with (waitLoop (Z.to_nat wait) (Some job) wait
            (record [Printed (announcement wait)] w)) in *.
  change (waitForJobCompletion (Some job) wait' w)
    with (waitLoop (Z.to_nat wait') (Some job) wait'
            (record [Printed (announcement wait')] w)).
  destruct (waitLoop_budget_mono job (Z.to_nat wait) (Z.to_nat wait')
              wait wait' (record [Printed (announcement wait)] w)
              (record [Printed (announcement wait')] w))
    as [Hres Hag]; auto.
  - apply agree_record, agree_refl.
  - lia.
  - split; [exact Hres|].
    destruct Hag as [_ [_ [_ [_ [Hs _]]]]]. symmetry. exact Hs.
Qed.

(** ** The decoders at their edges *)

(** X6.  A reply with the expected status whose body is the JSON text
    [null]: the list decoders return the empty list, while the single-item
    decoders panic with a nil dereference, because [json.Unmarshal] sets the
    pointer [a] to nil and [[]Asset{*a}] then dereferences it. *)
Theorem null_body_decoding (resp : Response) (expected : Z) :
  StatusCode resp = expected ->
  Body resp = inr (Parsed JNull) ->
  extractAssetFromResponse resp expected true = Ret (inr [])
  /\ extractJobFromResponse resp expected true = Ret (inr [])
  /\ extractAssetFromResponse resp expected false = Panic nil_dereference
  /\ extractJobFromResponse resp expected false = Panic nil_dereference.
Proof.
  intros Hs Hb.
  rewrite !(extract_matching_status_asset resp expected _ _ Hs Hb).
  rewrite !(extract_matching_status_job resp expected _ _ Hs Hb).
  repeat split; reflexivity.
Qed.

(** X7.  The polling loop swallows decoding errors but not that panic: a
    poll that is answered 200 with the body [null] ends the wait with a nil
    dereference, whatever budget is left. *)
Theorem null_reply_panics_the_wait (fuel : nat) (job : Job) (wait : Z)
  (w w1 : World) (resp : Response) :
  wait > 0 ->
  Do (endPointText job) "GET" NoParams (slept w) = (Ret (inr resp), w1) ->
  StatusCode resp = 200 ->
  Body resp = inr (Parsed JNull) ->
  waitLoop (S fuel) (Some job) wait w = (Panic nil_dereference, w1).
Proof.
  intros Hw HDo Hs Hb.
  rewrite (waitLoop_step fuel job wait w Hw), HDo.
  rewrite (extract_matching_status_job resp StatusOK false _ Hs Hb).
  reflexivity.
Qed.

(** X8.  A single-item decoder that returns records returns exactly one,
    whatever the reply: the tests [len(jobs) == 1] and [len(assets) == 1] of
    its callers cannot fail. *)
Theorem single_item_one_record (resp : Response) (expected : Z) :
  (forall assets,
     extractAssetFromResponse resp expected false = Ret (inr assets) ->
     exists a, assets = [a])
  /\ (forall jobs,
        extractJobFromResponse resp expected false = Ret (inr jobs) ->
        exists j, jobs = [j]).
Proof.
  split.
  - intros assets. unfold extractAssetFromResponse.
    destruct (negb (StatusCode resp =? expected)); [discriminate|].
    destruct (Body resp) as [err|body]; [discriminate|].
    unfold extractAssetFromBody.
    destruct (Unmarshal (decPtr decAsset zeroAsset) body) as [err|[a|]];
      try discriminate.
    intros H. inversion H. eauto.
  - intros jobs. unfold extractJobFromResponse.
    destruct (negb (StatusCode resp =? expected)); [discriminate|].
    destruct (Body resp) as [err|body]; [discriminate|].
    unfold extractJobFromBody.
    destruct (Unmarshal (decPtr decJob zeroJob) body) as [err|[j|]];
      try discriminate.
    intros H. inversion H. eauto.
Qed.

(** X9.  With the expected status, what can go wrong with the body comes
    back as an error and never as records: a read error is returned as it
    is, a body that is not a JSON text is a syntax error, a JSON object where
    a list is expected and a JSON array where a single item is expected are
    decoding errors.  This holds for assets and for jobs. *)
Theorem body_failures_are_errors (resp : Response) (expected : Z) :
  StatusCode resp = expected ->
  (forall err flag, Body resp = inl err ->
     extractAssetFromResponse resp expected flag = Ret (inl err)
     /\ extractJobFromResponse resp expected flag = Ret (inl err))
  /\ (forall flag, Body resp = inr Malformed ->
      extractAssetFromResponse resp expected flag = Ret (inl SyntaxError)
      /\ extractJobFromResponse resp expected flag = Ret (inl SyntaxError))
  /\ (forall members, Body resp = inr (Parsed (JObj members)) ->
      exists err err',
        extractAssetFromResponse resp expected true = Ret (inl err)
        /\ extractJobFromResponse resp expected true = Ret (inl err'))
  /\ (forall items, Body resp = inr (Parsed (JArr items)) ->
      exists err err',
        extractAssetFromResponse resp expected false = Ret (inl err)
        /\ extractJobFromResponse resp expected false = Ret (inl err')).
Proof.
  intros Hs. repeat split.
  - unfold extractAssetFromResponse. rewrite Hs, Z.eqb_refl, H. reflexivity.
  - unfold extractJobFromResponse. rewrite Hs, Z.eqb_refl, H. reflexivity.
  - rewrite (extract_matching_status_asset resp expected _ _ Hs H).
    destruct flag; reflexivity.
  - rewrite (extract_matching_status_job resp expected _ _ Hs H).
    destruct flag; reflexivity.
  - intros members Hb. eexists. eexists.
    rewrite (extract_matching_status_asset resp expected _ _ Hs Hb).
    rewrite (extract_matching_status_job resp expected _ _ Hs Hb).
    split; reflexivity.
  - intros items Hb. eexists. eexists.
    rewrite (extract_matching_status_asset resp expected _ _ Hs Hb).
    rewrite (extract_matching_status_job resp expected _ _ Hs Hb).
    split; reflexivity.
Qed.

(** X10.  The project decoder classifies a status mismatch as the other
    two do and returns a read error of the body as it is; in both cases the
    body decoders of projects are not consulted, whatever they are. *)
Theorem project_decoder_failures (resp : Response) (expected : Z)
  (listExpected : bool) :
  (StatusCode resp <> expected ->
   extractProjectFromResponse resp expected listExpected
   = Ret (inl (errors_New (respCodeToErrorMsg resp expected)))
   /\ extractAssetFromResponse resp expected listExpected
      = Ret (inl (errors_New (respCodeToErrorMsg resp expected)))
   /\ extractJobFromResponse resp expected listExpected
      = Ret (inl (errors_New (respCodeToErrorMsg resp expected))))
  /\ (forall err, StatusCode resp = expected -> Body resp = inl err ->
      extractProjectFromResponse resp expected listExpected = Ret (inl err)).
Proof.
  unfold extractProjectFromResponse, extractAssetFromResponse,
    extractJobFromResponse.
  split.
  - intros Hne. apply Z.eqb_neq in Hne. rewrite Hne. simpl. auto.
  - intros err Hs Hb. rewrite Hs, Z.eqb_refl, Hb. reflexivity.
Qed.

(** ** Selection, beyond the empty and the singleton list *)

Lemma len_two {A : Type} (a b : A) (rest : list A) : 1 < len (a :: b :: rest).
Proof. unfold len. simpl length. lia. Qed.

(** Selection without prompting and without narrowing, by the shape of the
    fetched list. *)
Lemma pickAsset_listing (assets : list Asset) (message : string) (w : World) :
  pickAsset assets false message 0 w
  = match assets with
    | [] => (Ret (inl (errors_New "No asset. Sorry")), w)
    | [a] => (Ret (inr (Some a)), record [ShownAsset a] w)
    | _ => (Ret (inr None), record [ShownAssets assets] w)
    end.
Proof.
  destruct assets as [|a [|b rest]]; try reflexivity.
  pose proof (len_two a b rest) as Hlen.
  unfold pickAsset, DisplayAssets.
  assert (H0 : (len (a :: b :: rest) =? 0) = false) by (apply Z.eqb_neq; lia).
  assert (H1 : (len (a :: b :: rest) =? 1) = false) by (apply Z.eqb_neq; lia).
  rewrite H0. simpl negb. cbv iota. unfold bind at 1. unfold ret at 1.
  rewrite H0, H1. reflexivity.
Qed.

Lemma pickJob_listing (jobs : list Job) (message : string) (w : World) :
  pickJob jobs false message w
  = match jobs with
    | [] => (Ret (inl (errors_New "No job. Sorry")), w)
    | [j] => (Ret (inr (Some j)), record [ShownJob j] w)
    | _ => (Ret (inr None), record [ShownJobs jobs] w)
    end.
Proof.
  destruct jobs as [|a [|b rest]]; try reflexivity.
  pose proof (len_two a b rest) as Hlen.
  unfold pickJob, DisplayJobs.
  assert (H0 : (len (a :: b :: rest) =? 0) = false) by (apply Z.eqb_neq; lia).
  assert (H1 : (len (a :: b :: rest) =? 1) = false) by (apply Z.eqb_neq; lia).
  rewrite H0, H1. reflexivity.
Qed.

Lemma list_decoders_never_panic (resp : Response) (expected : Z) (why : string) :
  extractAssetFromResponse resp expected true <> Panic why
  /\ extractJobFromResponse resp expected true <> Panic why.
Proof.
  unfold extractAssetFromResponse, extractJobFromResponse.
  destruct (negb (StatusCode resp =? expected)); [split; discriminate|].
  destruct (Body resp); split; discriminate.
Qed.

(** X11.  In listing mode, that is without prompting and without tail
    count, the selection of an asset and that of a job never panic and never
    ask the user; they send at most one request, and they return a record
    only when exactly one was fetched, after displaying it. *)
Theorem listing_mode_is_safe (endpoint message : string) (w : World) :
  let ra := chooseAsset endpoint false message 0 w in
  let rj := chooseJob endpoint false message w in
  ((forall why, fst ra <> Panic why)
   /\ asked (snd ra) = asked w
   /\ (sent (snd ra) <= S (sent w))%nat
   /\ (forall a, fst ra = Ret (inr (Some a)) ->
        exists resp, network w (sent w) = inr resp
                     /\ extractAssetFromResponse resp StatusOK true
                        = Ret (inr [a])
                     /\ exists pre, trace (snd ra)
                                    = (pre ++ [ShownAsset a])%list))
  /\ ((forall why, fst rj <> Panic why)
      /\ asked (snd rj) = asked w
      /\ (sent (snd rj) <= S (sent w))%nat
      /\ (forall j, fst rj = Ret (inr (Some j)) ->
           exists resp, network w (sent w) = inr resp
                        /\ extractJobFromResponse resp StatusOK true
                           = Ret (inr [j])
                        /\ exists pre, trace (snd rj)
                                       = (pre ++ [ShownJob j])%list)).
Proof.
  cbv zeta. unfold chooseAsset, chooseJob, bind. rewrite Do_spec.
  destruct (requestError w "GET" (BackendBaseUrl w ++ endpoint)).
  { cbn [fst snd asked sent record ret].
    repeat split; try discriminate; auto. }
  destruct (credentials w) as [err|auth].
  { cbn [fst snd asked sent record ret].
    repeat split; try discriminate; auto. }
  destruct (network w (sent w)) as [err|resp] eqn:Hnet.
  { cbn [fst snd asked sent afterSend ret].
    repeat split; try discriminate; auto. }
  unfold lift. split.
  - destruct (extractAssetFromResponse resp StatusOK true) as [[err|assets]|why]
      eqn:Hx.
    + cbn [fst snd asked sent afterSend ret].
      repeat split; try discriminate; auto.
    + rewrite pickAsset_listing. destruct assets as [|a [|b rest]];
        cbn [fst snd asked sent afterSend record trace];
        repeat split; try discriminate; auto.
      intros a0 Ha. inversion Ha. subst a0. exists resp.
      repeat split; auto. eexists. reflexivity.
    + destruct (list_decoders_never_panic resp StatusOK why) as [Hn _].
      contradiction.
  - destruct (extractJobFromResponse resp StatusOK true) as [[err|jobs]|why]
      eqn:Hx.
    + cbn [fst snd asked sent afterSend ret].
      repeat split; try discriminate; auto.
    + rewrite pickJob_listing. destruct jobs as [|a [|b rest]];
        cbn [fst snd asked sent afterSend record trace];
        repeat split; try discriminate; auto.
      intros a0 Ha. inversion Ha. subst a0. exists resp.
      repeat split; auto. eexists. reflexivity.
    + destruct (list_decoders_never_panic resp StatusOK why) as [_ Hn].
      contradiction.
Qed.

(** *** What a computation can do to the world *)

Lemma within_still {A : Type} (s a : nat) (m : M A) :
  (forall w, snd (m w) = w) -> within s a m.
Proof.
  intros H w. rewrite H. repeat split; try lia. exists []. 
  rewrite app_nil_r. reflexivity.
Qed.

Lemma within_ret {A : Type} (s a : nat) (x : A) : within s a (ret x).
Proof. apply within_still. reflexivity. Qed.

Lemma within_lift {A : Type} (s a : nat) (o : Outcome A) : within s a (lift o).
Proof. apply within_still. reflexivity. Qed.

Lemma within_index {A : Type} (s a : nat) (l : list A) (i : Z) :
  within s a (index l i).
Proof.
  apply within_still. intros w.
  destruct (index_cases l i w) as [[x Hx]|Hx]; rewrite Hx; reflexivity.
Qed.

Lemma within_sliceFrom {A : Type} (s a : nat) (l : list A) (low : Z) :
  within s a (sliceFrom l low).
Proof.
  apply within_still. intros w. unfold sliceFrom.
  destruct ((low <? 0) || (len l <? low)); reflexivity.
Qed.

Lemma within_emit (s a : nat) (e : Event) : within s a (emit e).
Proof.
  intros w. unfold emit, record. simpl. repeat split; try lia. eauto.
Qed.

Lemma within_ask (s a : nat) (message : string) :
  within s (S a) (ReadUserIntInput message).
Proof.
  intros w. unfold ReadUserIntInput. simpl. repeat split; try lia. eauto.
Qed.

Lemma within_Do (s a : nat) (resource method : string) (params : Params) :
  within (S s) a (Do resource method params).
Proof.
  intros w. rewrite Do_spec.
  destruct (requestError w method (BackendBaseUrl w ++ resource));
    [|destruct (credentials w) eqn:Hc]; simpl; rewrite ?Hc;
    repeat split; try lia; eauto.
Qed.

Lemma within_bind {A B : Type} (s1 a1 s2 a2 : nat) (m : M A) (k : A -> M B) :
  within s1 a1 m -> (forall x, within s2 a2 (k x)) ->
  within (s1 + s2) (a1 + a2) (bind m k).
Proof.
  intros Hm Hk w. unfold bind. specialize (Hm w).
  destruct (m w) as [[x|why] w1]; simpl in Hm;
    destruct Hm as [Hb [Hr [Hc [Hn [Hkb [Hs [Ha [es Ht]]]]]]]].
  - destruct (Hk x w1) as [Hb' [Hr' [Hc' [Hn' [Hkb' [Hs' [Ha' [es' Ht']]]]]]]].
    repeat split; try congruence; try lia.
    exists (es ++ es')%list. rewrite Ht', Ht, app_assoc. reflexivity.
  - simpl. repeat split; try assumption; try lia. eauto.
Qed.

Lemma within_pickAsset (assets : list Asset) (askUser : bool)
  (message : string) (count : Z) :
  within 0 1 (pickAsset assets askUser message count).
Proof.
  unfold pickAsset, DisplayAssets, Asset_Display.
  repeat first
    [ apply within_ret
    | apply within_emit
    | apply within_ask
    | apply within_index
    | apply within_sliceFrom
    | match goal with
      | |- within _ _ (bind (ReadUserIntInput _) _) =>
          apply (within_bind 0 1 0 0); [|intros ?]
      end
    | apply (within_bind 0 0 0 1); [|intros ?]
    | apply (within_bind 0 0 0 0); [|intros ?]
    | match goal with
      | |- within _ _ (if ?b then _ else _) => destruct b
      | |- within _ _ (match ?x with inl _ => _ | inr _ => _ end) =>
          destruct x
      | |- within _ _ (match ?x with Some _ => _ | None => _ end) =>
          destruct x
      end ].
Qed.

Lemma within_pickJob (jobs : list Job) (askUser : bool) (message : string) :
  within 0 1 (pickJob jobs askUser message).
Proof.
  unfold pickJob, DisplayJobs, Job_Display.
  repeat first
    [ apply within_ret
    | apply within_emit
    | apply within_ask
    | apply within_index
    | match goal with
      | |- within _ _ (bind (ReadUserIntInput _) _) =>
          apply (within_bind 0 1 0 0); [|intros ?]
      end
    | apply (within_bind 0 0 0 1); [|intros ?]
    | apply (within_bind 0 0 0 0); [|intros ?]
    | match goal with
      | |- within _ _ (if ?b then _ else _) => destruct b
      | |- within _ _ (match ?x with inl _ => _ | inr _ => _ end) =>
          destruct x
      | |- within _ _ (match ?x with Some _ => _ | None => _ end) =>
          destruct x
      end ].
Qed.

(** X12.  Whatever its arguments and whatever the outside answers, and also
    when it panics, a selection of an asset or of a job sends at most one
    request and asks the user at most once; it only appends to what was
    written and leaves the rest of the world alone. *)
Theorem selection_effects_bounded (endpoint message : string)
  (askUser : bool) (count : Z) :
  within 1 1 (chooseAsset endpoint askUser message count)
  /\ within 1 1 (chooseJob endpoint askUser message).
Proof.
  split.
  - unfold chooseAsset. apply (within_bind 1 0 0 1); [apply within_Do|].
    intros [err|resp]; [apply within_ret|].
    apply (within_bind 0 0 0 1); [apply within_lift|].
    intros [err|assets]; [apply within_ret | apply within_pickAsset].
  - unfold chooseJob. apply (within_bind 1 0 0 1); [apply within_Do|].
    intros [err|resp]; [apply within_ret|].
    apply (within_bind 0 0 0 1); [apply within_lift|].
    intros [err|jobs]; [apply within_ret | apply within_pickJob].
Qed.

Lemma one_more_interval (wait : Z) :
  wait > 0 ->
  Z.to_nat ((wait + 4) / 5) = S (Z.to_nat ((wait - 5 + 4) / 5)).
Proof.
  intros Hw. replace (wait + 4) with ((wait - 5 + 4) + 1 * 5) by lia.
  rewrite Z.div_add by lia.
  assert (0 <= (wait - 5 + 4) / 5) by (apply Z.div_pos; lia).
  lia.
Qed.

Lemma within_waitLoop (job : option Job) :
  forall (fuel : nat) (wait : Z),
    within (Z.to_nat ((wait + 4) / 5)) 0 (waitLoop fuel job wait).
Proof.
  assert (Hend : forall s, within s 0 (reportTimeout job)).
  { intros s. unfold reportTimeout. destruct job; [|apply within_lift].
    apply (within_bind 0 0 s 0); [apply within_emit|].
    intros _. apply within_ret. }
  induction fuel as [|fuel IH]; intros wait; simpl waitLoop.
  - apply Hend.
  - destruct (Z_gt_le_dec wait 0) as [Hw|Hw].
    + rewrite (proj2 (Z.gtb_lt _ _)) by lia.
      rewrite (one_more_interval wait Hw).
      set (n := Z.to_nat ((wait - 5 + 4) / 5)).
      apply (within_bind 0 0 (S n) 0); [apply within_emit|]. intros _.
      apply (within_bind 0 0 (S n) 0); [apply within_emit|]. intros _.
      apply (within_bind 0 0 (S n) 0); [apply within_lift|]. intros endpoint.
      apply (within_bind 1 0 n 0); [apply within_Do|].
      intros [err|resp]; [apply within_ret|].
      apply (within_bind 0 0 n 0); [apply within_lift|].
      intros [err|jobs]; [apply IH|].
      destruct (len jobs =? 1); [|apply IH].
      apply (within_bind 0 0 n 0); [apply within_index|]. intros j.
      destruct (String.eqb (Job_Status j) "processed"); [|apply IH].
      apply (within_bind 0 0 n 0); [apply within_emit|]. intros _.
      apply within_ret.
    + assert (Hb : (wait >? 0) = false)
        by (rewrite Z.gtb_ltb; apply Z.ltb_ge; lia).
      rewrite Hb. apply Hend.
Qed.

(** X13.  Whatever the job pointer, the budget and the replies, and also
    when it panics, the wait never asks the user, sends at most one request
    per started interval of five seconds, only appends to what was written
    and leaves the rest of the world alone. *)
Theorem wait_effects_bounded (job : option Job) (wait : Z) :
  within (Z.to_nat ((wait + 4) / 5)) 0 (waitForJobCompletion job wait).
Proof.
  unfold waitForJobCompletion.
  apply (within_bind 0 0 (Z.to_nat ((wait + 4) / 5)) 0);
    [apply within_emit|].
  intros _. apply within_waitLoop.
Qed.

(** *** The tail count *)

Lemma narrowed_tail (assets : list Asset) (count : Z) :
  is_int (len assets) = true ->
  0 < count <= len assets ->
  narrowed assets count
  = Some (skipn (Z.to_nat (len assets - count)) assets).
Proof.
  intros Hl Hc. apply is_int_bounds in Hl. unfold narrowed, intSub.
  assert (Hz : (count =? 0) = false) by (apply Z.eqb_neq; lia).
  rewrite Hz. rewrite wrapInt_small by (unfold int_min, int_max in *; lia).
  assert (Hb : ((len assets - count <? 0)
                || (len assets <? len assets - count)) = false).
  { apply orb_false_iff. split; apply Z.ltb_ge; lia. }
  rewrite Hb. reflexivity.
Qed.

Lemma pickAsset_shown_listing (assets shown : list Asset) (message : string)
  (count : Z) (w : World) :
  assets <> [] ->
  narrowed assets count = Some shown ->
  1 < len shown ->
  pickAsset assets false message count w
  = (Ret (inr None), record [ShownAssets shown] w).
Proof.
  intros Hne Hnar Hlen.
  rewrite (pickAsset_narrowing assets false message count w Hne), Hnar.
  unfold DisplayAssets.
  assert (H0 : (len shown =? 0) = false) by (apply Z.eqb_neq; lia).
  assert (H1 : (len shown =? 1) = false) by (apply Z.eqb_neq; lia).
  rewrite H0, H1. reflexivity.
Qed.

(** X14.  A tail count between 2 and the number of fetched assets narrows
    the list to exactly its last [count] elements, in their order: these are
    displayed; without prompting nothing is returned, and with prompting the
    answer [v] within [1, count] returns the asset at position
    [len - count + v] of the fetched list. *)
Theorem tail_is_last_k (endpoint message : string) (count : Z)
  (w w1 : World) (resp : Response) (assets : list Asset) :
  Do endpoint "GET" NoParams w = (Ret (inr resp), w1) ->
  extractAssetFromResponse resp StatusOK true = Ret (inr assets) ->
  is_int (len assets) = true ->
  1 < count <= len assets ->
  let skipped := Z.to_nat (len assets - count) in
  let shown := skipn skipped assets in
  len shown = count
  /\ (firstn skipped assets ++ shown)%list = assets
  /\ chooseAsset endpoint false message count w
     = (Ret (inr None), record [ShownAssets shown] w1)
  /\ (forall v, keyboard w1 (asked w1) = inr v -> 1 <= v <= count ->
      exists a,
        nth_error assets (skipped + Z.to_nat (v - 1)) = Some a
        /\ chooseAsset endpoint true message count w
           = (Ret (inr (Some a)),
              afterPrompt message (record [ShownAssets shown] w1))).
Proof.
  intros HDo Hx Hl Hc skipped shown.
  assert (Hne : assets <> []).
  { intros ->. unfold len in Hc. simpl in Hc. lia. }
  assert (Hnar : narrowed assets count = Some shown)
    by (apply narrowed_tail; [exact Hl | lia]).
  assert (Hlen : len shown = count).
  { unfold shown, skipped, len. rewrite length_skipn. unfold len in *. lia. }
  split; [exact Hlen|]. split; [apply firstn_skipn|]. split.
  - rewrite (chooseAsset_fetched _ _ _ _ _ _ _ _ HDo Hx).
    apply (pickAsset_shown_listing assets shown); auto. lia.
  - intros v Hkey Hv.
    rewrite (chooseAsset_fetched _ _ _ _ _ _ _ _ HDo Hx).
    rewrite (pickAsset_choice assets shown message count w1 v Hne Hnar
               ltac:(lia) Hkey).
    cbv zeta.
    assert (Hb : (v >? len shown) = false)
      by (rewrite Z.gtb_ltb; apply Z.ltb_ge; lia).
    rewrite Hb. unfold intSub. apply is_int_bounds in Hl.
    rewrite wrapInt_small by (unfold int_min, int_max in *; lia).
    destruct (nth_error shown (Z.to_nat (v - 1))) as [a|] eqn:Hn.
    + exists a. split.
      * unfold shown in Hn. rewrite nth_error_skipn in Hn. exact Hn.
      * rewrite (index_ok shown (v - 1) a _ ltac:(lia) Hn). reflexivity.
    + apply nth_error_None in Hn. unfold len in Hlen. lia.
Qed.

(** X15.  With the tail count 1, the default of the delete command, the
    selection returns the last fetched asset after displaying it, and the
    user is not asked, also when prompting is enabled and many assets were
    fetched. *)
Theorem tail_count_one_takes_last (endpoint message : string)
  (askUser : bool) (w w1 : World) (resp : Response) (front : list Asset)
  (a : Asset) :
  Do endpoint "GET" NoParams w = (Ret (inr resp), w1) ->
  extractAssetFromResponse resp StatusOK true = Ret (inr (front ++ [a])%list) ->
  is_int (len (front ++ [a])%list) = true ->
  chooseAsset endpoint askUser message 1 w
  = (Ret (inr (Some a)), record [ShownAsset a] w1).
Proof.
  intros HDo Hx Hl.
  assert (Hne : (front ++ [a])%list <> []) by (destruct front; discriminate).
  assert (Hnar : narrowed (front ++ [a])%list 1 = Some [a]).
  { rewrite narrowed_tail; [|exact Hl|].
    - f_equal. unfold len. rewrite length_app. simpl length.
      replace (Z.to_nat (Z.of_nat (length front + 1) - 1)) with (length front)
        by lia.
      rewrite skipn_app, skipn_all, Nat.sub_diag. reflexivity.
    - unfold len. rewrite length_app. simpl length. lia. }
  rewrite (chooseAsset_fetched _ _ _ _ _ _ _ _ HDo Hx).
  rewrite (pickAsset_narrowing _ askUser message 1 w1 Hne), Hnar.
  reflexivity.
Qed.

(** *** The numbers of the table *)

Lemma jobRowsFrom_nth (jobs : list Job) :
  forall (i : Z) (n : nat) (j : Job),
    nth_error jobs n = Some j ->
    nth_error (jobRowsFrom i jobs) n
    = Some [fmt_d (i + Z.of_nat n + 1); fmt_d (Job_ID j); Job_Kind j;
            Job_Status j; Job_ProjectName j].
Proof.
  induction jobs as [|j0 rest IH]; intros i n j Hn.
  - destruct n; discriminate.
  - destruct n as [|n]; cbn [nth_error jobRowsFrom] in *.
    + inversion Hn. subst. rewrite Z.add_0_r. reflexivity.
    + rewrite (IH (i + 1) n j Hn).
      replace (i + 1 + Z.of_nat n + 1) with (i + Z.of_nat (S n) + 1) by lia.
      reflexivity.
Qed.

Lemma assetRowsFrom_nth (assets : list Asset) :
  forall (i : Z) (n : nat) (a : Asset),
    nth_error assets n = Some a ->
    nth_error (assetRowsFrom i assets) n
    = Some [fmt_d (i + Z.of_nat n + 1); Asset_Name a; Asset_ProjectName a;
            Asset_Origin a].
Proof.
  induction assets as [|a0 rest IH]; intros i n a Hn.
  - destruct n; discriminate.
  - destruct n as [|n]; cbn [nth_error assetRowsFrom] in *.
    + inversion Hn. subst. rewrite Z.add_0_r. reflexivity.
    + rewrite (IH (i + 1) n a Hn).
      replace (i + 1 + Z.of_nat n + 1) with (i + Z.of_nat (S n) + 1) by lia.
      reflexivity.
Qed.

(** X16.  The number in the first column of the table is the answer that
    selects the row: when several records are shown and the user answers
    [v] within [1, count], the record returned is the one whose row, the
    [v]-th, starts with the number [v] and carries its fields.  This holds
    for jobs and, on the narrowed list, for assets. *)
Theorem number_selects_its_row (message : string) (w : World) (v : Z) :
  is_int v = true ->
  keyboard w (asked w) = inr v ->
  (forall jobs, 1 < len jobs -> 1 <= v <= len jobs ->
     exists j,
       fst (pickJob jobs true message w) = Ret (inr (Some j))
       /\ nth_error (jobRows jobs) (Z.to_nat (v - 1))
          = Some [fmt_d v; fmt_d (Job_ID j); Job_Kind j; Job_Status j;
                  Job_ProjectName j])
  /\ (forall assets shown count,
        assets <> [] -> narrowed assets count = Some shown ->
        1 < len shown -> 1 <= v <= len shown ->
        exists a,
          fst (pickAsset assets true message count w) = Ret (inr (Some a))
          /\ nth_error (assetRows shown) (Z.to_nat (v - 1))
             = Some [fmt_d v; Asset_Name a; Asset_ProjectName a;
                     Asset_Origin a]).
Proof.
  intros Hv Hkey. split.
  - intros jobs Hlen Hr.
    destruct (choice_upper_part jobs [] [] message 0 w v Hv Hkey)
      as [Hjobs _].
    destruct (Hjobs Hlen) as [_ Hin]. destruct (Hin Hr) as [j [Hn Hres]].
    exists j. split; [exact Hres|].
    unfold jobRows. rewrite (jobRowsFrom_nth jobs 0 _ j Hn).
    replace (0 + Z.of_nat (Z.to_nat (v - 1)) + 1) with v by lia.
    reflexivity.
  - intros assets shown count Hne Hnar Hlen Hr.
    destruct (choice_upper_part [] assets shown message count w v Hv Hkey)
      as [_ Hassets].
    destruct (Hassets Hne Hnar Hlen) as [_ Hin].
    destruct (Hin Hr) as [a [Hn Hres]].
    exists a. split; [exact Hres|].
    unfold assetRows. rewrite (assetRowsFrom_nth shown 0 _ a Hn).
    replace (0 + Z.of_nat (Z.to_nat (v - 1)) + 1) with v by lia.
    reflexivity.
Qed.

(** ** The commands *)

Lemma resolveName_given (name : string) (w : World) :
  TrimSpace name <> "" -> resolveName name w = (Ret (TrimSpace name), w).
Proof.
  intros H. unfold resolveName. apply String.eqb_neq in H. rewrite H.
  reflexivity.
Qed.

(** X17.  The delete command for a named project that is found: with the
    default tail count 1 the asset handed to the removal is the last one
    of the listing, displayed but not asked for; when the project has no
    asset the not-found error is reported and nothing is handed to the
    removal.  When the project cannot be chosen the action ends with a
    report that does not carry the error of the selection. *)
Theorem remove_named_project (name : string) (w w1 : World) :
  TrimSpace name <> "" ->
  (forall p w2 resp front a,
     chooseProject (TrimSpace name)
       "Which project's assets would you like to see: " w
     = (Ret (inr (Some p)), w1) ->
     Do ("/v1/projects/" ++ fmt_d (Project_ID p) ++ "/assets") "GET" NoParams w1
     = (Ret (inr resp), w2) ->
     extractAssetFromResponse resp StatusOK true
     = Ret (inr (front ++ [a])%list) ->
     is_int (len (front ++ [a])%list) = true ->
     removeAsset name false 1 w
     = DeleteApiModel (Some a) (record [ShownAsset a] w2))
  /\ (forall p w2 resp count,
        chooseProject (TrimSpace name)
          "Which project's assets would you like to see: " w
        = (Ret (inr (Some p)), w1) ->
        Do ("/v1/projects/" ++ fmt_d (Project_ID p) ++ "/assets") "GET"
          NoParams w1
        = (Ret (inr resp), w2) ->
        extractAssetFromResponse resp StatusOK true = Ret (inr []) ->
        removeAsset name false count w
        = (Ret tt,
           record [Reported "Choosing the asset" (errors_New "No asset. Sorry")]
             w2))
  /\ (forall err count,
        chooseProject (TrimSpace name)
          "Which project's assets would you like to see: " w
        = (Ret (inl err), w1) ->
        removeAsset name false count w
        = reportNoError "Choosing the project" w1).
Proof.
  intros Hname.
  assert (Hstart : forall count,
            removeAsset name false count w
            = (r2 <- chooseProject (TrimSpace name)
                       "Which project's assets would you like to see: " ;;
               match r2 with
               | inl _ => reportNoError "Choosing the project"
               | inr p =>
                   url <- lift (AssetsUrl p) ;;
                   r <- chooseAsset url true "Which one shall be removed: "
                          count ;;
                   removeChosen r
               end) w).
  { intros count. unfold removeAsset. unfold bind at 1.
    rewrite (resolveName_given name w Hname).
    apply String.eqb_neq in Hname. rewrite Hname. reflexivity. }
  split; [|split].
  - intros p w2 resp front a Hp HDo Hx Hl.
    rewrite Hstart. unfold bind at 1. rewrite Hp.
    unfold bind at 1. unfold lift, AssetsUrl. unfold bind at 1.
    assert (Hne : (front ++ [a])%list <> []) by (destruct front; discriminate).
    assert (Hnar : narrowed (front ++ [a])%list 1 = Some [a]).
    { rewrite narrowed_tail; [|exact Hl|].
      - f_equal. unfold len. rewrite length_app. simpl length.
        replace (Z.to_nat (Z.of_nat (length front + 1) - 1))
          with (length front) by lia.
        rewrite skipn_app, skipn_all, Nat.sub_diag. reflexivity.
      - unfold len. rewrite length_app. simpl length. lia. }
    rewrite (chooseAsset_fetched _ _ _ _ _ _ _ _ HDo Hx).
    rewrite (pickAsset_narrowing _ true _ 1 w2 Hne), Hnar.
    reflexivity.
  - intros p w2 resp count Hp HDo Hx.
    rewrite Hstart. unfold bind at 1. rewrite Hp.
    unfold bind at 1. unfold lift, AssetsUrl. unfold bind at 1.
    rewrite (chooseAsset_fetched _ _ _ _ _ _ _ _ HDo Hx).
    reflexivity.
  - intros err count Hp. rewrite Hstart. unfold bind at 1. rewrite Hp.
    reflexivity.
Qed.

(** X18.  The status command for a named project that is found and has
    exactly one job displays the details of that job twice, once by the
    selection and once by the command, and does not ask the user. *)
Theorem status_of_single_job_shown_twice (name : string) (w w1 w2 : World)
  (p : Project) (resp : Response) (j : Job) :
  TrimSpace name <> "" ->
  chooseProject (TrimSpace name)
    "Which project's jobs would you like to see: " w
  = (Ret (inr (Some p)), w1) ->
  Do ("/v1/projects/" ++ fmt_d (Project_ID p) ++ "/jobs") "GET" NoParams w1
  = (Ret (inr resp), w2) ->
  extractJobFromResponse resp StatusOK true = Ret (inr [j]) ->
  jobStatusProject name false w
  = (Ret tt, record [ShownJob j; ShownJob j] w2).
Proof.
  intros Hname Hp HDo Hx. unfold jobStatusProject. unfold bind at 1.
  rewrite (resolveName_given name w Hname).
  apply String.eqb_neq in Hname. rewrite Hname. simpl orb. cbv iota.
  unfold bind at 1. unfold ret at 1. unfold bind at 1. rewrite Hp.
  unfold bind at 1. unfold lift, JobsUrl. unfold bind at 1.
  rewrite (chooseJob_fetched _ _ _ _ _ _ _ HDo Hx).
  unfold pickJob, DisplayJobs, Job_Display, bind, emit. simpl.
  rewrite record_record. reflexivity.
Qed.

(** X19.  [Do] makes a single attempt: it never panics, a request goes out
    exactly when it can be built and the credentials can be read, and the
    result is then what the transport returns; it sends at most one request,
    never asks the user and only appends to what was written.  A request
    that cannot be built is logged and returned, without the login warning. *)
Theorem Do_single_attempt (resource method : string) (params : Params)
  (w : World) :
  let r := Do resource method params w in
  let url := BackendBaseUrl w ++ resource in
  (forall why, fst r <> Panic why)
  /\ within 1 0 (Do resource method params)
  /\ (sent (snd r) = S (sent w)
      <-> requestError w method url = None
          /\ exists auth, credentials w = inr auth)
  /\ (sent (snd r) = S (sent w) -> fst r = Ret (network w (sent w)))
  /\ (forall err, requestError w method url = Some err ->
      r = (Ret (inl err),
           record [LoggedCritical "Failed to create a request: " err] w)).
Proof.
  cbv zeta. split; [|split; [apply within_Do|]]; rewrite Do_spec.
  - destruct (requestError w method (BackendBaseUrl w ++ resource));
      [|destruct (credentials w)]; discriminate.
  - destruct (requestError w method (BackendBaseUrl w ++ resource)) as [e|].
    + cbn [fst snd sent record]. split; [split|split].
      * intros H. exfalso. lia.
      * intros [H _]. discriminate.
      * intros H. exfalso. lia.
      * intros err H. inversion H. reflexivity.
    + destruct (credentials w) as [e|auth].
      * cbn [fst snd sent record]. split; [split|split].
        -- intros H. exfalso. lia.
        -- intros [_ [auth H]]. discriminate.
        -- intros H. exfalso. lia.
        -- discriminate.
      * cbn [fst snd sent afterSend]. split; [split|split].
        -- intros _. split; [reflexivity | eauto].
        -- reflexivity.
        -- reflexivity.
        -- discriminate.
Qed.

Lemma extract_job_status (resp : Response) (expected : Z) (flag : bool)
  (jobs : list Job) :
  extractJobFromResponse resp expected flag = Ret (inr jobs) ->
  StatusCode resp = expected.
Proof.
  unfold extractJobFromResponse.
  destruct (StatusCode resp =? expected) eqn:E.
  - intros _. apply Z.eqb_eq. exact E.
  - discriminate.
Qed.

(** [postNewJob] once a project is chosen, case by case. *)
Lemma postNewJob_spec (kind name : string) (w w1 : World) (p : Project) :
  chooseProject name (kind ++ " project: ") w = (Ret (inr (Some p)), w1) ->
  let url := BackendBaseUrl w1 ++ "/v1/projects/" ++ fmt_d (Project_ID p)
             ++ "/jobs" in
  let params := JobParams (mkJobParam (mkJob 0 kind "" zeroJobResults
                                         (Project_ID p) "" zeroTime zeroTime)) in
  postNewJob kind name w
  = match requestError w1 "POST" url with
    | Some e =>
        (Ret None,
         record [Reported "Contacting the server" e]
           (record [LoggedCritical "Failed to create a request: " e] w1))
    | None =>
        match credentials w1 with
        | inl e =>
            (Ret None,
             record [Reported "Contacting the server" e]
               (record [Printed not_logged_in] w1))
        | inr auth =>
            match network w1 (sent w1) with
            | inl e =>
                (Ret None,
                 record [Reported "Contacting the server" e]
                   (afterSend "POST" url params auth w1))
            | inr resp =>
                match extractJobFromResponse resp StatusCreated false with
                | Panic why => (Panic why, afterSend "POST" url params auth w1)
                | Ret (inl e) =>
                    (Ret None,
                     record [Reported "Reading the server response" e]
                       (afterSend "POST" url params auth w1))
                | Ret (inr [j]) =>
                    (Ret (Some j),
                     record [ShownJob j] (afterSend "POST" url params auth w1))
                | Ret (inr _) =>
                    (Ret None,
                     record [LoggedError
                               "Error, creating a new job returned wrong job"]
                       (afterSend "POST" url params auth w1))
                end
            end
        end
    end.
Proof.
  intros Hp url params. unfold postNewJob. unfold bind at 1. rewrite Hp.
  unfold bind at 1. unfold lift at 1, JobsUrl.
  unfold bind at 1. unfold lift at 1, creatJobParam.
  unfold bind at 1. rewrite Do_spec. fold url. fold params.
  destruct (requestError w1 "POST" url); [reflexivity|].
  destruct (credentials w1); [reflexivity|].
  destruct (network w1 (sent w1)); [reflexivity|].
  unfold bind at 1. unfold lift at 1.
  destruct (extractJobFromResponse r StatusCreated false) as [[e|jobs]|why];
    try reflexivity.
  destruct jobs as [|j [|j' rest]]; try reflexivity.
  assert (H1 : (len (j :: j' :: rest) =? 1) = false).
  { apply Z.eqb_neq. pose proof (len_two j j' rest). lia. }
  rewrite H1. reflexivity.
Qed.

(** X20.  Once a project is chosen, [postNewJob] returns a job exactly when
    the POST to the job collection of the project goes out and is answered
    201 with a body that decodes to that job; the request carries the kind
    and the identifier of the project, the job is displayed last, and the
    error about a wrong job is never logged. *)
Theorem postNewJob_returns_created_job (kind name : string) (w w1 : World)
  (p : Project) (j : Job) :
  chooseProject name (kind ++ " project: ") w = (Ret (inr (Some p)), w1) ->
  let url := BackendBaseUrl w1 ++ "/v1/projects/" ++ fmt_d (Project_ID p)
             ++ "/jobs" in
  let params := JobParams (mkJobParam (mkJob 0 kind "" zeroJobResults
                                         (Project_ID p) "" zeroTime zeroTime)) in
  (fst (postNewJob kind name w) = Ret (Some j)
   <-> requestError w1 "POST" url = None
       /\ (exists auth, credentials w1 = inr auth)
       /\ exists resp, network w1 (sent w1) = inr resp
                       /\ StatusCode resp = 201
                       /\ extractJobFromResponse resp StatusCreated false
                          = Ret (inr [j]))
  /\ (forall auth, fst (postNewJob kind name w) = Ret (Some j) ->
      credentials w1 = inr auth ->
      snd (postNewJob kind name w)
      = record [ShownJob j] (afterSend "POST" url params auth w1))
  /\ ~ In (LoggedError "Error, creating a new job returned wrong job")
         (skipn (length (trace w1)) (trace (snd (postNewJob kind name w)))).
Proof.
  intros Hp url params.
  rewrite (postNewJob_spec kind name w w1 p Hp). fold url. fold params.
  assert (Hskip : forall es : list Event,
            skipn (length (trace w1)) (trace w1 ++ es) = es).
  { intros es. rewrite skipn_app, skipn_all, Nat.sub_diag. reflexivity. }
  assert (Hwarn : forall auth,
            ~ In (LoggedError "Error, creating a new job returned wrong job")
                (warning auth)).
  { intros auth. unfold warning. destruct (GoodForLogin auth); simpl.
    - intros H. exact H.
    - intros [H|[]]. discriminate. }
  destruct (requestError w1 "POST" url) as [e|].
  { cbn [fst snd trace record]. rewrite <- app_assoc, Hskip.
    split; [split|split].
    - discriminate.
    - intros [H _]. discriminate.
    - discriminate.
    - intros [H|[H|[]]]; discriminate. }
  destruct (credentials w1) as [e|auth].
  { cbn [fst snd trace record]. rewrite <- app_assoc, Hskip.
    split; [split|split].
    - discriminate.
    - intros [_ [[a H] _]]. discriminate.
    - discriminate.
    - intros [H|[H|[]]]; discriminate. }
  destruct (network w1 (sent w1)) as [e|resp].
  { cbn [fst snd trace record afterSend]. rewrite <- !app_assoc, Hskip.
    split; [split|split].
    - discriminate.
    - intros [_ [_ [r [H _]]]]. discriminate.
    - discriminate.
    - intros H. apply in_app_or in H. destruct H as [H|H].
      + exact (Hwarn auth H).
      + destruct H as [H|[H|[]]]; discriminate. }
  destruct (extractJobFromResponse resp StatusCreated false)
    as [[e|jobs]|why] eqn:Hx.
  - cbn [fst snd trace record afterSend]. rewrite <- !app_assoc, Hskip.
    split; [split|split].
    + discriminate.
    + intros [_ [_ [r [H [_ Hr]]]]]. inversion H. subst r.
      rewrite Hx in Hr. discriminate.
    + discriminate.
    + intros H. apply in_app_or in H. destruct H as [H|H].
      * exact (Hwarn auth H).
      * destruct H as [H|[H|[]]]; discriminate.
  - assert (Hone : exists j0, jobs = [j0]).
    { revert Hx. unfold extractJobFromResponse.
      destruct (negb (StatusCode resp =? StatusCreated)); [discriminate|].
      destruct (Body resp) as [err|body]; [discriminate|].
      unfold extractJobFromBody.
      destruct (Unmarshal (decPtr decJob zeroJob) body) as [err|[j1|]];
        try discriminate.
      intros H. inversion H. eauto. }
    destruct Hone as [j0 ->].
    pose proof (extract_job_status _ _ _ _ Hx) as Hst.
    cbn [fst snd trace record afterSend]. rewrite <- !app_assoc, Hskip.
    split; [split|split].
    + intros H. inversion H. subst j0. repeat split; eauto.
    + intros [_ [_ [r [H [_ Hr]]]]]. inversion H. subst r.
      rewrite Hx in Hr. inversion Hr. reflexivity.
    + intros auth' H Ha. inversion H. inversion Ha. subst. reflexivity.
    + intros H. apply in_app_or in H. destruct H as [H|H].
      * exact (Hwarn auth H).
      * destruct H as [H|[H|[]]]; discriminate.
  - cbn [fst snd trace afterSend]. rewrite Hskip.
    split; [split|split].
    + discriminate.
    + intros [_ [_ [r [H [_ Hr]]]]]. inversion H. subst r.
      rewrite Hx in Hr. discriminate.
    + discriminate.
    + intros H. apply in_app_or in H. destruct H as [H|H].
      * exact (Hwarn auth H).
      * destruct H as [H|[]]; discriminate.
Qed.

(** X21.  The asset list command with [--all] fails silently: whatever
    happens to the request, it ends normally, reports no error and asks
    nothing, while the same failure for a named project is reported under
    the label of the asset selection. *)
Theorem list_all_fails_silently (name : string) (w : World) :
  let r := listAssets name true w in
  fst r = Ret tt
  /\ asked (snd r) = asked w
  /\ (forall label err,
        ~ In (Reported label err) (skipn (length (trace w)) (trace (snd r))))
  /\ (forall err w1 w2 p,
        TrimSpace name <> "" ->
        chooseProject (TrimSpace name)
          "Which project's assets would you like to see: " w
        = (Ret (inr (Some p)), w1) ->
        chooseAsset ("/v1/projects/" ++ fmt_d (Project_ID p) ++ "/assets")
          false "" 0 w1
        = (Ret (inl err), w2) ->
        listAssets name false w
        = (Ret tt, record [Reported "Choosing the asset" err] w2)).
Proof.
  cbv zeta.
  assert (Hskip : forall es : list Event,
            skipn (length (trace w)) (trace w ++ es) = es).
  { intros es. rewrite skipn_app, skipn_all, Nat.sub_diag. reflexivity. }
  assert (Hwarn : forall auth label err, ~ In (Reported label err) (warning auth)).
  { intros auth label err. unfold warning. destruct (GoodForLogin auth); simpl.
    - intros H. exact H.
    - intros [H|[]]. discriminate. }
  split; [|split; [|split]].
  - unfold listAssets, chooseAsset, bind. rewrite Do_spec.
    destruct (requestError w "GET" (BackendBaseUrl w ++ "/v1/assets"));
      [reflexivity|].
    destruct (credentials w); [reflexivity|].
    destruct (network w (sent w)) as [e|resp]; [reflexivity|].
    unfold lift.
    destruct (extractAssetFromResponse resp StatusOK true)
      as [[e|assets]|why] eqn:Hx; [reflexivity| |].
    + rewrite pickAsset_listing. destruct assets as [|a [|b rest]]; reflexivity.
    + destruct (list_decoders_never_panic resp StatusOK why) as [Hn _].
      contradiction.
  - unfold listAssets, chooseAsset, bind. rewrite Do_spec.
    destruct (requestError w "GET" (BackendBaseUrl w ++ "/v1/assets"));
      [reflexivity|].
    destruct (credentials w); [reflexivity|].
    destruct (network w (sent w)) as [e|resp]; [reflexivity|].
    unfold lift.
    destruct (extractAssetFromResponse resp StatusOK true)
      as [[e|assets]|why] eqn:Hx; [reflexivity| |reflexivity].
    rewrite pickAsset_listing. destruct assets as [|a [|b rest]]; reflexivity.
  - intros label err. unfold listAssets, chooseAsset, bind. rewrite Do_spec.
    destruct (requestError w "GET" (BackendBaseUrl w ++ "/v1/assets")).
    { cbn [fst snd trace record ret]. rewrite Hskip.
      intros [H|[]]. discriminate. }
    destruct (credentials w) as [e|auth].
    { cbn [fst snd trace record ret]. rewrite Hskip.
      intros [H|[]]. discriminate. }
    assert (Hsent : ~ In (Reported label err)
                      (warning auth
                       ++ [Sent "GET" (BackendBaseUrl w ++ "/v1/assets")
                             NoParams auth])).
    { intros H. apply in_app_or in H. destruct H as [H|[H|[]]].
      - exact (Hwarn auth label err H).
      - discriminate. }
    destruct (network w (sent w)) as [e|resp].
    { cbn [fst snd trace afterSend ret]. rewrite Hskip. exact Hsent. }
    unfold lift.
    destruct (extractAssetFromResponse resp StatusOK true)
      as [[e|assets]|why] eqn:Hx.
    + cbn [fst snd trace afterSend ret]. rewrite Hskip. exact Hsent.
    + rewrite pickAsset_listing. destruct assets as [|a [|b rest]];
        cbn [fst snd trace afterSend record ret];
        rewrite <- ?app_assoc, Hskip; try exact Hsent;
        intros H; apply in_app_or in H; destruct H as [H|H];
        try exact (Hwarn auth label err H);
        destruct H as [H|[H|[]]]; discriminate.
    + cbn [fst snd trace afterSend]. rewrite Hskip. exact Hsent.
  - intros err w1 w2 p Hname Hp Hc. unfold listAssets. unfold bind at 1.
    rewrite (resolveName_given name w Hname).
    unfold bind at 1. rewrite Hp. unfold bind at 1. unfold lift, AssetsUrl.
    unfold bind at 1. rewrite Hc. reflexivity.
Qed.

(** ** Endpoints *)

Lemma uint_text_has_no_slash (d : Decimal.uint) :
  hasSlash (NilEmpty.string_of_uint d) = false.
Proof. induction d; simpl; auto. Qed.

Lemma fmt_d_has_no_slash (z : Z) : hasSlash (fmt_d z) = false.
Proof.
  unfold fmt_d, NilZero.string_of_int, NilZero.string_of_uint.
  destruct (Z.to_int z) as [d|d]; destruct d; simpl;
    try reflexivity; apply uint_text_has_no_slash.
Qed.

Lemma fmt_d_inj (z1 z2 : Z) : fmt_d z1 = fmt_d z2 -> z1 = z2.
Proof.
  assert (Hnn : forall z, Z.to_int z <> Decimal.Pos Decimal.Nil
                          /\ Z.to_int z <> Decimal.Neg Decimal.Nil).
  { intros z. destruct z; simpl; split; try discriminate;
      intros H; inversion H;
      exact (DecimalPos.Unsigned.to_uint_nonnil _ H1). }
  unfold fmt_d. intros H.
  assert (Hi : Some (Z.to_int z1) = Some (Z.to_int z2)).
  { rewrite <- (NilZero.isi (Z.to_int z1)) by apply Hnn.
    rewrite <- (NilZero.isi (Z.to_int z2)) by apply Hnn.
    rewrite H. reflexivity. }
  inversion Hi as [Hd].
  rewrite <- (DecimalZ.of_to z1), <- (DecimalZ.of_to z2), Hd. reflexivity.
Qed.

(** Two texts without a slash that are followed by a slash: the first
    slash tells where each ends. *)
Lemma split_at_slash (a : string) :
  forall (a' t t' : string),
    hasSlash a = false -> hasSlash a' = false ->
    a ++ String "/" t = a' ++ String "/" t' -> a = a' /\ t = t'.
Proof.
  induction a as [|c a IH]; intros a' t t' Ha Ha' H.
  - destruct a' as [|c' a'].
    + simpl in H. inversion H. auto.
    + simpl in H, Ha'. inversion H. subst c'. discriminate.
  - destruct a' as [|c' a'].
    + simpl in H, Ha. inversion H. subst c. discriminate.
    + simpl in H, Ha, Ha'. inversion H. subst c'.
      apply orb_false_iff in Ha. apply orb_false_iff in Ha'.
      destruct (IH a' t t' (proj2 Ha) (proj2 Ha') H2) as [-> ->]. auto.
Qed.

(** X22.  An endpoint names its record: two jobs with the same endpoint have
    the same project identifier and the same identifier, and likewise two
    assets; a job and an asset never share an endpoint. *)
Theorem endpoints_identify (j1 j2 : Job) (a1 a2 : Asset) :
  (Job_EndPoint (Some j1) = Job_EndPoint (Some j2) ->
   Job_ProjectId j1 = Job_ProjectId j2 /\ Job_ID j1 = Job_ID j2)
  /\ (Asset_EndPoint (Some a1) = Asset_EndPoint (Some a2) ->
      Asset_ProjectId a1 = Asset_ProjectId a2 /\ Asset_ID a1 = Asset_ID a2)
  /\ Job_EndPoint (Some j1) <> Asset_EndPoint (Some a1).
Proof.
  unfold Job_EndPoint, Asset_EndPoint, endPointText.
  split; [|split].
  - intros H. inversion H as [H1].
    apply split_at_slash in H1; try apply fmt_d_has_no_slash.
    destruct H1 as [Hp Hi]. inversion Hi as [Hi'].
    split; apply fmt_d_inj; assumption.
  - intros H. inversion H as [H1].
    apply split_at_slash in H1; try apply fmt_d_has_no_slash.
    destruct H1 as [Hp Hi]. inversion Hi as [Hi'].
    split; apply fmt_d_inj; assumption.
  - intros H. inversion H as [H1].
    apply split_at_slash in H1; try apply fmt_d_has_no_slash.
    destruct H1 as [Hp Hi]. inversion Hi.
Qed.

(** X23.  The build command from end to end: the project is chosen, the
    POST is answered 201 with a job, the first [n] polls of that job fetch
    another status and the next one fetches [processed], within the budget.
    Then the command ends normally after one POST and exactly [n + 1] GETs
    to the endpoint of the created job, having displayed the created job,
    announced the wait and, last, displayed the processed job. *)
Theorem build_runs_to_completion (name : string) (wait : Z) (n : nat)
  (w w1 : World) (p : Project) (auth : SlyftAuth) (resp : Response)
  (j j' : Job) :
  chooseProject (TrimSpace name) "build project: " w
  = (Ret (inr (Some p)), w1) ->
  (forall method url, requestError w1 method url = None) ->
  credentials w1 = inr auth ->
  network w1 (sent w1) = inr resp ->
  extractJobFromResponse resp StatusCreated false = Ret (inr [j]) ->
  5 * Z.of_nat n < wait ->
  (forall i, (i < n)%nat ->
     exists j0, fetchedJob (network w1 (sent w1 + 1 + i)) = Some j0
                /\ Job_Status j0 <> "processed") ->
  fetchedJob (network w1 (sent w1 + 1 + n)) = Some j' ->
  Job_Status j' = "processed" ->
  let url := BackendBaseUrl w1 ++ "/v1/projects/" ++ fmt_d (Project_ID p)
             ++ "/jobs" in
  let params := JobParams (mkJobParam (mkJob 0 "build" "" zeroJobResults
                                         (Project_ID p) "" zeroTime zeroTime)) in
  let r := buildProject name (Some wait) w in
  fst r = Ret tt
  /\ sent (snd r) = (sent w1 + 1 + (n + 1))%nat
  /\ trace (snd r)
     = (trace w1 ++ warning auth
        ++ [Sent "POST" url params auth; ShownJob j;
            Printed (announcement wait)]
        ++ concat (repeat (pollEvents w1 j auth) (n + 1))
        ++ [ShownJob j'])%list.
Proof.
  intros Hp Hreq Hcred Hnet Hx Hwait Hpend Hf Hs url params. cbv zeta.
  set (w2 := record [Printed (announcement wait)]
               (record [ShownJob j] (afterSend "POST" url params auth w1))).
  assert (Hrun : waitLoop (Z.to_nat wait) (Some j) wait w2
                 = (Ret true,
                    record [ShownJob j'] (Nat.iter (S n) (polled j auth) w2))).
  { apply (processed_on_nth_poll j auth j' n (Z.to_nat wait) wait w2).
    - lia.
    - exact Hwait.
    - apply Hreq.
    - exact Hcred.
    - intros i Hi. cbn [sent network w2 record afterSend].
      replace (S (sent w1) + i)%nat with (sent w1 + 1 + i)%nat by lia.
      apply Hpend. exact Hi.
    - cbn [sent network w2 record afterSend].
      replace (S (sent w1) + n)%nat with (sent w1 + 1 + n)%nat by lia.
      exact Hf.
    - exact Hs. }
  assert (Hbuild : buildProject name (Some wait) w
                   = (Ret tt,
                      record [ShownJob j']
                        (Nat.iter (S n) (polled j auth) w2))).
  { unfold buildProject. unfold bind at 1.
    rewrite (postNewJob_spec "build" (TrimSpace name) w w1 p Hp).
    fold url. fold params. rewrite Hreq, Hcred, Hnet, Hx.
    unfold bind at 1.
    change (waitForJobCompletion (Some j) wait
              (record [ShownJob j] (afterSend "POST" url params auth w1)))
      with (waitLoop (Z.to_nat wait) (Some j) wait w2).
    rewrite Hrun. reflexivity. }
  rewrite Hbuild.
  destruct (polled_iter (S n) j auth w2) as [Hs' [_ [_ [_ [_ Ht]]]]].
  cbn [fst snd record sent trace]. rewrite Hs', Ht.
  split; [reflexivity|]. split.
  - cbn [sent w2 record afterSend]. lia.
  - cbn [trace w2 record afterSend]. replace (n + 1)%nat with (S n) by lia.
    rewrite <- !app_assoc. reflexivity.
Qed.

End Slyft.

(** * The statements on sample runs

    The sample runs take instants as text ([sampleParseTime]) and
    credentials as good when they carry a token ([hasToken]). *)

(** The scenario of job creation: a 201 reply with a queued job gives the
    job record with its identifier and status. *)
Example job_creation_scenario :
  extractJobFromResponse "" sampleParseTime
    (mkResponse 201 (inr (Parsed (jobText 7 "queued")))) StatusCreated false
  = Ret (inr [sampleJob "" "queued"]).
Proof. reflexivity. Qed.

(** C1, counterexample.  The first poll fails in transport while 25 of the
    30 seconds remain and the next reply would be a processed job: the loop
    ends there with false, after one request and without the time-out
    message; had it gone on to the next iteration, as it does after a reply
    that fails to decode, the result would have been true. *)
Lemma transport_error_ends_polling :
  let job := sampleJob "" "queued" in
  let w := sampleWorld (Time:=string) (inr sampleAuth)
             [inl unreachable; jobReply "processed"] [] in
  let r := waitForJobCompletion "" sampleParseTime hasToken (Some job) 30 w in
  fst r = Ret false
  /\ sent (snd r) = 1%nat
  /\ trace (snd r)
     = [Printed "Waiting (30s) for job completion.."; Slept 5; Printed ".";
        Sent "GET" "https://api.example.org/v1/projects/3/jobs/7" NoParams
          sampleAuth]
  /\ processedReply "" sampleParseTime (network w 1) = true
  /\ fst (waitLoop "" sampleParseTime hasToken 5 (Some job) 25 (snd r))
     = Ret true.
Proof. vm_compute. repeat split; reflexivity. Qed.

(** C1, on a sample run: a reply with status 503 is swallowed and the next
    poll decides; a transport error ends the loop. *)
Lemma poll_failures_witness :
  let job := sampleJob "" "queued" in
  let w := sampleWorld (Time:=string) (inr sampleAuth)
             [inr (mkResponse 503 (inr Malformed)); jobReply "processed"] [] in
  let w' := sampleWorld (Time:=string) (inr sampleAuth)
              [inl unreachable; jobReply "processed"] [] in
  10 > 0
  /\ waitLoop "" sampleParseTime hasToken 2 (Some job) 10 w
     = waitLoop "" sampleParseTime hasToken 1 (Some job) (10 - 5)
         (snd (Do hasToken (endPointText job) "GET" NoParams (slept w)))
  /\ waitLoop "" sampleParseTime hasToken 2 (Some job) 10 w'
     = (Ret false,
        snd (Do hasToken (endPointText job) "GET" NoParams (slept w'))).
Proof.
  intros job w w'.
  split; [lia|]. split.
  - destruct (poll_failures "" sampleParseTime hasToken 1 job 10 w
                ltac:(lia)) as [Hdec _].
    apply (Hdec (mkResponse 503 (inr Malformed))
             (errors_New "Unexpected return code from API, was=503, expected=200")).
    + reflexivity.
    + reflexivity.
  - destruct (poll_failures "" sampleParseTime hasToken 1 job 10 w'
                ltac:(lia)) as [_ Htr].
    apply (Htr unreachable). reflexivity.
Defined.

(** C2, on a sample run: queued, running, processed. *)
Lemma success_iff_processed_poll_witness :
  let job := sampleJob "" "queued" in
  let w := sampleWorld (Time:=string) (inr sampleAuth)
             [jobReply "queued"; jobReply "running"; jobReply "processed"] [] in
  let r := waitForJobCompletion "" sampleParseTime hasToken (Some job) 30 w in
  fst r = Ret true
  /\ sent (snd r) = (sent w + 3)%nat
  /\ trace (snd r)
     = (trace w ++ [Printed "Waiting (30s) for job completion.."]
        ++ pollEvents hasToken w job sampleAuth
        ++ pollEvents hasToken w job sampleAuth
        ++ pollEvents hasToken w job sampleAuth
        ++ [ShownJob (sampleJob "" "processed")])%list.
Proof.
  intros job w.
  destruct (success_iff_processed_poll "" sampleParseTime hasToken job 30 w)
    as [_ [_ [_ Hrun]]].
  apply (Hrun sampleAuth (sampleJob "" "queued") (sampleJob "" "running")
           (sampleJob "" "processed"));
    try reflexivity; discriminate.
Defined.

(** C3, on a sample run: the job is running whenever it is polled. *)
Lemma never_processed_times_out_witness :
  let job := sampleJob "" "queued" in
  let w := runningWorld (Time:=string) in
  let r := waitForJobCompletion "" sampleParseTime hasToken (Some job) 10 w in
  fst r = Ret false
  /\ sent (snd r) = (sent w + 2)%nat
  /\ trace (snd r)
     = (trace w ++ [Printed "Waiting (10s) for job completion.."]
        ++ pollEvents hasToken w job sampleAuth
        ++ pollEvents hasToken w job sampleAuth
        ++ [Printed (timeoutMessage job)])%list.
Proof.
  intros job w.
  apply (never_processed_times_out "" sampleParseTime hasToken job sampleAuth w).
  - reflexivity.
  - reflexivity.
  - intros k. exists (sampleJob "" "running").
    split; [reflexivity | discriminate].
Defined.

(** C4, counterexample.  The credentials cannot be read: the warning is
    printed and [Do] returns the error of the credential store; no request
    is sent, although a reply was waiting. *)
Lemma unreadable_credentials_no_call :
  let w := sampleWorld (Time:=string) (inl noConfig) [jobsReply []] [] in
  let r := Do hasToken "/v1/jobs" "GET" NoParams w in
  fst r = Ret (inl noConfig)
  /\ sent (snd r) = 0%nat
  /\ trace (snd r) = [Printed not_logged_in].
Proof. vm_compute. repeat split; reflexivity. Qed.

(** C4, on sample runs: credentials without a token, and no credentials. *)
Lemma Do_credentials_witness :
  let auth := mkSlyftAuth "" "client" "user@example.org" in
  let w := sampleWorld (Time:=string) (inr auth) [jobsReply []] [] in
  let w' := sampleWorld (Time:=string) (inl noConfig) [jobsReply []] [] in
  (fst (Do hasToken "/v1/jobs" "GET" NoParams w) = Ret (network w (sent w))
   /\ sent (snd (Do hasToken "/v1/jobs" "GET" NoParams w)) = S (sent w)
   /\ trace (snd (Do hasToken "/v1/jobs" "GET" NoParams w))
      = (trace w ++ [Printed not_logged_in;
                     Sent "GET" (BackendBaseUrl w ++ "/v1/jobs") NoParams auth])%list)
  /\ (fst (Do hasToken "/v1/jobs" "GET" NoParams w') = Ret (inl noConfig)
      /\ sent (snd (Do hasToken "/v1/jobs" "GET" NoParams w')) = sent w'
      /\ trace (snd (Do hasToken "/v1/jobs" "GET" NoParams w'))
         = (trace w' ++ [Printed not_logged_in])%list).
Proof.
  intros auth w w'. split.
  - destruct (Do_credentials hasToken "/v1/jobs" "GET" NoParams w eq_refl)
      as [Hbad _].
    apply (Hbad auth); reflexivity.
  - destruct (Do_credentials hasToken "/v1/jobs" "GET" NoParams w' eq_refl)
      as [_ [_ Hnone]].
    apply (Hnone noConfig). reflexivity.
Defined.

(** C5, at the failing input.  Two records are shown, prompting is enabled
    and the user answers 0: the answer passes the test [choice > len] and
    the indexing with [choice-1] panics, for assets and for jobs, where the
    claim asks for the out-of-range error. *)
Lemma choice_zero_panics :
  let wa := sampleWorld (Time:=string) (inr sampleAuth)
              [assetsReply [assetText 1 "api.yaml"; assetText 2 "model.yaml"]]
              [inr 0] in
  let wj := sampleWorld (Time:=string) (inr sampleAuth)
              [jobsReply [jobText 7 "processed"; jobText 8 "queued"]]
              [inr 0] in
  let ra := chooseAsset "" sampleParseTime hasToken "/v1/assets" true
              "Which one shall be deleted: " 0 wa in
  let rj := chooseJob "" sampleParseTime hasToken "/v1/jobs" true
              "Select a job id to show more details: " wj in
  fst ra = Panic index_out_of_range
  /\ asked (snd ra) = 1%nat
  /\ fst rj = Panic index_out_of_range
  /\ asked (snd rj) = 1%nat.
Proof. vm_compute. repeat split; reflexivity. Qed.

(** C6, on sample replies: 401 and 404 where 200 is expected. *)
Lemma status_mismatch_classified_witness :
  let denied := mkResponse 401 (inr (Parsed (JArr []))) in
  let missing := mkResponse 404 (inr (Parsed (JArr []))) in
  (401 <> 200
   /\ extractAssetFromResponse "" sampleParseTime denied 200 true
      = Ret (inl (errors_New "Unauthorized, please log in first."))
   /\ extractJobFromResponse "" sampleParseTime denied 200 true
      = Ret (inl (errors_New "Unauthorized, please log in first.")))
  /\ (404 <> 200
      /\ extractAssetFromResponse "" sampleParseTime missing 200 true
         = Ret (inl (errors_New
                       "Unexpected return code from API, was=404, expected=200"))
      /\ extractJobFromResponse "" sampleParseTime missing 200 true
         = Ret (inl (errors_New
                       "Unexpected return code from API, was=404, expected=200"))).
Proof.
  intros denied missing. split.
  - split; [discriminate|].
    destruct (status_mismatch_classified "" sampleParseTime denied 200 true
                ltac:(discriminate)) as [H401 _].
    apply H401. reflexivity.
  - split; [discriminate|].
    destruct (status_mismatch_classified "" sampleParseTime missing 200 true
                ltac:(discriminate)) as [_ [Hother _]].
    apply Hother. discriminate.
Defined.

(** C7, on sample replies: an array of two assets, and one job object. *)
Lemma decode_valid_records_witness :
  let items := [assetText 1 "api.yaml"; assetText 2 "model.yaml"] in
  let listed := mkResponse 200 (inr (Parsed (JArr items))) in
  let single := mkResponse 201 (inr (Parsed (jobText 7 "queued"))) in
  (exists assets,
     extractAssetFromResponse "" sampleParseTime listed 200 true
     = Ret (inr assets)
     /\ length assets = length items
     /\ Forall2 (fun it a => decAsset sampleParseTime it (zeroAsset "")
                             = inr a) items assets)
  /\ (exists j,
        extractJobFromResponse "" sampleParseTime single 201 false
        = Ret (inr [j])
        /\ decJob sampleParseTime (jobText 7 "queued") (zeroJob "") = inr j).
Proof.
  intros items listed single. split.
  - destruct (decode_valid_records "" sampleParseTime listed 200 eq_refl)
      as [Harray _].
    destruct (Harray items eq_refl) as [Hassets _].
    apply Hassets. reflexivity.
  - destruct (decode_valid_records "" sampleParseTime single 201 eq_refl)
      as [_ Hobject].
    destruct (Hobject (jobText 7 "queued") eq_refl) as [_ Hjob].
    apply Hjob. reflexivity.
Defined.

(** C8, on sample runs with prompting enabled: no asset, one asset with
    tail count 1, and one job. *)
Lemma selection_empty_and_singleton_witness :
  let none := sampleWorld (Time:=string) (inr sampleAuth)
                [assetsReply []] [inr 1] in
  let one := sampleWorld (Time:=string) (inr sampleAuth)
               [assetsReply [assetText 1 "api.yaml"]] [inr 1] in
  let job := sampleWorld (Time:=string) (inr sampleAuth)
               [jobsReply [jobText 7 "queued"]] [inr 1] in
  chooseAsset "" sampleParseTime hasToken "/v1/assets" true
    "Which one shall be deleted: " 5 none
  = (Ret (inl (errors_New "No asset. Sorry")),
     snd (Do hasToken "/v1/assets" "GET" NoParams none))
  /\ chooseAsset "" sampleParseTime hasToken "/v1/assets" true
       "Which one shall be deleted: " 1 one
     = (Ret (inr (Some (sampleAsset "" 1 "api.yaml"))),
        record [ShownAsset (sampleAsset "" 1 "api.yaml")]
          (snd (Do hasToken "/v1/assets" "GET" NoParams one)))
  /\ chooseJob "" sampleParseTime hasToken "/v1/jobs" true
       "Select a job id to show more details: " job
     = (Ret (inr (Some (sampleJob "" "queued"))),
        record [ShownJob (sampleJob "" "queued")]
          (snd (Do hasToken "/v1/jobs" "GET" NoParams job))).
Proof.
  intros none one job. split; [|split].
  - destruct (selection_empty_and_singleton "" sampleParseTime hasToken
                "/v1/assets" "Which one shall be deleted: " true none
                (snd (Do hasToken "/v1/assets" "GET" NoParams none))
                (mkResponse 200 (inr (Parsed (JArr [])))) eq_refl)
      as [_ [_ [Hempty _]]].
    apply Hempty. reflexivity.
  - destruct (selection_empty_and_singleton "" sampleParseTime hasToken
                "/v1/assets" "Which one shall be deleted: " true one
                (snd (Do hasToken "/v1/assets" "GET" NoParams one))
                (mkResponse 200
                   (inr (Parsed (JArr [assetText 1 "api.yaml"])))) eq_refl)
      as [_ [_ [_ [Hsingle _]]]].
    apply Hsingle; [reflexivity | right; reflexivity].
  - destruct (selection_empty_and_singleton "" sampleParseTime hasToken
                "/v1/jobs" "Select a job id to show more details: " true job
                (snd (Do hasToken "/v1/jobs" "GET" NoParams job))
                (mkResponse 200
                   (inr (Parsed (JArr [jobText 7 "queued"])))) eq_refl)
      as [_ [Hsingle _]].
    apply Hsingle. reflexivity.
Defined.

(** C9, on sample runs: two assets are fetched, and the tail count is 3 or
    -1. *)
Lemma tail_count_out_of_range_panics_witness :
  let w := sampleWorld (Time:=string) (inr sampleAuth)
             [assetsReply [assetText 1 "api.yaml"; assetText 2 "model.yaml"]]
             [inr 1] in
  chooseAsset "" sampleParseTime hasToken "/v1/assets" true
    "Which one shall be removed: " 3 w
  = (Panic slice_out_of_range,
     snd (Do hasToken "/v1/assets" "GET" NoParams w))
  /\ chooseAsset "" sampleParseTime hasToken "/v1/assets" true
       "Which one shall be removed: " (-1) w
     = (Panic slice_out_of_range,
        snd (Do hasToken "/v1/assets" "GET" NoParams w)).
Proof.
  intros w. split.
  - destruct (tail_count_out_of_range_panics "" sampleParseTime hasToken
                "/v1/assets" "Which one shall be removed: " true 3 w
                (snd (Do hasToken "/v1/assets" "GET" NoParams w))
                (mkResponse 200
                   (inr (Parsed (JArr [assetText 1 "api.yaml";
                                       assetText 2 "model.yaml"]))))
                [sampleAsset "" 1 "api.yaml"; sampleAsset "" 2 "model.yaml"]
                eq_refl eq_refl ltac:(discriminate) eq_refl eq_refl)
      as [Hpanic _].
    apply Hpanic. split; [discriminate | right; reflexivity].
  - destruct (tail_count_out_of_range_panics "" sampleParseTime hasToken
                "/v1/assets" "Which one shall be removed: " true (-1) w
                (snd (Do hasToken "/v1/assets" "GET" NoParams w))
                (mkResponse 200
                   (inr (Parsed (JArr [assetText 1 "api.yaml";
                                       assetText 2 "model.yaml"]))))
                [sampleAsset "" 1 "api.yaml"; sampleAsset "" 2 "model.yaml"]
                eq_refl eq_refl ltac:(discriminate) eq_refl eq_refl)
      as [Hpanic _].
    apply Hpanic. split; [discriminate | left; reflexivity].
Defined.

(** C10, on a sample run: no project is found, so no job is created, and
    the build command waits for 30 seconds on the nil job. *)
Lemma failed_job_creation_panics_witness :
  let w := sampleWorld (Time:=string) (inr sampleAuth) [] [] in
  postNewJob "" sampleParseTime hasToken noProject "build" "shop" w
  = (Ret None,
     record [Reported "Choosing a project" (errors_New "No project. Sorry")] w)
  /\ buildProject "" sampleParseTime hasToken noProject (fun s => s) "shop"
       (Some 30) w
     = (Panic nil_dereference,
        record [Printed "Waiting (30s) for job completion..";
                Slept 5; Printed "."]
          (record [Reported "Choosing a project"
                     (errors_New "No project. Sorry")] w)).
Proof.
  intros w. split; [reflexivity|].
  destruct (failed_job_creation_panics "" sampleParseTime hasToken noProject
              (fun s => s) "shop" 30 w
              (record [Reported "Choosing a project"
                         (errors_New "No project. Sorry")] w)
              ltac:(lia)) as [Hbuild _].
  apply Hbuild. reflexivity.
Defined.

(** * The further properties on sample runs *)

(** X1, on a sample run: budget 0 while a processed reply is waiting. *)
Lemma zero_budget_no_poll_witness :
  let job := sampleJob "" "queued" in
  let w := sampleWorld (Time:=string) (inr sampleAuth)
             [jobReply "processed"] [] in
  0 <= 0
  /\ waitForJobCompletion "" sampleParseTime hasToken (Some job) 0 w
     = (Ret false,
        record [Printed (announcement 0); Printed (timeoutMessage job)] w).
Proof.
  intros job w. split; [lia|].
  apply (zero_budget_no_poll "" sampleParseTime hasToken job 0 w). lia.
Defined.

(** X3, on a sample run: a budget of 12 seconds gives three polls. *)
Lemma never_processed_polls_per_interval_witness :
  let job := sampleJob "" "queued" in
  let w := runningWorld (Time:=string) in
  let r := waitForJobCompletion "" sampleParseTime hasToken (Some job) 12 w in
  fst r = Ret false
  /\ sent (snd r) = 3%nat
  /\ trace (snd r)
     = (trace w ++ [Printed (announcement 12)]
        ++ concat (repeat (pollEvents hasToken w job sampleAuth) 3)
        ++ [Printed (timeoutMessage job)])%list.
Proof.
  intros job w.
  apply (never_processed_polls_per_interval "" sampleParseTime hasToken job
           sampleAuth 12 w).
  - reflexivity.
  - reflexivity.
  - intros k. exists (sampleJob "" "running").
    split; [reflexivity | discriminate].
Defined.

(** X4, on a sample run: queued, then processed, with 7 seconds. *)
Lemma processed_after_pending_polls_witness :
  let job := sampleJob "" "queued" in
  let w := sampleWorld (Time:=string) (inr sampleAuth)
             [jobReply "queued"; jobReply "processed"] [] in
  let r := waitForJobCompletion "" sampleParseTime hasToken (Some job) 7 w in
  fst r = Ret true
  /\ sent (snd r) = 2%nat
  /\ trace (snd r)
     = (trace w ++ [Printed (announcement 7)]
        ++ concat (repeat (pollEvents hasToken w job sampleAuth) 2)
        ++ [ShownJob (sampleJob "" "processed")])%list.
Proof.
  intros job w.
  apply (processed_after_pending_polls "" sampleParseTime hasToken job
           sampleAuth (sampleJob "" "processed") 1 7 w).
  - lia.
  - reflexivity.
  - reflexivity.
  - intros i Hi. assert (i = 0%nat) as -> by lia.
    exists (sampleJob "" "queued"). split; [reflexivity | discriminate].
  - reflexivity.
  - reflexivity.
Defined.

(** X5, on a sample run: a success with 15 seconds is kept with 60. *)
Lemma larger_budget_keeps_success_witness :
  let job := sampleJob "" "queued" in
  let w := sampleWorld (Time:=string) (inr sampleAuth)
             [jobReply "queued"; jobReply "running"; jobReply "processed"] [] in
  15 <= 60
  /\ fst (waitForJobCompletion "" sampleParseTime hasToken (Some job) 15 w)
     = Ret true
  /\ fst (waitForJobCompletion "" sampleParseTime hasToken (Some job) 60 w)
     = Ret true
  /\ sent (snd (waitForJobCompletion "" sampleParseTime hasToken (Some job)
                  60 w))
     = sent (snd (waitForJobCompletion "" sampleParseTime hasToken (Some job)
                    15 w)).
Proof.
  intros job w. split; [lia|]. split; [reflexivity|].
  apply (larger_budget_keeps_success "" sampleParseTime hasToken job 15 60 w).
  - lia.
  - reflexivity.
Defined.

(** X6, on a sample reply: 200 with the body [null]. *)
Lemma null_body_decoding_witness :
  let resp := mkResponse 200 (inr (Parsed JNull)) in
  extractAssetFromResponse "" sampleParseTime resp 200 true = Ret (inr [])
  /\ extractJobFromResponse "" sampleParseTime resp 200 true = Ret (inr [])
  /\ extractAssetFromResponse "" sampleParseTime resp 200 false
     = Panic nil_dereference
  /\ extractJobFromResponse "" sampleParseTime resp 200 false
     = Panic nil_dereference.
Proof.
  intros resp.
  apply (null_body_decoding "" sampleParseTime resp 200); reflexivity.
Defined.

(** X7, on a sample run: the first poll is answered with [null]. *)
Lemma null_reply_panics_the_wait_witness :
  let job := sampleJob "" "queued" in
  let w := sampleWorld (Time:=string) (inr sampleAuth)
             [inr (mkResponse 200 (inr (Parsed JNull)));
              jobReply "processed"] [] in
  waitLoop "" sampleParseTime hasToken 2 (Some job) 10 w
  = (Panic nil_dereference,
     snd (Do hasToken (endPointText job) "GET" NoParams (slept w))).
Proof.
  intros job w.
  apply (null_reply_panics_the_wait "" sampleParseTime hasToken 1 job 10 w
           (snd (Do hasToken (endPointText job) "GET" NoParams (slept w)))
           (mkResponse 200 (inr (Parsed JNull)))).
  - lia.
  - reflexivity.
  - reflexivity.
  - reflexivity.
Defined.

(** X8, on a sample reply: a created job. *)
Lemma single_item_one_record_witness :
  exists j : Job, [sampleJob "" "queued"] = [j].
Proof.
  destruct (single_item_one_record "" sampleParseTime
              (mkResponse 201 (inr (Parsed (jobText 7 "queued")))) 201)
    as [_ Hjobs].
  apply Hjobs. reflexivity.
Defined.

(** X9, on a sample reply: the body cannot be read. *)
Lemma body_failures_are_errors_witness :
  let resp := mkResponse 200 (inl unreachable) in
  extractAssetFromResponse "" sampleParseTime resp 200 true
  = Ret (inl unreachable)
  /\ extractJobFromResponse "" sampleParseTime resp 200 true
     = Ret (inl unreachable).
Proof.
  intros resp.
  destruct (body_failures_are_errors "" sampleParseTime resp 200 eq_refl)
    as [Hread _].
  apply Hread. reflexivity.
Defined.

(** X10, on a sample reply: 404 where 200 is expected. *)
Lemma project_decoder_failures_witness :
  let resp := mkResponse 404 (inr Malformed) in
  extractProjectFromResponse noProjects noProjects resp 200 true
  = Ret (inl (errors_New (respCodeToErrorMsg resp 200)))
  /\ extractAssetFromResponse "" sampleParseTime resp 200 true
     = Ret (inl (errors_New (respCodeToErrorMsg resp 200)))
  /\ extractJobFromResponse "" sampleParseTime resp 200 true
     = Ret (inl (errors_New (respCodeToErrorMsg resp 200))).
Proof.
  intros resp.
  destruct (project_decoder_failures "" sampleParseTime noProjects noProjects
              resp 200 true) as [Hmismatch _].
  apply Hmismatch. discriminate.
Defined.

(** X11, on a sample run: one asset is listed. *)
Lemma listing_mode_is_safe_witness :
  let w := sampleWorld (Time:=string) (inr sampleAuth)
             [assetsReply [assetText 1 "api.yaml"]] [] in
  let a := sampleAsset "" 1 "api.yaml" in
  exists resp,
    network w (sent w) = inr resp
    /\ extractAssetFromResponse "" sampleParseTime resp StatusOK true
       = Ret (inr [a])
    /\ exists pre,
         trace (snd (chooseAsset "" sampleParseTime hasToken "/v1/assets"
                       false "" 0 w))
         = (pre ++ [ShownAsset a])%list.
Proof.
  intros w a.
  destruct (listing_mode_is_safe "" sampleParseTime hasToken "/v1/assets" "" w)
    as [[_ [_ [_ Hret]]] _].
  apply Hret. reflexivity.
Defined.

(** X14, on a sample run: three assets and the tail count 2. *)
Lemma tail_is_last_k_witness :
  let w := sampleWorld (Time:=string) (inr sampleAuth)
             [assetsReply [assetText 1 "api.yaml"; assetText 2 "model.yaml";
                           assetText 3 "types.yaml"]] [] in
  chooseAsset "" sampleParseTime hasToken "/v1/assets" false "" 2 w
  = (Ret (inr None),
     record [ShownAssets [sampleAsset "" 2 "model.yaml";
                          sampleAsset "" 3 "types.yaml"]]
       (snd (Do hasToken "/v1/assets" "GET" NoParams w))).
Proof.
  intros w.
  destruct (tail_is_last_k "" sampleParseTime hasToken "/v1/assets" "" 2 w
              (snd (Do hasToken "/v1/assets" "GET" NoParams w))
              (mkResponse 200
                 (inr (Parsed (JArr [assetText 1 "api.yaml";
                                     assetText 2 "model.yaml";
                                     assetText 3 "types.yaml"]))))
              [sampleAsset "" 1 "api.yaml"; sampleAsset "" 2 "model.yaml";
               sampleAsset "" 3 "types.yaml"]
              eq_refl eq_refl eq_refl ltac:(unfold len; simpl; lia))
    as [_ [_ [Hshown _]]].
  exact Hshown.
Defined.

(** X15, on a sample run: three assets, the tail count 1 and prompting
    enabled. *)
Lemma tail_count_one_takes_last_witness :
  let w := sampleWorld (Time:=string) (inr sampleAuth)
             [assetsReply [assetText 1 "api.yaml"; assetText 2 "model.yaml";
                           assetText 3 "types.yaml"]] [inr 1] in
  chooseAsset "" sampleParseTime hasToken "/v1/assets" true
    "Which one shall be deleted: " 1 w
  = (Ret (inr (Some (sampleAsset "" 3 "types.yaml"))),
     record [ShownAsset (sampleAsset "" 3 "types.yaml")]
       (snd (Do hasToken "/v1/assets" "GET" NoParams w))).
Proof.
  intros w.
  apply (tail_count_one_takes_last "" sampleParseTime hasToken "/v1/assets"
           "Which one shall be deleted: " true w
           (snd (Do hasToken "/v1/assets" "GET" NoParams w))
           (mkResponse 200
              (inr (Parsed (JArr [assetText 1 "api.yaml";
                                  assetText 2 "model.yaml";
                                  assetText 3 "types.yaml"]))))
           [sampleAsset "" 1 "api.yaml"; sampleAsset "" 2 "model.yaml"]
           (sampleAsset "" 3 "types.yaml"));
    reflexivity.
Defined.

(** X16, on a sample run: two jobs are shown and the user answers 2. *)
Lemma number_selects_its_row_witness :
  let w := sampleWorld (Time:=string) (inr sampleAuth) [] [inr 2] in
  let jobs := [sampleJob "" "processed"; sampleJob "" "queued"] in
  exists j,
    fst (pickJob jobs true "Select a job id to show more details: " w)
    = Ret (inr (Some j))
    /\ nth_error (jobRows jobs) (Z.to_nat (2 - 1))
       = Some [fmt_d 2; fmt_d (Job_ID j); Job_Kind j; Job_Status j;
               Job_ProjectName j].
Proof.
  intros w jobs.
  destruct (number_selects_its_row "Select a job id to show more details: "
              w 2 eq_refl eq_refl) as [Hjobs _].
  apply Hjobs; unfold len; simpl; lia.
Defined.

(** X17, on a sample run: the project [shop] has two assets. *)
Lemma remove_named_project_witness :
  let w := sampleWorld (Time:=string) (inr sampleAuth)
             [assetsReply [assetText 1 "api.yaml"; assetText 2 "model.yaml"];
              inr (mkResponse 204 (inr Malformed))] [] in
  removeAsset "" sampleParseTime hasToken (foundProject sampleProject) asIs
    noLock silentReport (deleteByRequest hasToken) "shop" false 1 w
  = deleteByRequest hasToken (Some (sampleAsset "" 2 "model.yaml"))
      (record [ShownAsset (sampleAsset "" 2 "model.yaml")]
         (snd (Do hasToken "/v1/projects/3/assets" "GET" NoParams w))).
Proof.
  intros w.
  destruct (remove_named_project "" sampleParseTime hasToken
              (foundProject sampleProject) asIs noLock silentReport
              (deleteByRequest hasToken) "shop" w w
              ltac:(unfold asIs; discriminate))
    as [Hlast _].
  apply (Hlast sampleProject
           (snd (Do hasToken "/v1/projects/3/assets" "GET" NoParams w))
           (mkResponse 200
              (inr (Parsed (JArr [assetText 1 "api.yaml";
                                  assetText 2 "model.yaml"]))))
           [sampleAsset "" 1 "api.yaml"] (sampleAsset "" 2 "model.yaml"));
    reflexivity.
Defined.

(** X18, on a sample run: the project [shop] has one job. *)
Lemma status_of_single_job_shown_twice_witness :
  let w := sampleWorld (Time:=string) (inr sampleAuth)
             [jobsReply [jobText 7 "queued"]] [] in
  jobStatusProject "" sampleParseTime hasToken (foundProject sampleProject)
    asIs noLock silentReport "shop" false w
  = (Ret tt,
     record [ShownJob (sampleJob "" "queued"); ShownJob (sampleJob "" "queued")]
       (snd (Do hasToken "/v1/projects/3/jobs" "GET" NoParams w))).
Proof.
  intros w.
  apply (status_of_single_job_shown_twice "" sampleParseTime hasToken
           (foundProject sampleProject) asIs noLock silentReport "shop" w w
           (snd (Do hasToken "/v1/projects/3/jobs" "GET" NoParams w))
           sampleProject
           (mkResponse 200 (inr (Parsed (JArr [jobText 7 "queued"]))))
           (sampleJob "" "queued")).
  - unfold asIs. discriminate.
  - reflexivity.
  - reflexivity.
  - reflexivity.
Defined.

(** X19, on a sample run: the request goes out and the reply of the
    transport is the result. *)
Lemma Do_single_attempt_witness :
  let w := sampleWorld (Time:=string) (inr sampleAuth)
             [jobReply "queued"] [] in
  fst (Do hasToken "/v1/jobs/7" "GET" NoParams w) = Ret (network w (sent w)).
Proof.
  intros w.
  destruct (Do_single_attempt hasToken "/v1/jobs/7" "GET" NoParams w)
    as [_ [_ [_ [Hsent _]]]].
  apply Hsent. reflexivity.
Defined.

(** X20, on a sample run: the POST is answered 201 with a queued job. *)
Lemma postNewJob_returns_created_job_witness :
  let w := sampleWorld (Time:=string) (inr sampleAuth)
             [inr (mkResponse 201 (inr (Parsed (jobText 7 "queued"))))] [] in
  fst (postNewJob "" sampleParseTime hasToken (foundProject sampleProject)
         "build" "shop" w)
  = Ret (Some (sampleJob "" "queued")).
Proof.
  intros w.
  destruct (postNewJob_returns_created_job "" sampleParseTime hasToken
              (foundProject sampleProject) "build" "shop" w w sampleProject
              (sampleJob "" "queued") eq_refl)
    as [[_ Hback] _].
  apply Hback. split; [reflexivity|]. split.
  - exists sampleAuth. reflexivity.
  - exists (mkResponse 201 (inr (Parsed (jobText 7 "queued")))).
    repeat split.
Defined.

(** X21, on a sample run: the listing of the project [shop] cannot be
    fetched. *)
Lemma list_all_fails_silently_witness :
  let w := sampleWorld (Time:=string) (inr sampleAuth) [] [] in
  listAssets "" sampleParseTime hasToken (foundProject sampleProject) asIs
    noLock "shop" false w
  = (Ret tt,
     record [Reported "Choosing the asset" unreachable]
       (snd (chooseAsset "" sampleParseTime hasToken "/v1/projects/3/assets"
               false "" 0 w))).
Proof.
  intros w.
  destruct (list_all_fails_silently "" sampleParseTime hasToken
              (foundProject sampleProject) asIs noLock "shop" w)
    as [_ [_ [_ Hnamed]]].
  apply (Hnamed unreachable w
           (snd (chooseAsset "" sampleParseTime hasToken
                   "/v1/projects/3/assets" false "" 0 w))
           sampleProject).
  - unfold asIs. discriminate.
  - reflexivity.
  - reflexivity.
Defined.

(** X22, on sample records: the same job in two states. *)
Lemma endpoints_identify_witness :
  Job_ProjectId (sampleJob "" "queued") = Job_ProjectId (sampleJob "" "processed")
  /\ Job_ID (sampleJob "" "queued") = Job_ID (sampleJob "" "processed").
Proof.
  destruct (endpoints_identify (sampleJob "" "queued")
              (sampleJob "" "processed") (sampleAsset "" 1 "api.yaml")
              (sampleAsset "" 2 "model.yaml")) as [Hjobs _].
  apply Hjobs. reflexivity.
Defined.

(** X23, on a sample run: the job is created, then found running, then
    processed, with a budget of 30 seconds. *)
Lemma build_runs_to_completion_witness :
  let w := sampleWorld (Time:=string) (inr sampleAuth)
             [inr (mkResponse 201 (inr (Parsed (jobText 7 "queued"))));
              jobReply "running"; jobReply "processed"] [] in
  let j := sampleJob "" "queued" in
  let url := "https://api.example.org/v1/projects/3/jobs" in
  let params := JobParams (mkJobParam (mkJob 0 "build" "" zeroJobResults
                                         3 "" "" "")) in
  let r := buildProject "" sampleParseTime hasToken
             (foundProject sampleProject) asIs "shop" (Some 30) w in
  fst r = Ret tt
  /\ sent (snd r) = 3%nat
  /\ trace (snd r)
     = (trace w ++ warning hasToken sampleAuth
        ++ [Sent "POST" url params sampleAuth; ShownJob j;
            Printed (announcement 30)]
        ++ concat (repeat (pollEvents hasToken w j sampleAuth) 2)
        ++ [ShownJob (sampleJob "" "processed")])%list.
Proof.
  intros w j url params.
  apply (build_runs_to_completion "" sampleParseTime hasToken
           (foundProject sampleProject) asIs "shop" 30 1 w w sampleProject
           sampleAuth
           (mkResponse 201 (inr (Parsed (jobText 7 "queued"))))
           j (sampleJob "" "processed")).
  - reflexivity.
  - intros method u. reflexivity.
  - reflexivity.
  - reflexivity.
  - reflexivity.
  - lia.
  - intros i Hi. assert (i = 0%nat) as -> by lia.
    exists (sampleJob "" "running"). split; [reflexivity | discriminate].
  - reflexivity.
  - reflexivity.
Defined.
